(** * AI-SOL frontend: the real-time event and state reconciliation layer

    A shallow embedding of
      - [frontend/src/services/websocket.ts]      (module [Transport]),
      - [frontend/src/services/event_handler.ts]  (module [EventRouter]),
      - [frontend/src/components/ProgressTimeline.tsx] (module [ProgressTimeline]),
      - [frontend/src/pages/Dashboard.tsx]        (modules [Dashboard],
        [Page] and [Cache]),
    followed by the properties of the specification that concern them.

    Conventions.  A JavaScript handler becomes a function from the state it
    closes over to the new state; what it does to the outside world (opening
    a socket, calling a subscriber, arming a timer) is recorded as a list of
    effects, a promise reaction after the effects of the handler that
    created the promise.  An exception is a [Throw] completion.  Values that
    the platform supplies ([JSON.parse], [new Date(..)], the clock) are
    inputs of the model. *)

From Stdlib Require Import ZArith Lia.
From stdpp Require Import base gmap strings list.

Set Warnings "-register-all".
Local Open Scope string_scope.
Local Open Scope list_scope.

(** ** Values shared by the modules *)

(** What [JSON.parse] returns.  Numbers are kept integral. *)
Inductive json : Type :=
| JNull
| JBool (b : bool)
| JNumber (n : Z)
| JString (s : string)
| JArray (items : list json)
| JObject (fields : list (string * json)).

(** A JavaScript completion: a value, or a thrown exception. *)
Inductive Completion (A : Type) : Type :=
| Normal (a : A)
| Throw.
Arguments Normal {A} a.
Arguments Throw {A}.

(** [fields[k]] of an object literal: the first binding of [k]. *)
Fixpoint assoc (k : string) (fields : list (string * json)) : option json :=
  match fields with
  | [] => None
  | (k', v) :: rest => if String.eqb k k' then Some v else assoc k rest
  end.

(** [data.k] for the keys the handlers read ([type], [event]): a [TypeError]
    on [null], [undefined] (here [None]) on primitives and arrays. *)
Definition member (data : json) (k : string) : Completion (option json) :=
  match data with
  | JNull => Throw
  | JObject fields => Normal (assoc k fields)
  | _ => Normal None
  end.

(** JavaScript truthiness of a value that may be [undefined]. *)
Definition truthy (v : option json) : bool :=
  match v with
  | None => false
  | Some JNull => false
  | Some (JBool b) => b
  | Some (JNumber n) => negb (Z.eqb n 0)
  | Some (JString s) => negb (String.eqb s "")
  | Some (JArray _) => true
  | Some (JObject _) => true
  end.

(** [v === s] for a string literal [s]. *)
Definition strict_eq_string (v : option json) (s : string) : bool :=
  match v with
  | Some (JString s') => String.eqb s' s
  | _ => false
  end.

(** [findIndex]: the index of the first element that satisfies [p]. *)
Fixpoint findIndex {A : Type} (p : A -> bool) (l : list A) : option nat :=
  match l with
  | [] => None
  | x :: rest => if p x then Some 0 else option_map S (findIndex p rest)
  end.

(** [some]: does an element satisfy [p]. *)
Definition some {A : Type} (p : A -> bool) (l : list A) : bool := existsb p l.

(** The nested event of a [workflow_event] envelope ([WorkflowEvent] of
    event_handler.ts).  [data] is opaque to every consumer modelled here. *)
Module Event.

Inductive Severity : Type :=
| debug | info | success | warning | error | critical.

Record WorkflowEvent : Type := {
  event_type : string;
  timestamp : string;
  project_id : string;
  stage : option string;
  agent : option string;
  message : string;
  data : option json;
  severity : option Severity;
  progress_percentage : option Z
}.

(** [e.stage] used as a condition: present and not the empty string. *)
Definition has_stage (e : WorkflowEvent) : bool :=
  match stage e with
  | Some st => negb (String.eqb st "")
  | None => false
  end.

End Event.

(** ** websocket.ts: the transport layer *)

Module Transport.

(** The envelope types the file declares ([WebSocketMessage]). *)
Definition envelope_types : list string :=
  ["LOG"; "FILE_GENERATED"; "CHAT_MESSAGE"; "CHAT_RESPONSE";
   "AWAITING_REVIEW"; "STATUS_UPDATE"; "CONNECTION_STATUS"; "workflow_event"].

(** A parsed frame is one of the recognized variants when its [type] field
    is one of the declared tags. *)
Definition recognized (data : json) : bool :=
  match data with
  | JObject fields =>
      match assoc "type" fields with
      | Some (JString t) => some (String.eqb t) envelope_types
      | _ => false
      end
  | _ => false
  end.

(** The [MessageEvent] handed to [onmessage]: the frame text [event.data]
    together with what [JSON.parse] makes of it ([None] when it throws). *)
Record MessageEvent : Type := {
  frame : string;
  parsed : option json
}.

(** A subscriber: its identity, and whether it throws on a given message. *)
Record WebSocketCallback : Type := {
  cb_id : nat;
  cb_throws : json -> bool
}.

(** The socket object held in [this.ws], identified by its url. *)
Record WebSocket : Type := { url : string }.

Record WebSocketService : Type := {
  ws : option WebSocket;
  callbacks : list WebSocketCallback;
  reconnectAttempts : nat;
  projectId : option string
}.

Definition reconnectInterval : Z := 3000.
Definition maxReconnectAttempts : nat := 10.

Inductive Effect : Type :=
| NewWebSocket (wsUrl : string)
| SocketClose
| Call (cb : nat) (message : json)
| SetTimeoutConnect (delay : Z)
| ImportEventHandler (ev : json)
| HandleEvent (ev : json)
| SocketSend (message : json)
| ConsoleLog (text : string)
| ConsoleWarn (text : string)
| ConsoleError (text : string).

(** The service methods run in a monad that threads the service object,
    logs effects, and may throw. *)
Definition M (A : Type) : Type :=
  WebSocketService -> WebSocketService * list Effect * Completion A.

Definition ret {A : Type} (a : A) : M A := fun s => (s, [], Normal a).

Definition bind {A B : Type} (m : M A) (k : A -> M B) : M B :=
  fun s =>
    match m s with
    | (s1, e1, Normal a) =>
        match k a s1 with
        | (s2, e2, r) => (s2, e1 ++ e2, r)
        end
    | (s1, e1, Throw) => (s1, e1, Throw)
    end.

Definition throw {A : Type} : M A := fun s => (s, [], Throw).

(** [try { body } catch { handler }]. *)
Definition try_catch {A : Type} (body handler : M A) : M A :=
  fun s =>
    match body s with
    | (s1, e1, Normal a) => (s1, e1, Normal a)
    | (s1, e1, Throw) =>
        match handler s1 with
        | (s2, e2, r) => (s2, e1 ++ e2, r)
        end
    end.

Definition this : M WebSocketService := fun s => (s, [], Normal s).
Definition emit (e : Effect) : M unit := fun s => (s, [e], Normal tt).
Definition lift {A : Type} (c : Completion A) : M A := fun s => (s, [], c).

Definition set_ws (w : option WebSocket) : M unit :=
  fun s => ({| ws := w; callbacks := callbacks s;
               reconnectAttempts := reconnectAttempts s;
               projectId := projectId s |}, [], Normal tt).
Definition set_callbacks (c : list WebSocketCallback) : M unit :=
  fun s => ({| ws := ws s; callbacks := c;
               reconnectAttempts := reconnectAttempts s;
               projectId := projectId s |}, [], Normal tt).
Definition set_reconnectAttempts (n : nat) : M unit :=
  fun s => ({| ws := ws s; callbacks := callbacks s;
               reconnectAttempts := n;
               projectId := projectId s |}, [], Normal tt).
Definition set_projectId (p : option string) : M unit :=
  fun s => ({| ws := ws s; callbacks := callbacks s;
               reconnectAttempts := reconnectAttempts s;
               projectId := p |}, [], Normal tt).

Declare Scope transport_scope.
Delimit Scope transport_scope with transport.
Notation "x <- m ;; k" := (bind m (fun x => k))
  (at level 100, m at next level, right associativity) : transport_scope.
Notation "m ;; k" := (bind m (fun _ => k))
  (at level 100, right associativity) : transport_scope.
Local Open Scope transport_scope.

(** [this.callbacks.forEach(callback => callback(message))]: the first
    subscriber that throws ends the iteration. *)
Fixpoint forEach_call (cbs : list WebSocketCallback) (message : json) : M unit :=
  match cbs with
  | [] => ret tt
  | cb :: rest =>
      emit (Call (cb_id cb) message) ;;
      if cb_throws cb message then throw else forEach_call rest message
  end.

Definition notify_all (message : json) : M unit :=
  s <- this ;; forEach_call (callbacks s) message.

Definition ConnectionStatusMessage (connected : bool) (now : string) : json :=
  JObject [("type", JString "CONNECTION_STATUS");
           ("connected", JBool connected);
           ("timestamp", JString now)].

Definition fallbackMessage (raw now : string) : json :=
  JObject [("type", JString "LOG");
           ("level", JString "info");
           ("message", JString raw);
           ("agent", JString "SYSTEM");
           ("timestamp", JString now)].

Definition _notifyConnectionStatus (connected : bool) (now : string) : M unit :=
  notify_all (ConnectionStatusMessage connected now).

(** [_connect]; [wsBaseUrl] is [VITE_WS_URL] or the local default.  The
    four handlers it installs are [onopen], [onmessage], [onclose] and
    [onerror] below. *)
Definition _connect (wsBaseUrl : string) : M unit :=
  s <- this ;;
  match projectId s with
  | None => ret tt
  | Some p =>
      if String.eqb p "" then ret tt
      else
        let wsUrl := wsBaseUrl +:+ "/" +:+ p in
        emit (ConsoleLog ("Connecting to WebSocket: " +:+ wsUrl)) ;;
        emit (NewWebSocket wsUrl) ;;
        set_ws (Some {| url := wsUrl |})
  end.

Definition connect (wsBaseUrl p : string) : M unit :=
  set_projectId (Some p) ;;
  set_reconnectAttempts 0 ;;
  _connect wsBaseUrl.

Definition onopen (now : string) : M unit :=
  emit (ConsoleLog "WebSocket Connected") ;;
  set_reconnectAttempts 0 ;;
  _notifyConnectionStatus true now.

(** What a promise created by a handler does when it is settled:
    [import('./event_handler').then(...)] calls
    [eventHandler.handleEvent(data.event)]. *)
Definition reaction (e : Effect) : option Effect :=
  match e with
  | ImportEventHandler ev => Some (HandleEvent ev)
  | _ => None
  end.

(** A handler followed by the reactions of the promises it created.  They
    run once the handler has returned or thrown, in the order of creation:
    the module is loaded with the page (ProgressTimeline imports it), so
    the promise is settled in the microtasks that follow the handler. *)
Definition then_reactions {A : Type} (m : M A) : M A :=
  fun s =>
    match m s with
    | (s1, e1, r) => (s1, e1 ++ omap reaction e1, r)
    end.

Definition onmessage (event : MessageEvent) (now : string) : M unit :=
  then_reactions
    (try_catch
       (match parsed event with
        | None => throw
        | Some data =>
            ty <- lift (member data "type") ;;
            (if strict_eq_string ty "workflow_event"
             then ev <- lift (member data "event") ;;
                  match ev with
                  | Some e =>
                      if truthy ev then emit (ImportEventHandler e) else ret tt
                  | None => ret tt
                  end
             else ret tt) ;;
            notify_all data
        end)
       (emit (ConsoleError "Error parsing WebSocket message:") ;;
        notify_all (fallbackMessage (frame event) now))).

Definition _reconnect : M unit :=
  s <- this ;;
  if Nat.ltb (reconnectAttempts s) maxReconnectAttempts then
    set_reconnectAttempts (S (reconnectAttempts s)) ;;
    emit (ConsoleLog "Attempting to reconnect...") ;;
    emit (SetTimeoutConnect reconnectInterval)
  else
    emit (ConsoleError "Max reconnect attempts reached. WebSocket connection failed.").

Definition onclose (now : string) : M unit :=
  emit (ConsoleLog "WebSocket Disconnected") ;;
  set_ws None ;;
  _notifyConnectionStatus false now ;;
  _reconnect.

Definition onerror : M unit :=
  emit (ConsoleError "WebSocket Error:") ;;
  s <- this ;;
  match ws s with
  | Some _ => emit SocketClose
  | None => ret tt
  end.

Definition disconnect : M unit :=
  s <- this ;;
  (match ws s with
   | Some _ => emit SocketClose ;; set_ws None
   | None => ret tt
   end) ;;
  set_projectId None.

Definition subscribe (callback : WebSocketCallback) : M unit :=
  s <- this ;; set_callbacks (callbacks s ++ [callback]).

(** The handle [subscribe] returns: drop every occurrence of [callback]. *)
Definition unsubscribe (callback : WebSocketCallback) : M unit :=
  s <- this ;;
  set_callbacks
    (List.filter (fun cb => negb (Nat.eqb (cb_id cb) (cb_id callback)))
       (callbacks s)).

(** [sendMessage]; [open] is whether the socket's [readyState] is [OPEN]. *)
Definition sendMessage (open : bool) (message : json) : M unit :=
  s <- this ;;
  match ws s with
  | Some _ =>
      if open then emit (SocketSend message)
      else emit (ConsoleWarn "WebSocket is not open. Cannot send message.")
  | None => emit (ConsoleWarn "WebSocket is not open. Cannot send message.")
  end.

(** The service object of [new WebSocketService()]. *)
Definition webSocketService : WebSocketService :=
  {| ws := None; callbacks := []; reconnectAttempts := 0; projectId := None |}.

(** What the browser reports for the socket in [this.ws]. *)
Inductive SocketEvent : Type :=
| Opened (now : string)
| Message (event : MessageEvent) (now : string)
| Closed (now : string)
| Errored
| TimerFired.

Definition handle (wsBaseUrl : string) (e : SocketEvent) : M unit :=
  match e with
  | Opened now => onopen now
  | Message event now => onmessage event now
  | Closed now => onclose now
  | Errored => onerror
  | TimerFired => _connect wsBaseUrl
  end.

(** Run a sequence of browser events; an exception that leaves a handler is
    reported by the event loop and does not stop later events. *)
Fixpoint run (wsBaseUrl : string) (es : list SocketEvent) (s : WebSocketService)
  : WebSocketService * list Effect :=
  match es with
  | [] => (s, [])
  | e :: rest =>
      match handle wsBaseUrl e s with
      | (s1, e1, _) =>
          match run wsBaseUrl rest s1 with
          | (s2, e2) => (s2, e1 ++ e2)
          end
      end
  end.

(** A connection attempt fails ([onclose] runs) and, three seconds later,
    the timer it armed starts the next attempt. *)
Definition failure_then_retry (now : string) : list SocketEvent :=
  [Closed now; TimerFired].

(** Any browser event but a successful open. *)
Definition not_opened (e : SocketEvent) : Prop :=
  match e with
  | Opened _ => False
  | _ => True
  end.

(** A subscriber that never throws. *)
Definition never_throws (cb : WebSocketCallback) : Prop :=
  forall m, cb_throws cb m = false.

Definition is_timeout (e : Effect) : bool :=
  match e with SetTimeoutConnect _ => true | _ => false end.

Definition timeouts (es : list Effect) : list Effect :=
  List.filter is_timeout es.

End Transport.

(** ** event_handler.ts: the event router and its history *)

Module EventRouter.

(** Callbacks are compared by identity ([indexOf]); an identity is a number.
    What a callback does is outside the router, and an exception it throws
    is caught around each call, so dispatch is the list of calls made. *)
Definition EventCallback : Type := nat.

Record EventHandler : Type := {
  listeners : gmap string (list EventCallback);
  eventHistory : list Event.WorkflowEvent
}.

Definition get_listeners (eventType : string) (h : EventHandler)
  : list EventCallback :=
  default [] (listeners h !! eventType).

Definition on (eventType : string) (callback : EventCallback) (h : EventHandler)
  : EventHandler :=
  {| listeners := <[eventType := get_listeners eventType h ++ [callback]]> (listeners h);
     eventHistory := eventHistory h |}.

Definition onAny (callback : EventCallback) (h : EventHandler) : EventHandler :=
  on "*" callback h.

(** [callbacks.splice(callbacks.indexOf(callback), 1)]. *)
Fixpoint splice_first (callback : EventCallback) (l : list EventCallback)
  : list EventCallback :=
  match l with
  | [] => []
  | c :: rest => if Nat.eqb c callback then rest else c :: splice_first callback rest
  end.

Definition off (eventType : string) (callback : EventCallback) (h : EventHandler)
  : EventHandler :=
  match listeners h !! eventType with
  | Some cbs =>
      {| listeners := <[eventType := splice_first callback cbs]> (listeners h);
         eventHistory := eventHistory h |}
  | None => h
  end.

(** [handleEvent]: push on the history, then call the listeners of the
    event's type and the wildcard listeners. *)
Definition handleEvent (event : Event.WorkflowEvent) (h : EventHandler)
  : EventHandler * list (EventCallback * Event.WorkflowEvent) :=
  let h' := {| listeners := listeners h;
               eventHistory := eventHistory h ++ [event] |} in
  let specificListeners := get_listeners (Event.event_type event) h' in
  let wildcardListeners := get_listeners "*" h' in
  (h', map (fun callback => (callback, event))
           (specificListeners ++ wildcardListeners)).

(** [l.slice(start)] of JavaScript. *)
Definition slice {A : Type} (start : Z) (l : list A) : list A :=
  let len := Z.of_nat (length l) in
  let k := if Z.ltb start 0 then Z.max (len + start) 0 else Z.min start len in
  drop (Z.to_nat k) l.

(** [getHistory(eventType?, limit?)]; an absent argument is [None].  Both
    arguments are tested for truthiness. *)
Definition getHistory (eventType : option string) (limit : option Z)
  (h : EventHandler) : list Event.WorkflowEvent :=
  let filtered :=
    match eventType with
    | Some t =>
        if String.eqb t "" then eventHistory h
        else List.filter (fun e => String.eqb (Event.event_type e) t) (eventHistory h)
    | None => eventHistory h
    end in
  match limit with
  | Some n => if Z.eqb n 0 then filtered else slice (- n) filtered
  | None => filtered
  end.

Definition clearHistory (h : EventHandler) : EventHandler :=
  {| listeners := listeners h; eventHistory := [] |}.

Definition getCurrentStage (h : EventHandler) : option string :=
  match rev (List.filter Event.has_stage (eventHistory h)) with
  | e :: _ => Event.stage e
  | [] => None
  end.

(** The exported instance, with the four default handlers registered. *)
Definition eventHandler : EventHandler :=
  on "human_input_required" 3
    (on "error_occurred" 2
       (on "workflow_completed" 1
          (on "workflow_started" 0
             {| listeners := ∅; eventHistory := [] |}))).

(** The router after a sequence of [handleEvent] calls. *)
Definition handleEvents (evs : list Event.WorkflowEvent) (h : EventHandler)
  : EventHandler :=
  fold_left (fun h e => fst (handleEvent e h)) evs h.

(** A call of one of the methods that write to the router; [getHistory] and
    [getCurrentStage] only read it. *)
Inductive Operation : Type :=
| CallOn (eventType : string) (callback : EventCallback)
| CallOnAny (callback : EventCallback)
| CallOff (eventType : string) (callback : EventCallback)
| CallHandleEvent (event : Event.WorkflowEvent)
| CallClearHistory.

Definition call (op : Operation) (h : EventHandler) : EventHandler :=
  match op with
  | CallOn eventType callback => on eventType callback h
  | CallOnAny callback => onAny callback h
  | CallOff eventType callback => off eventType callback h
  | CallHandleEvent event => fst (handleEvent event h)
  | CallClearHistory => clearHistory h
  end.

Definition calls (ops : list Operation) (h : EventHandler) : EventHandler :=
  fold_left (fun h op => call op h) ops h.

Definition is_clearHistory (op : Operation) : bool :=
  match op with CallClearHistory => true | _ => false end.

(** The event a call hands to the router, if it is a [handleEvent]. *)
Definition handed (op : Operation) : option Event.WorkflowEvent :=
  match op with CallHandleEvent event => Some event | _ => None end.

End EventRouter.

(** ** ProgressTimeline.tsx: the per-stage state *)

Module ProgressTimeline.

Inductive Status : Type := pending | running | completed | failed.

Record StageInfo : Type := {
  name : string;
  status : Status;
  agent : option string;
  startTime : option string;
  endTime : option string;
  message : option string;
  events : list Event.WorkflowEvent;
  expanded : bool
}.

Definition STAGES : list string :=
  ["requirements"; "architecture"; "developer"; "qa"; "devops"].

(** The initial value of the [stages] state. *)
Definition initial : gmap string StageInfo :=
  list_to_map
    (map (fun stage =>
            (stage, {| name := stage; status := pending; agent := None;
                       startTime := None; endTime := None; message := None;
                       events := []; expanded := false |}))
         STAGES).

(** The body of the [setStages] updater for one event of the stage. *)
Definition update_stage (event : Event.WorkflowEvent) (stageInfo : StageInfo)
  : StageInfo :=
  let pushed := events stageInfo ++ [event] in
  let ty := Event.event_type event in
  if String.eqb ty "stage_started" then
    {| name := name stageInfo; status := running;
       agent := Event.agent event;
       startTime := Some (Event.timestamp event);
       endTime := endTime stageInfo;
       message := Some (Event.message event);
       events := pushed; expanded := expanded stageInfo |}
  else if String.eqb ty "stage_completed" then
    {| name := name stageInfo; status := completed;
       agent := agent stageInfo;
       startTime := startTime stageInfo;
       endTime := Some (Event.timestamp event);
       message := Some (Event.message event);
       events := pushed; expanded := expanded stageInfo |}
  else if String.eqb ty "stage_failed" then
    {| name := name stageInfo; status := failed;
       agent := agent stageInfo;
       startTime := startTime stageInfo;
       endTime := Some (Event.timestamp event);
       message := Some (Event.message event);
       events := pushed; expanded := expanded stageInfo |}
  else if String.eqb ty "agent_thinking" then
    {| name := name stageInfo; status := status stageInfo;
       agent := agent stageInfo;
       startTime := startTime stageInfo;
       endTime := endTime stageInfo;
       message := Some (Event.message event);
       events := pushed; expanded := expanded stageInfo |}
  else
    {| name := name stageInfo; status := status stageInfo;
       agent := agent stageInfo;
       startTime := startTime stageInfo;
       endTime := endTime stageInfo;
       message := message stageInfo;
       events := pushed; expanded := expanded stageInfo |}.

(** The property names every object literal inherits from
    [Object.prototype] (ECMA-262, with the legacy accessors of its annex B).
    [updated[name]] on the copy [{ ...prev }] finds, under a name that is
    not a key of the map, the inherited function (for [__proto__], the
    prototype object): a truthy value that has no [events]. *)
Definition inherited : list string :=
  ["constructor"; "hasOwnProperty"; "isPrototypeOf"; "propertyIsEnumerable";
   "toLocaleString"; "toString"; "valueOf"; "__proto__";
   "__defineGetter__"; "__defineSetter__";
   "__lookupGetter__"; "__lookupSetter__"].

(** [handleEvent], the wildcard listener the component registers, with the
    [setStages] updater it queues; [projectId] is the prop the effect closes
    over.  A stage name that is a key of the map is updated; a name that is
    unknown leaves through [if (!stageInfo) return prev]; an inherited name
    passes that test, and [stageInfo.events.push] throws a [TypeError]. *)
Definition handleEvent (projectId : string) (event : Event.WorkflowEvent)
  (prev : gmap string StageInfo) : Completion (gmap string StageInfo) :=
  if negb (String.eqb (Event.project_id event) projectId) then Normal prev
  else
    match Event.stage event with
    | None => Normal prev
    | Some st =>
        if String.eqb st "" then Normal prev
        else
          match prev !! st with
          | Some stageInfo => Normal (<[st := update_stage event stageInfo]> prev)
          | None => if some (String.eqb st) inherited then Throw else Normal prev
          end
    end.

(** [toggleStageExpansion]; the render calls it with the names of [STAGES].
    Reading [.expanded] of a stage that is not in the map throws. *)
Definition toggleStageExpansion (stageName : string)
  (prev : gmap string StageInfo) : Completion (gmap string StageInfo) :=
  match prev !! stageName with
  | None => Throw
  | Some st =>
      Normal (<[stageName :=
                 {| name := name st; status := status st; agent := agent st;
                    startTime := startTime st; endTime := endTime st;
                    message := message st; events := events st;
                    expanded := negb (expanded st) |}]> prev)
  end.

(** The stage map after a sequence of events.  An updater that throws makes
    the render fail: the error boundary of App.tsx replaces the page, the
    timeline is unmounted and its listener removed, so no later event
    reaches it. *)
Fixpoint handleEvents (projectId : string) (evs : list Event.WorkflowEvent)
  (prev : gmap string StageInfo) : Completion (gmap string StageInfo) :=
  match evs with
  | [] => Normal prev
  | e :: rest =>
      match handleEvent projectId e prev with
      | Normal next => handleEvents projectId rest next
      | Throw => Throw
      end
  end.

Definition status_of (stageName : string) (stages : gmap string StageInfo)
  : option Status :=
  status <$> stages !! stageName.

End ProgressTimeline.

(** ** The envelope types of websocket.ts, as Dashboard.tsx imports them *)

Module Envelope.

Record FileGeneratedMessage : Type := {
  doc_type : string;
  filename : string;
  path : string;
  content : string;
  full_content : string;
  auto_focus : bool;
  timestamp : string
}.

Inductive Role : Type := user | ai.

Definition Role_eqb (a b : Role) : bool :=
  match a, b with
  | user, user => true
  | ai, ai => true
  | _, _ => false
  end.

Inductive Variant : Type := primary | secondary.

Record ActionButton : Type := {
  label : string;
  action : string;
  variant : Variant
}.

Inductive WebSocketMessage : Type :=
| LOG (level message agent timestamp : string)
| FILE_GENERATED (file : FileGeneratedMessage)
| CHAT_MESSAGE (role : Role) (content timestamp : string)
| CHAT_RESPONSE (message : string) (action : option string)
    (buttons : option (list ActionButton)) (timestamp : string)
| AWAITING_REVIEW (stage prompt : string) (files : list string)
    (timestamp : string)
| STATUS_UPDATE (status timestamp : string)
| CONNECTION_STATUS (connected : bool) (timestamp : string)
| workflow_event (event : Event.WorkflowEvent).

End Envelope.

(** ** Dashboard.tsx: the workflow state reducer *)

Module Dashboard.

Import Envelope.

Record ProjectStatus : Type := {
  status : string;
  current_step : string;
  steps_completed : list string;
  generated_files : option (list FileGeneratedMessage)
}.

Record ChatMessage : Type := {
  role : Role;
  content : string;
  timestamp : string
}.

(** The [useState] cells of the component that the handlers write (the
    panel widths, drag flags and the fullscreen flag are presentation
    only).  [status_] is the cell [status]: the plain name is the field of
    [ProjectStatus]. *)
Record State : Type := {
  status_ : option ProjectStatus;
  files : list FileGeneratedMessage;
  chatMessages : list ChatMessage;
  selectedFile : option FileGeneratedMessage;
  isChatLoading : bool;
  isConnected : bool;
  awaitingReview : bool;
  retryCount : nat
}.

Definition setStatus (v : option ProjectStatus) (s : State) : State :=
  {| status_ := v; files := files s; chatMessages := chatMessages s;
     selectedFile := selectedFile s; isChatLoading := isChatLoading s;
     isConnected := isConnected s; awaitingReview := awaitingReview s;
     retryCount := retryCount s |}.
Definition setFiles (f : list FileGeneratedMessage -> list FileGeneratedMessage)
  (s : State) : State :=
  {| status_ := status_ s; files := f (files s); chatMessages := chatMessages s;
     selectedFile := selectedFile s; isChatLoading := isChatLoading s;
     isConnected := isConnected s; awaitingReview := awaitingReview s;
     retryCount := retryCount s |}.
Definition setChatMessages (f : list ChatMessage -> list ChatMessage)
  (s : State) : State :=
  {| status_ := status_ s; files := files s; chatMessages := f (chatMessages s);
     selectedFile := selectedFile s; isChatLoading := isChatLoading s;
     isConnected := isConnected s; awaitingReview := awaitingReview s;
     retryCount := retryCount s |}.
Definition setSelectedFile (v : option FileGeneratedMessage) (s : State) : State :=
  {| status_ := status_ s; files := files s; chatMessages := chatMessages s;
     selectedFile := v; isChatLoading := isChatLoading s;
     isConnected := isConnected s; awaitingReview := awaitingReview s;
     retryCount := retryCount s |}.
Definition setIsChatLoading (v : bool) (s : State) : State :=
  {| status_ := status_ s; files := files s; chatMessages := chatMessages s;
     selectedFile := selectedFile s; isChatLoading := v;
     isConnected := isConnected s; awaitingReview := awaitingReview s;
     retryCount := retryCount s |}.
Definition setIsConnected (v : bool) (s : State) : State :=
  {| status_ := status_ s; files := files s; chatMessages := chatMessages s;
     selectedFile := selectedFile s; isChatLoading := isChatLoading s;
     isConnected := v; awaitingReview := awaitingReview s;
     retryCount := retryCount s |}.
Definition setAwaitingReview (v : bool) (s : State) : State :=
  {| status_ := status_ s; files := files s; chatMessages := chatMessages s;
     selectedFile := selectedFile s; isChatLoading := isChatLoading s;
     isConnected := isConnected s; awaitingReview := v;
     retryCount := retryCount s |}.
Definition setRetryCount (f : nat -> nat) (s : State) : State :=
  {| status_ := status_ s; files := files s; chatMessages := chatMessages s;
     selectedFile := selectedFile s; isChatLoading := isChatLoading s;
     isConnected := isConnected s; awaitingReview := awaitingReview s;
     retryCount := f (retryCount s) |}.

(** The state of a freshly mounted component; [savedStatus] and [savedChat]
    are what [localStorage] holds under [status_<id>] and [chat_<id>]. *)
Definition initialState (savedStatus : option ProjectStatus)
  (savedChat : option (list ChatMessage)) : State :=
  {| status_ := savedStatus; files := [];
     chatMessages := default [] savedChat;
     selectedFile := None; isChatLoading := false; isConnected := false;
     awaitingReview := false; retryCount := 0 |}.

(** The greeting the mount effect puts in an empty transcript; [chat_c] is
    the transcript of the render the effect belongs to. *)
Definition greet (chat_c : list ChatMessage) (nowIso : string) (s : State)
  : State :=
  match chat_c with
  | [] =>
      setChatMessages
        (fun _ =>
           [{| role := ai;
               content := "Welcome to AI-SOL! I'm your AI Architect. I'm analyzing your requirements and will guide you through the development process. The Requirements Agent is currently working on your specification.";
               timestamp := nowIso |}]) s
  | _ :: _ => s
  end.

(** *** fetchStatus *)

(** The [setFiles] updater of [fetchStatus]: push every server file whose
    path is not yet in the list being built. *)
Definition mergeFiles (generated : list FileGeneratedMessage)
  (prev : list FileGeneratedMessage) : list FileGeneratedMessage :=
  fold_left
    (fun newFiles serverFile =>
       if some (fun f => String.eqb (path f) (path serverFile)) newFiles
       then newFiles
       else newFiles ++ [serverFile])
    generated prev.

(** How [await projectService.getProjectStatus(projectId)] ends. *)
Inductive Response : Type :=
| Resolved (data : ProjectStatus)
| Rejected.

(** [Math.min(1000 * Math.pow(2, retryCount), 10000)]. *)
Definition backoff (retryCount : nat) : Z :=
  Z.min (1000 * 2 ^ Z.of_nat retryCount) 10000.

(** [fetchStatus]: [projectId] and [retryCount] are the values the closure
    captured; the result is the new state and the delay of the timer armed
    on failure (which later runs [setRetryCount(c => c + 1)]). *)
Definition fetchStatus (projectId : option string) (retryCount_c : nat)
  (response : Response) (s : State) : State * option Z :=
  match projectId with
  | None => (s, None)
  | Some p =>
      if String.eqb p "" then (s, None)
      else
        match response with
        | Resolved data =>
            let s1 := setRetryCount (fun _ => 0) (setStatus (Some data) s) in
            match generated_files data with
            | Some (g :: gs) => (setFiles (mergeFiles (g :: gs)) s1, None)
            | _ => (s1, None)
            end
        | Rejected => (s, Some (backoff retryCount_c))
        end
  end.

Definition retryTimerFired (s : State) : State :=
  setRetryCount (fun c => c + 1) s.

(** *** The WebSocket subscriber *)

Section Subscriber.

(** [new Date(ts).getTime()]: milliseconds, [None] for [NaN]. *)
Variable getTime : string -> option Z.

(** [Math.abs(getTime(a) - getTime(b)) < 2000]; false when either is [NaN]. *)
Definition within_2000 (a b : string) : bool :=
  match getTime a, getTime b with
  | Some x, Some y => Z.ltb (Z.abs (x - y)) 2000
  | _, _ => false
  end.

(** The [setFiles] updater of the FILE_GENERATED branch. *)
Definition upsertFile (message : FileGeneratedMessage)
  (prev : list FileGeneratedMessage) : list FileGeneratedMessage :=
  match findIndex (fun f => String.eqb (filename f) (filename message)) prev with
  | Some existingIndex => <[existingIndex := message]> prev
  | None => prev ++ [message]
  end.

Definition isDuplicate (r : Role) (c ts : string) (prev : list ChatMessage)
  : bool :=
  some (fun m => Role_eqb (role m) r
                 && String.eqb (content m) c
                 && within_2000 (timestamp m) ts) prev.

(** The [setChatMessages] updater of the CHAT_MESSAGE and CHAT_RESPONSE
    branches. *)
Definition appendChat (r : Role) (c ts : string) (prev : list ChatMessage)
  : list ChatMessage :=
  if isDuplicate r c ts prev then prev
  else prev ++ [{| role := r; content := c; timestamp := ts |}].

(** The optimistic [setChatMessages] updater of [handleSendMessage]:
    [nowIso] is [new Date().toISOString()], [nowMs] is [Date.now()]. *)
Definition appendOwn (message nowIso : string) (nowMs : Z)
  (prev : list ChatMessage) : list ChatMessage :=
  if some (fun m => String.eqb (content m) message
                    && Role_eqb (role m) user
                    && match getTime (timestamp m) with
                       | Some t => Z.ltb (nowMs - 5000) t
                       | None => false
                       end) prev
  then prev
  else prev ++ [{| role := user; content := message; timestamp := nowIso |}].

(** [handleSendMessage], from the call to the end of its [finally];
    [sent] is whether [chatWithOrchestrator] resolved, [laterIso] the clock
    when it rejected. *)
Definition handleSendMessage (projectId : option string)
  (message nowIso : string) (nowMs : Z) (sent : bool) (laterIso : string)
  (s : State) : State :=
  match projectId with
  | None => s
  | Some p =>
      if String.eqb p "" then s
      else
        let s1 := setChatMessages (appendOwn message nowIso nowMs)
                    (setIsChatLoading true s) in
        let s2 :=
          if sent then s1
          else setChatMessages
                 (fun prev =>
                    prev ++ [{| role := ai;
                                content := "Sorry, I encountered an error processing your message. Please check your connection.";
                                timestamp := laterIso |}]) s1 in
        setIsChatLoading false s2
  end.

(** What the effect closure captured when it subscribed: the [files] and
    [selectedFile] of that render (the effect depends on [projectId]
    only). *)
Record Captured : Type := {
  files_c : list FileGeneratedMessage;
  selectedFile_c : option FileGeneratedMessage
}.

(** The callback passed to [webSocketService.subscribe]. *)
Definition subscriber (c : Captured) (message : WebSocketMessage) (s : State)
  : State :=
  match message with
  | FILE_GENERATED file =>
      let s1 := setFiles (upsertFile file) s in
      if auto_focus file then setSelectedFile (Some file) s1 else s1
  | CONNECTION_STATUS connected _ => setIsConnected connected s
  | CHAT_MESSAGE r c' ts => setChatMessages (appendChat r c' ts) s
  | CHAT_RESPONSE m _ _ ts =>
      setChatMessages (appendChat ai m ts) (setIsChatLoading false s)
  | AWAITING_REVIEW _ _ _ _ =>
      let s1 := setAwaitingReview true s in
      if Nat.ltb 0 (length (files_c c)) && negb (bool_decide (is_Some (selectedFile_c c)))
      then setSelectedFile (last (files_c c)) s1
      else s1
  | _ => s
  end.

(** The effect that depends on [files]: select the newest file when none is
    selected. *)
Definition autoSelectEffect (s : State) : State :=
  if Nat.ltb 0 (length (files s)) && negb (bool_decide (is_Some (selectedFile s)))
  then setSelectedFile (last (files s)) s
  else s.

(** One delivery followed by the effects its state change triggers: the
    [files] effect runs when the delivery replaced the [files] array. *)
Definition deliver (c : Captured) (message : WebSocketMessage) (s : State)
  : State :=
  match message with
  | FILE_GENERATED _ => autoSelectEffect (subscriber c message s)
  | _ => subscriber c message s
  end.

(** The chat entry a delivery stands for, if it is a chat delivery. *)
Definition chat_entry (message : WebSocketMessage) : option ChatMessage :=
  match message with
  | CHAT_MESSAGE r c ts => Some {| role := r; content := c; timestamp := ts |}
  | CHAT_RESPONSE m _ _ ts => Some {| role := ai; content := m; timestamp := ts |}
  | _ => None
  end.

(** An entry with the role and content of [e]. *)
Definition same_message (e m : ChatMessage) : bool :=
  Role_eqb (role m) (role e) && String.eqb (content m) (content e).

(** What reaches the reducer: a pushed message, or a poll that ended. *)
Inductive Input : Type :=
| Push (message : WebSocketMessage)
| Poll (projectId : option string) (retryCount_c : nat) (response : Response).

(** A delivery that does not carry the role and content of [e]. *)
Definition other_than (e : ChatMessage) (i : Input) : Prop :=
  match i with
  | Push m =>
      match chat_entry m with
      | Some e' => same_message e e' = false
      | None => True
      end
  | Poll _ _ _ => True
  end.

Definition step (c : Captured) (i : Input) (s : State) : State :=
  match i with
  | Push message => subscriber c message s
  | Poll projectId retryCount_c response =>
      fst (fetchStatus projectId retryCount_c response s)
  end.

Definition steps (c : Captured) (inputs : list Input) (s : State) : State :=
  fold_left (fun s i => step c i s) inputs s.

End Subscriber.



(** [handleApprove]: clear the review gate, then send the chat message
    [approve]. *)
Definition handleApprove (getTime : string -> option Z)
  (projectId : option string) (nowIso : string) (nowMs : Z) (sent : bool)
  (laterIso : string) (s : State) : State :=
  handleSendMessage getTime projectId "approve" nowIso nowMs sent laterIso
    (setAwaitingReview false s).

End Dashboard.

(** ** Sample data, used where a property is run on a concrete input *)

Module Sample.

(** An event of type [ty] for project [pid] and stage [st]. *)
Definition event (ty pid : string) (st : option string) : Event.WorkflowEvent :=
  {| Event.event_type := ty; Event.timestamp := "2025-11-23T17:25:39.000Z";
     Event.project_id := pid; Event.stage := st;
     Event.agent := Some "RequirementsAgent";
     Event.message := "working"; Event.data := None;
     Event.severity := None; Event.progress_percentage := None |}.

(** [new Date(ts).getTime()] on the timestamps the samples use. *)
Definition getTime (ts : string) : option Z :=
  if String.eqb ts "2025-11-23T17:25:39.000Z" then Some 1763918739000%Z
  else if String.eqb ts "2025-11-23T17:25:40.500Z" then Some 1763918740500%Z
  else if String.eqb ts "2025-11-23T17:25:38.000Z" then Some 1763918738000%Z
  else if String.eqb ts "2025-11-23T17:25:30.000Z" then Some 1763918730000%Z
  else None.

Definition file (fname p body : string) (focus : bool)
  : Envelope.FileGeneratedMessage :=
  {| Envelope.doc_type := "requirements"; Envelope.filename := fname;
     Envelope.path := p; Envelope.content := body;
     Envelope.full_content := body; Envelope.auto_focus := focus;
     Envelope.timestamp := "2025-11-23T17:25:39.000Z" |}.

(** The closure of a subscription made at mount. *)
Definition at_mount : Dashboard.Captured :=
  {| Dashboard.files_c := []; Dashboard.selectedFile_c := None |}.

(** A freshly mounted dashboard with nothing cached. *)
Definition fresh : Dashboard.State := Dashboard.initialState None None.

Definition snapshot (fs : list Envelope.FileGeneratedMessage)
  : Dashboard.ProjectStatus :=
  {| Dashboard.status := "running"; Dashboard.current_step := "requirements";
     Dashboard.steps_completed := []; Dashboard.generated_files := Some fs |}.

(** The stage map once the requirements stage has been completed. *)
Definition requirements_done : gmap string ProgressTimeline.StageInfo :=
  <["requirements" :=
      {| ProgressTimeline.name := "requirements";
         ProgressTimeline.status := ProgressTimeline.completed;
         ProgressTimeline.agent := Some "RequirementsAgent";
         ProgressTimeline.startTime := Some "2025-11-23T17:25:39.000Z";
         ProgressTimeline.endTime := Some "2025-11-23T17:25:39.000Z";
         ProgressTimeline.message := Some "working";
         ProgressTimeline.events :=
           [event "stage_started" "proj-1" (Some "requirements");
            event "stage_completed" "proj-1" (Some "requirements")];
         ProgressTimeline.expanded := false |}]>
    ProgressTimeline.initial.

(** A subscriber that returns normally, and one that throws. *)
Definition quiet (id : nat) : Transport.WebSocketCallback :=
  {| Transport.cb_id := id; Transport.cb_throws := fun _ => false |}.
Definition fragile (id : nat) : Transport.WebSocketCallback :=
  {| Transport.cb_id := id; Transport.cb_throws := fun _ => true |}.

(** A subscriber that throws on a message that is not one of the envelope
    variants. *)
Definition picky (id : nat) : Transport.WebSocketCallback :=
  {| Transport.cb_id := id;
     Transport.cb_throws := fun m => negb (Transport.recognized m) |}.

(** The service after [connect] for project [proj-1], with subscribers. *)
Definition connected_service (cbs : list Transport.WebSocketCallback)
  : Transport.WebSocketService :=
  {| Transport.ws := Some {| Transport.url := "ws://localhost:8005/ws/proj-1" |};
     Transport.callbacks := cbs;
     Transport.reconnectAttempts := 0;
     Transport.projectId := Some "proj-1" |}.

End Sample.

(** ** Whole sessions of the transport service *)

Module Session.

Import Transport.

(** What happens to the service: a browser event on its socket, or a call
    of one of its methods. *)
Inductive Action : Type :=
| Browser (e : SocketEvent)
| Connect (p : string)
| Disconnect
| Subscribe (callback : WebSocketCallback)
| Unsubscribe (callback : WebSocketCallback)
| Send (open : bool) (message : json).

Definition perform (wsBaseUrl : string) (a : Action) : M unit :=
  match a with
  | Browser e => handle wsBaseUrl e
  | Connect p => connect wsBaseUrl p
  | Disconnect => disconnect
  | Subscribe callback => subscribe callback
  | Unsubscribe callback => unsubscribe callback
  | Send open message => sendMessage open message
  end.

(** A sequence of actions; an exception ends one action, not the session. *)
Fixpoint play (wsBaseUrl : string) (acts : list Action) (s : WebSocketService)
  : WebSocketService * list Effect :=
  match acts with
  | [] => (s, [])
  | a :: rest =>
      match perform wsBaseUrl a s with
      | (s1, e1, _) =>
          match play wsBaseUrl rest s1 with
          | (s2, e2) => (s2, e1 ++ e2)
          end
      end
  end.

Definition is_connect (a : Action) : bool :=
  match a with Connect _ => true | _ => false end.

Definition subscribes (id : nat) (a : Action) : bool :=
  match a with Subscribe callback => Nat.eqb (cb_id callback) id | _ => false end.

Definition is_new_socket (e : Effect) : bool :=
  match e with NewWebSocket _ => true | _ => false end.

Definition is_send (e : Effect) : bool :=
  match e with SocketSend _ => true | _ => false end.

Definition is_call (e : Effect) : bool :=
  match e with Call _ _ => true | _ => false end.

Definition is_call_to (id : nat) (e : Effect) : bool :=
  match e with Call cb _ => Nat.eqb cb id | _ => false end.

Definition is_forward (e : Effect) : bool :=
  match e with HandleEvent _ => true | _ => false end.

(** A call, if it is one, goes to a subscriber whose identity is in [ids]. *)
Definition calls_within (ids : list nat) (e : Effect) : Prop :=
  match e with
  | Call id _ => In id ids
  | _ => True
  end.

(** Neither a new socket nor a frame sent. *)
Definition no_traffic (e : Effect) : Prop :=
  match e with
  | NewWebSocket _ | SocketSend _ => False
  | _ => True
  end.

(** The event [onmessage] hands to the router for a frame: the [event] of a
    [workflow_event] object, when it is truthy. *)
Definition forwarded_event (event : MessageEvent) : option json :=
  match parsed event with
  | Some (JObject fields) =>
      if strict_eq_string (assoc "type" fields) "workflow_event"
      then match assoc "event" fields with
           | Some e => if truthy (Some e) then Some e else None
           | None => None
           end
      else None
  | _ => None
  end.

End Session.

(** ** Dashboard.tsx: the effect on [projectId] and its cleanup *)

Module Page.

Import Transport.
Local Open Scope transport_scope.

(** What a run of the effect (Dashboard.tsx 184-271) leaves to its cleanup:
    the interval, with the [projectId] its [fetchStatus] closes over, and
    the subscriber, whose [unsubscribe] handle it holds. *)
Record Live : Type := {
  statusInterval : string;
  subscriber : WebSocketCallback
}.

(** The page: the run of the effect that is live, if any, and the service
    object shared by all pages. *)
Record Page : Type := {
  live : option Live;
  service : WebSocketService
}.

(** What the page does to the outside: the status request of a
    [fetchStatus] call, or an effect of the service. *)
Inductive Output : Type :=
| GetProjectStatus (projectId : string)
| Service (e : Effect).

(** The body of the effect in a render with [projectId]; [callback] is the
    subscriber this run creates.  (The greeting it may put in the
    transcript is [Dashboard.greet].) *)
Definition effect (wsBaseUrl : string) (projectId : option string)
  (callback : WebSocketCallback) (pg : Page) : Page * list Output :=
  match projectId with
  | None => (pg, [])
  | Some p =>
      if String.eqb p "" then (pg, [])
      else
        match (connect wsBaseUrl p ;; subscribe callback) (service pg) with
        | (s1, e1, _) =>
            ({| live := Some {| statusInterval := p; subscriber := callback |};
                service := s1 |},
             GetProjectStatus p :: map Service e1)
        end
  end.

(** The cleanup the effect returns: [clearInterval], [unsubscribe],
    [disconnect].  React runs it before the next run of the effect and at
    unmount. *)
Definition cleanup (pg : Page) : Page * list Output :=
  match live pg with
  | None => (pg, [])
  | Some l =>
      match (unsubscribe (subscriber l) ;; disconnect) (service pg) with
      | (s1, e1, _) => ({| live := None; service := s1 |}, map Service e1)
      end
  end.

(** What can happen between two runs of the effect: the interval fires,
    which it does only while it is live, or the browser reports something
    for a socket or a reconnect timer of the service. *)
Inductive Occurrence : Type :=
| IntervalFired
| Browser (e : SocketEvent).

Definition occur (wsBaseUrl : string) (o : Occurrence) (pg : Page)
  : Page * list Output :=
  match o with
  | IntervalFired =>
      (pg, match live pg with
           | Some l => [GetProjectStatus (statusInterval l)]
           | None => []
           end)
  | Browser e =>
      match handle wsBaseUrl e (service pg) with
      | (s1, e1, _) => ({| live := live pg; service := s1 |}, map Service e1)
      end
  end.

Fixpoint occurrences (wsBaseUrl : string) (os : list Occurrence) (pg : Page)
  : Page * list Output :=
  match os with
  | [] => (pg, [])
  | o :: rest =>
      match occur wsBaseUrl o pg with
      | (pg1, out1) =>
          match occurrences wsBaseUrl rest pg1 with
          | (pg2, out2) => (pg2, out1 ++ out2)
          end
      end
  end.


End Page.

(** ** Reading the router and the timeline *)

Module Reading.

(** How often [callback] occurs in a list of listeners or of calls. *)
Definition times (callback : nat) (l : list nat) : nat :=
  length (List.filter (Nat.eqb callback) l).

(** The callbacks a [handleEvent] call invoked, in order. *)
Definition called (h : EventRouter.EventHandler) (event : Event.WorkflowEvent)
  : list nat :=
  map fst (snd (EventRouter.handleEvent event h)).

(** The timeline takes [e] for stage [st]: same project, and [e.stage] is
    [st] and not the empty string. *)
Definition accepted (projectId st : string) (e : Event.WorkflowEvent) : bool :=
  String.eqb (Event.project_id e) projectId
  && match Event.stage e with
     | Some s => negb (String.eqb s "") && String.eqb s st
     | None => false
     end.

(** The timeline's updater throws on [e]: an event of its project whose
    [stage] is an inherited name and not a key of the stage map. *)
Definition fatal (projectId : string)
  (stages : gmap string ProgressTimeline.StageInfo) (e : Event.WorkflowEvent)
  : bool :=
  String.eqb (Event.project_id e) projectId
  && match Event.stage e with
     | Some s =>
         negb (String.eqb s "")
         && negb (bool_decide (is_Some (stages !! s)))
         && some (String.eqb s) ProgressTimeline.inherited
     | None => false
     end.

(** The status an event type assigns, if it assigns one. *)
Definition status_event (e : Event.WorkflowEvent)
  : option ProgressTimeline.Status :=
  if String.eqb (Event.event_type e) "stage_started"
  then Some ProgressTimeline.running
  else if String.eqb (Event.event_type e) "stage_completed"
  then Some ProgressTimeline.completed
  else if String.eqb (Event.event_type e) "stage_failed"
  then Some ProgressTimeline.failed
  else None.

(** The connected flag a pushed message carries, if it is a
    CONNECTION_STATUS. *)
Definition connection_of (i : Dashboard.Input) : option bool :=
  match i with
  | Dashboard.Push (Envelope.CONNECTION_STATUS connected _) => Some connected
  | _ => None
  end.

Definition is_awaiting_review (i : Dashboard.Input) : bool :=
  match i with
  | Dashboard.Push (Envelope.AWAITING_REVIEW _ _ _ _) => true
  | _ => false
  end.

End Reading.

(** ** Dashboard.tsx: the session cache in [localStorage] *)

Module Cache.

Import Dashboard.

(** What [localStorage] holds under a key: the text [JSON.stringify] made of
    a transcript or of a status, read back by [JSON.parse] as the same
    value. *)
Inductive Stored : Type :=
| ChatJson (chat : list ChatMessage)
| StatusJson (st : ProjectStatus).

Definition chat_key (p : string) : string := "chat_" +:+ p.
Definition status_key (p : string) : string := "status_" +:+ p.

(** The effect on [chatMessages, projectId]. *)
Definition persistChat (projectId : option string) (chat : list ChatMessage)
  (store : gmap string Stored) : gmap string Stored :=
  match projectId with
  | None => store
  | Some p =>
      if String.eqb p "" then store
      else
        match chat with
        | [] => store
        | _ :: _ => <[chat_key p := ChatJson chat]> store
        end
  end.

(** The effect on [status, projectId]. *)
Definition persistStatus (projectId : option string)
  (st : option ProjectStatus) (store : gmap string Stored)
  : gmap string Stored :=
  match projectId with
  | None => store
  | Some p =>
      if String.eqb p "" then store
      else
        match st with
        | None => store
        | Some v => <[status_key p := StatusJson v]> store
        end
  end.

(** Both effects, after a render with state [s]. *)
Definition persist (projectId : option string) (s : State)
  (store : gmap string Stored) : gmap string Stored :=
  persistStatus projectId (status_ s)
    (persistChat projectId (chatMessages s) store).

(** The initializers of the [chatMessages] and [status] cells.  A value of
    the other shape under the key is outside the typed state: [None]. *)
Definition loadChat (projectId : option string) (store : gmap string Stored)
  : option (list ChatMessage) :=
  match projectId with
  | None => Some []
  | Some p =>
      if String.eqb p "" then Some []
      else
        match store !! chat_key p with
        | None => Some []
        | Some (ChatJson chat) => Some chat
        | Some (StatusJson _) => None
        end
  end.

Definition loadStatus (projectId : option string) (store : gmap string Stored)
  : option (option ProjectStatus) :=
  match projectId with
  | None => Some None
  | Some p =>
      if String.eqb p "" then Some None
      else
        match store !! status_key p with
        | None => Some None
        | Some (StatusJson v) => Some (Some v)
        | Some (ChatJson _) => None
        end
  end.

(** A store written by the two effects only. *)
Inductive written : gmap string Stored -> Prop :=
| written_empty : written ∅
| written_persist (projectId : option string) (s : State)
    (store : gmap string Stored) :
    written store -> written (persist projectId s store).

End Cache.

(** * Properties *)

(** ** The event router *)

Section EventRouterFacts.

Import EventRouter.

Lemma handleEvents_history (evs : list Event.WorkflowEvent) (h : EventHandler) :
  eventHistory (handleEvents evs h) = eventHistory h ++ evs.
Proof.
  revert h. induction evs as [|e evs IH]; intros h.
  - simpl. by rewrite app_nil_r.
  - unfold handleEvents in *. simpl. rewrite IH. simpl.
    by rewrite <- app_assoc.
Qed.

Lemma slice_last_length {A : Type} (p : positive) (l : list A) :
  length (slice (- Z.pos p) l) <= Pos.to_nat p.
Proof.
  unfold slice. rewrite length_drop.
  destruct (Z.ltb_spec (- Z.pos p) 0); lia.
Qed.

(** The history after a sequence of calls that does not clear it. *)
Lemma calls_history (ops : list Operation) (h : EventHandler) :
  existsb is_clearHistory ops = false ->
  eventHistory (calls ops h) = eventHistory h ++ omap handed ops.
Proof.
  revert h. induction ops as [|op ops IH]; intros h Hops.
  - simpl. by rewrite app_nil_r.
  - simpl in Hops. apply orb_false_iff in Hops as [Hop Hops].
    unfold calls in *. simpl. rewrite (IH _ Hops).
    destruct op as [t cb|cb|t cb|e|]; simpl; try reflexivity.
    + unfold off. by destruct (listeners h !! t).
    + by rewrite <- app_assoc.
    + discriminate.
Qed.

(** C10: a limit of zero is falsy, so [getHistory(type, 0)] is
    [getHistory(type)].  Whatever the history holds, the query with limit
    zero returns all the retained events of the type asked for, in order
    (all the events when no type, or the empty string, is given), not the
    empty list: every retained event of the type is in the answer.  Zero is
    the only limit treated so: a positive limit bounds the answer. *)
Theorem getHistory_limit_zero (eventType : option string) (h : EventHandler)
  (evs : list Event.WorkflowEvent) (p : positive) :
  let retained := eventHistory h ++ evs in
  let after := handleEvents evs h in
  getHistory eventType (Some 0%Z) after
  = match eventType with
    | Some ty =>
        if String.eqb ty "" then retained
        else List.filter (fun e => String.eqb (Event.event_type e) ty) retained
    | None => retained
    end
  /\ getHistory eventType (Some 0%Z) after = getHistory eventType None after
  /\ (forall e ty, eventType = Some ty -> In e retained ->
        Event.event_type e = ty ->
        In e (getHistory eventType (Some 0%Z) after))
  /\ (eventType = None ->
        length (getHistory eventType (Some 0%Z) after)
        = length (eventHistory h) + length evs)
  /\ length (getHistory eventType (Some (Z.pos p)) after) <= Pos.to_nat p.
Proof.
  intros retained after.
  assert (H : getHistory eventType (Some 0%Z) after
              = match eventType with
                | Some ty =>
                    if String.eqb ty "" then retained
                    else List.filter
                           (fun e => String.eqb (Event.event_type e) ty) retained
                | None => retained
                end).
  { unfold getHistory, after, retained. rewrite handleEvents_history.
    reflexivity. }
  split; [exact H|]. split; [reflexivity|]. split; [|split].
  - intros e ty -> Hin Hty. rewrite H.
    destruct (String.eqb ty ""); [exact Hin|].
    apply filter_In. split; [exact Hin|]. by apply String.eqb_eq.
  - intros ->. rewrite H. unfold retained. by rewrite length_app.
  - unfold getHistory. simpl. apply slice_last_length.
Qed.

(** C9 (as the code has it): the router keeps every event it is handed.
    After any sequence of [handleEvent] calls the unfiltered history is the
    old history followed by all the events, in order, and the history of a
    type is made of exactly the retained events of that type, in order.
    The only bound is the one a query asks for: a positive [limit] returns
    at most that many entries.  No method but [clearHistory] removes an
    entry: after any calls of [on], [onAny], [off] and [handleEvent] the
    history is the old one followed by the events handed over;
    [clearHistory] empties it. *)
Theorem history_retains_every_event
  (evs : list Event.WorkflowEvent) (ops : list Operation) (h : EventHandler)
  (ty : string) (eventType : option string) (p : positive) :
  getHistory None None (handleEvents evs h) = getHistory None None h ++ evs
  /\ (ty <> "" ->
        getHistory (Some ty) None (handleEvents evs h)
        = List.filter (fun e => String.eqb (Event.event_type e) ty)
            (getHistory None None h ++ evs))
  /\ length (getHistory eventType (Some (Z.pos p)) (handleEvents evs h))
     <= Pos.to_nat p
  /\ (existsb is_clearHistory ops = false ->
        getHistory None None (calls ops h)
        = getHistory None None h ++ omap handed ops)
  /\ getHistory None None (clearHistory (calls ops h)) = [].
Proof.
  split; [|split; [|split; [|split]]].
  - simpl. apply handleEvents_history.
  - intros Hty. unfold getHistory. rewrite handleEvents_history.
    by destruct (String.eqb_spec ty "").
  - unfold getHistory. simpl. apply slice_last_length.
  - intros Hops. unfold getHistory. by apply calls_history.
  - reflexivity.
Qed.

(** C9 (as stated) fails: no bound [N] holds for the retained history of a
    type, since [N + 1] events of one type are all kept. *)
Lemma history_has_no_bound :
  ~ (exists N : nat,
        forall (evs : list Event.WorkflowEvent) (ty : string),
          length (getHistory (Some ty) None (handleEvents evs eventHandler)) <= N).
Proof.
  intros [N HN].
  specialize (HN (replicate (S N) (Sample.event "agent_thinking" "proj-1" None)) "agent_thinking").
  unfold getHistory in HN. rewrite handleEvents_history in HN.
  simpl in HN.
  assert (Hall : forall n,
    List.filter (fun e => String.eqb (Event.event_type e) "agent_thinking")
      (replicate n (Sample.event "agent_thinking" "proj-1" None))
    = replicate n (Sample.event "agent_thinking" "proj-1" None)).
  { induction n as [|n IH]; [reflexivity|]. simpl. by rewrite IH. }
  change (Sample.event "agent_thinking" "proj-1" None :: replicate N (Sample.event "agent_thinking" "proj-1" None))
    with (replicate (S N) (Sample.event "agent_thinking" "proj-1" None)) in HN.
  rewrite Hall, length_replicate in HN. lia.
Qed.

End EventRouterFacts.

(** ** The per-stage state *)

Section ProgressTimelineFacts.

Import ProgressTimeline Reading.

Lemma update_stage_not_pending (event : Event.WorkflowEvent) (stageInfo : StageInfo) :
  status (update_stage event stageInfo) = pending -> status stageInfo = pending.
Proof.
  unfold update_stage.
  repeat (match goal with |- context [if ?b then _ else _] => destruct b end);
    simpl; congruence.
Qed.

(** One event: the updater throws exactly on a fatal event. *)
Lemma handleEvent_fatal (projectId : string) (e : Event.WorkflowEvent)
  (m : gmap string StageInfo) :
  fatal projectId m e = true -> handleEvent projectId e m = Throw.
Proof.
  unfold fatal, handleEvent.
  destruct (String.eqb (Event.project_id e) projectId); simpl; [|done].
  destruct (Event.stage e) as [s|]; [|done].
  destruct (String.eqb s ""); simpl; [done|].
  destruct (m !! s) as [info|]; simpl; [done|].
  by intros ->.
Qed.

(** Otherwise the stage [st] is updated when the event is taken for it, and
    untouched when it is not. *)
Lemma handleEvent_lookup (projectId : string) (e : Event.WorkflowEvent)
  (m : gmap string StageInfo) :
  fatal projectId m e = false ->
  exists m',
    handleEvent projectId e m = Normal m'
    /\ forall st, m' !! st
                  = if accepted projectId st e then update_stage e <$> m !! st
                    else m !! st.
Proof.
  unfold fatal, handleEvent, accepted.
  destruct (String.eqb (Event.project_id e) projectId); simpl; [|by eauto].
  destruct (Event.stage e) as [s|]; [|by eauto].
  destruct (String.eqb_spec s "") as [->|Hs]; simpl; [by eauto|].
  destruct (m !! s) as [info|] eqn:Hm; simpl.
  - intros _. eexists. split; [reflexivity|]. intros st.
    destruct (String.eqb_spec s st) as [<-|Hne].
    + by rewrite lookup_insert_eq, Hm.
    + by rewrite lookup_insert_ne.
  - intros ->. eexists. split; [reflexivity|]. intros st.
    destruct (String.eqb_spec s st) as [<-|Hne]; [|done]. by rewrite Hm.
Qed.

Lemma fatal_same_keys (projectId : string) (m m' : gmap string StageInfo)
  (e : Event.WorkflowEvent) :
  (forall st, is_Some (m' !! st) <-> is_Some (m !! st)) ->
  fatal projectId m' e = fatal projectId m e.
Proof.
  intros H. unfold fatal. destruct (Event.stage e) as [s|]; [|done].
  by rewrite (bool_decide_ext _ _ (H s)).
Qed.

Lemma handleEvent_keys (projectId : string) (e : Event.WorkflowEvent)
  (m m' : gmap string StageInfo) :
  handleEvent projectId e m = Normal m' ->
  forall st, is_Some (m' !! st) <-> is_Some (m !! st).
Proof.
  intros H st. destruct (fatal projectId m e) eqn:Hf.
  - rewrite (handleEvent_fatal _ _ _ Hf) in H. discriminate.
  - destruct (handleEvent_lookup _ _ _ Hf) as (m'' & Heq & Hl).
    rewrite Heq in H. injection H as <-. rewrite Hl.
    destruct (accepted projectId st e); [|done].
    by rewrite <- !not_eq_None_Some, fmap_None.
Qed.

Lemma existsb_same {A : Type} (f g : A -> bool) (l : list A) :
  (forall x, f x = g x) -> existsb f l = existsb g l.
Proof. intros H. induction l as [|x l IH]; [reflexivity|]. simpl. by rewrite H, IH. Qed.

Lemma timeline_events_cons (projectId : string) (e : Event.WorkflowEvent)
  (evs : list Event.WorkflowEvent) (m : gmap string StageInfo) :
  handleEvents projectId (e :: evs) m
  = match handleEvent projectId e m with
    | Normal next => handleEvents projectId evs next
    | Throw => Throw
    end.
Proof. reflexivity. Qed.

(** A sequence of events: the timeline is lost exactly when one of them is
    fatal. *)
Lemma handleEvents_fatal (projectId : string) (evs : list Event.WorkflowEvent)
  (m : gmap string StageInfo) :
  existsb (fatal projectId m) evs = true -> handleEvents projectId evs m = Throw.
Proof.
  revert m. induction evs as [|e evs IH]; intros m H; [discriminate|].
  rewrite timeline_events_cons. simpl in H.
  destruct (fatal projectId m e) eqn:Hf.
  - by rewrite handleEvent_fatal.
  - destruct (handleEvent_lookup _ _ _ Hf) as (m' & Heq & _). rewrite Heq.
    apply IH. rewrite <- H. simpl. apply existsb_same. intros e'.
    apply fatal_same_keys. by apply (handleEvent_keys projectId e).
Qed.

(** Otherwise each stage depends on the events taken for it, and on nothing
    else. *)
Lemma handleEvents_lookup (projectId : string) (evs : list Event.WorkflowEvent)
  (m : gmap string StageInfo) :
  existsb (fatal projectId m) evs = false ->
  exists m',
    handleEvents projectId evs m = Normal m'
    /\ forall st, m' !! st
                  = (fun info =>
                       fold_left (fun i e => update_stage e i)
                         (List.filter (accepted projectId st) evs) info)
                    <$> m !! st.
Proof.
  revert m. induction evs as [|e evs IH]; intros m H.
  - exists m. split; [reflexivity|]. intros st. simpl. by destruct (m !! st).
  - rewrite timeline_events_cons. simpl in H.
    apply orb_false_iff in H as [Hf H].
    destruct (handleEvent_lookup _ _ _ Hf) as (m1 & Heq & Hl). rewrite Heq.
    destruct (IH m1) as (m' & Heq' & Hl').
    { rewrite <- H. apply existsb_same. intros e'.
      apply fatal_same_keys. by apply (handleEvent_keys projectId e). }
    exists m'. split; [exact Heq'|]. intros st. rewrite Hl', Hl. simpl.
    destruct (accepted projectId st e); simpl;
      destruct (m !! st); reflexivity.
Qed.

Lemma update_stage_fields (e : Event.WorkflowEvent) (info : StageInfo) :
  name (update_stage e info) = name info
  /\ events (update_stage e info) = events info ++ [e]
  /\ expanded (update_stage e info) = expanded info
  /\ status (update_stage e info) = default (status info) (status_event e).
Proof.
  unfold update_stage, status_event.
  repeat (match goal with |- context [if ?b then _ else _] => destruct b end);
    simpl; done.
Qed.

Lemma fold_update_fields (l : list Event.WorkflowEvent) (info : StageInfo) :
  let info' := fold_left (fun i e => update_stage e i) l info in
  name info' = name info
  /\ events info' = events info ++ l
  /\ status info' = default (status info) (last (omap status_event l)).
Proof.
  revert info. induction l as [|e l IH]; intros info; simpl.
  - by rewrite app_nil_r.
  - destruct (IH (update_stage e info)) as (Hn & He & Hs).
    destruct (update_stage_fields e info) as (Hn' & He' & _ & Hs').
    rewrite Hn, He, Hs, Hn', He', Hs', <- app_assoc.
    split; [reflexivity|]. split; [reflexivity|].
    cbn [omap list_omap].
    destruct (status_event e) as [x|]; simpl; [|reflexivity].
    change (list_omap _ _ status_event l) with (omap status_event l).
    rewrite last_cons. by destruct (last (omap status_event l)).
Qed.

(** A status other than pending stays other than pending under any events
    taken for the stage. *)
Lemma fold_update_not_pending (l : list Event.WorkflowEvent) (info : StageInfo) :
  status info <> pending ->
  status (fold_left (fun i e => update_stage e i) l info) <> pending.
Proof.
  revert info. induction l as [|e l IH]; intros info H; [exact H|].
  simpl. apply IH. intros Hp. by apply update_stage_not_pending in Hp.
Qed.

(** C4: whatever events follow, a stage that is completed or failed is
    never pending again.  As long as the timeline is on display (no event
    made its updater throw) the stage is in the map with a status that is
    one of running, completed and failed, the only values a handler
    assigns; an event that makes the updater throw ends the display of the
    timeline, and with it of every status. *)
Theorem completed_or_failed_never_pending (projectId stageName : string)
  (evs : list Event.WorkflowEvent) (m : gmap string StageInfo) :
  status_of stageName m = Some completed \/ status_of stageName m = Some failed ->
  (existsb (fatal projectId m) evs = false ->
     exists m' st',
       handleEvents projectId evs m = Normal m'
       /\ status_of stageName m' = Some st' /\ st' <> pending)
  /\ (existsb (fatal projectId m) evs = true ->
        handleEvents projectId evs m = Throw)
  /\ (forall m', handleEvents projectId evs m = Normal m' ->
        exists st', status_of stageName m' = Some st' /\ st' <> pending).
Proof.
  intros H.
  assert (Hgen : exists info, m !! stageName = Some info /\ status info <> pending).
  { unfold status_of in H.
    destruct (m !! stageName) as [info|]; [|by destruct H].
    exists info. split; [reflexivity|].
    simpl in H. destruct H as [H|H]; injection H as ->; discriminate. }
  destruct Hgen as (info & Hinfo & Hne).
  assert (Hlive : existsb (fatal projectId m) evs = false ->
    exists m' st',
      handleEvents projectId evs m = Normal m'
      /\ status_of stageName m' = Some st' /\ st' <> pending).
  { intros Hf. destruct (handleEvents_lookup _ _ _ Hf) as (m' & Heq & Hl).
    exists m'. eexists. split; [exact Heq|].
    unfold status_of. rewrite Hl, Hinfo. simpl. split; [reflexivity|].
    by apply fold_update_not_pending. }
  split; [exact Hlive|]. split; [apply handleEvents_fatal|].
  intros m' Hm'. destruct (existsb (fatal projectId m) evs) eqn:Hf.
  - rewrite (handleEvents_fatal _ _ _ Hf) in Hm'. discriminate.
  - destruct (Hlive eq_refl) as (m'' & st' & Heq & Hst & Hp).
    rewrite Heq in Hm'. injection Hm' as <-. eauto.
Qed.


End ProgressTimelineFacts.

(** ** The dashboard reducer: polling *)

Section PollFacts.

Import Envelope Dashboard.

Lemma some_path_In (p : string) (l : list FileGeneratedMessage) :
  some (fun f => String.eqb (path f) p) l = true <-> In p (map path l).
Proof.
  unfold some. rewrite existsb_exists, in_map_iff. split.
  - intros (f & Hin & Heq). apply String.eqb_eq in Heq. eauto.
  - intros (f & Heq & Hin). exists f. split; [done|]. by apply String.eqb_eq.
Qed.

Lemma mergeFiles_cons (g : FileGeneratedMessage)
  (gs prev : list FileGeneratedMessage) :
  mergeFiles (g :: gs) prev
  = mergeFiles gs
      (if some (fun f => String.eqb (path f) (path g)) prev
       then prev else prev ++ [g]).
Proof. reflexivity. Qed.

(** The merge only appends: what it adds comes from the snapshot, was not
    known by path, carries pairwise distinct paths, and afterwards every
    path of the snapshot is known. *)
Lemma mergeFiles_spec (generated prev : list FileGeneratedMessage) :
  exists added,
    mergeFiles generated prev = prev ++ added
    /\ (forall f, In f added -> In f generated /\ ~ In (path f) (map path prev))
    /\ List.NoDup (map path added)
    /\ (forall g, In g generated ->
                  In (path g) (map path (mergeFiles generated prev))).
Proof.
  revert prev. induction generated as [|g gs IH]; intros prev.
  - exists []. simpl. rewrite app_nil_r.
    repeat split; try done. constructor.
  - rewrite mergeFiles_cons.
    destruct (some _ prev) eqn:Hs.
    + destruct (IH prev) as (added & Heq & Hfrom & Hnd & Hall).
      exists added. repeat split; try done.
      * right. by apply Hfrom.
      * by apply Hfrom.
      * intros g' [<-|Hin]; [|by apply Hall].
        apply some_path_In in Hs. rewrite Heq, map_app, in_app_iff. by left.
    + destruct (IH (prev ++ [g])) as (added & Heq & Hfrom & Hnd & Hall).
      assert (Hg : ~ In (path g) (map path prev)).
      { intros Hin. apply some_path_In in Hin. congruence. }
      exists (g :: added). rewrite Heq, <- app_assoc. simpl.
      repeat split.
      * destruct H as [<-|Hin]; [by left|right; by apply Hfrom].
      * destruct H as [<-|Hin]; [done|].
        intros Hp. apply (proj2 (Hfrom f Hin)).
        rewrite map_app, in_app_iff. by left.
      * constructor; [|done].
        intros Hin. apply in_map_iff in Hin as (f & Hpf & Hf).
        apply (proj2 (Hfrom f Hf)).
        rewrite map_app, in_app_iff, Hpf. right. by left.
      * intros g' [<-|Hin].
        -- rewrite map_app, in_app_iff. right. by left.
        -- specialize (Hall g' Hin). by rewrite Heq, <- app_assoc in Hall.
Qed.

(** C7: a poll that succeeds resets the retry counter and only appends to
    the file list.  The old list is kept as it is, entry by entry; each
    appended entry is a [generated_files] entry whose path no existing
    entry had; and every path of the snapshot is in the list afterwards. *)
Theorem poll_success_merges_by_path (projectId : string) (retryCount_c : nat)
  (data : ProjectStatus) (s : State) :
  projectId <> "" ->
  let s' := fst (fetchStatus (Some projectId) retryCount_c (Resolved data) s) in
  retryCount s' = 0
  /\ status_ s' = Some data
  /\ exists added,
       files s' = files s ++ added
       /\ (forall f, In f added ->
             In f (default [] (generated_files data))
             /\ ~ In (path f) (map path (files s)))
       /\ List.NoDup (map path added)
       /\ (forall g, In g (default [] (generated_files data)) ->
             In (path g) (map path (files s'))).
Proof.
  intros Hp. unfold fetchStatus.
  destruct (String.eqb_spec projectId ""); [done|].
  destruct (generated_files data) as [[|g gs]|] eqn:Hg; simpl.
  - split; [done|]. split; [done|]. exists []. rewrite app_nil_r.
    repeat split; try done. constructor.
  - split; [done|]. split; [done|]. exact (mergeFiles_spec (g :: gs) (files s)).
  - split; [done|]. split; [done|]. exists []. rewrite app_nil_r.
    repeat split; try done. constructor.
Qed.

End PollFacts.

(** ** The dashboard reducer: pushed messages *)

Section SubscriberFacts.

Import Envelope Dashboard.

Variable getTime : string -> option Z.
Variable c : Captured.

Lemma upsertFile_length (message : FileGeneratedMessage)
  (prev : list FileGeneratedMessage) :
  length (upsertFile message prev)
  = if some (fun f => String.eqb (filename f) (filename message)) prev
    then length prev else S (length prev).
Proof.
  unfold upsertFile.
  assert (H : forall l,
    match findIndex (fun f => String.eqb (filename f) (filename message)) l with
    | Some _ => some (fun f => String.eqb (filename f) (filename message)) l = true
    | None => some (fun f => String.eqb (filename f) (filename message)) l = false
    end).
  { induction l as [|x l IH]; [reflexivity|]. simpl.
    destruct (String.eqb (filename x) (filename message)); [reflexivity|].
    simpl. by destruct (findIndex _ l). }
  specialize (H prev). destruct (findIndex _ prev); rewrite H.
  - apply length_insert.
  - rewrite length_app. simpl. lia.
Qed.

(** The upsert of the FILE_GENERATED branch is keyed on [filename]: a new
    file name is appended, a known one replaces the first entry that has
    it. *)
Lemma upsertFile_by_filename (message : FileGeneratedMessage)
  (prev : list FileGeneratedMessage) :
  (some (fun f => String.eqb (filename f) (filename message)) prev = false
   /\ upsertFile message prev = prev ++ [message])
  \/ (exists i old,
        prev !! i = Some old
        /\ filename old = filename message
        /\ upsertFile message prev = <[i := message]> prev).
Proof.
  unfold upsertFile.
  assert (H : forall l,
    match findIndex (fun f => String.eqb (filename f) (filename message)) l with
    | Some i => exists old, l !! i = Some old /\ filename old = filename message
    | None => some (fun f => String.eqb (filename f) (filename message)) l = false
    end).
  { induction l as [|x l IH]; [reflexivity|]. simpl.
    destruct (String.eqb_spec (filename x) (filename message)) as [Heq|Hne].
    - exists x. by split.
    - destruct (findIndex _ l) as [i|]; simpl; [|exact IH].
      destruct IH as (old & Hl & Ho). exists old. by split. }
  specialize (H prev). destruct (findIndex _ prev) as [i|].
  - right. destruct H as (old & Hl & Ho). exists i, old. by repeat split.
  - left. by split.
Qed.


End SubscriberFacts.

(** ** The dashboard reducer: the chat transcript *)

Section ChatFacts.

Import Envelope Dashboard.

Variable getTime : string -> option Z.
Variable c : Captured.

Lemma Role_eqb_refl (r : Role) : Role_eqb r r = true.
Proof. by destruct r. Qed.

Lemma same_message_refl (e : ChatMessage) : same_message e e = true.
Proof. unfold same_message. by rewrite Role_eqb_refl, String.eqb_refl. Qed.

(** The chat branches append the delivery's entry, or nothing. *)
Lemma appendChat_cases (r : Role) (ct ts : string) (prev : list ChatMessage) :
  (isDuplicate getTime r ct ts prev = true /\ appendChat getTime r ct ts prev = prev)
  \/ (isDuplicate getTime r ct ts prev = false
      /\ appendChat getTime r ct ts prev
         = prev ++ [{| role := r; content := ct; timestamp := ts |}]).
Proof. unfold appendChat. destruct (isDuplicate _ _ _ _ _); auto. Qed.

(** The transcript after one input, for a chat delivery and for any other. *)
Lemma step_chat (i : Input) (s : State) :
  chatMessages (step getTime c i s)
  = match i with
    | Push m =>
        match chat_entry m with
        | Some e => appendChat getTime (role e) (content e) (timestamp e)
                      (chatMessages s)
        | None => chatMessages s
        end
    | Poll _ _ _ => chatMessages s
    end.
Proof.
  destruct i as [m|p rc resp]; simpl.
  - destruct m; simpl; try reflexivity.
    destruct (auto_focus file); reflexivity.
    destruct (_ && _); reflexivity.
  - unfold fetchStatus. destruct p as [p|]; [|reflexivity].
    destruct (String.eqb p ""); [reflexivity|].
    destruct resp as [d|]; [|reflexivity].
    destruct (generated_files d) as [[|g gs]|]; reflexivity.
Qed.

Lemma steps_cons (i : Input) (rest : list Input) (s : State) :
  steps getTime c (i :: rest) s = steps getTime c rest (step getTime c i s).
Proof. reflexivity. Qed.

Lemma steps_snoc (front : list Input) (i : Input) (s : State) :
  steps getTime c (front ++ [i]) s = step getTime c i (steps getTime c front s).
Proof. unfold steps. by rewrite fold_left_app. Qed.

(** Inputs that do not carry the message keep the old transcript as a
    prefix and add no entry with its role and content. *)
Lemma steps_other (e : ChatMessage) (mid : list Input) (s : State) :
  Forall (other_than e) mid ->
  exists extra,
    chatMessages (steps getTime c mid s) = chatMessages s ++ extra
    /\ List.filter (same_message e) extra = [].
Proof.
  intros H. revert s. induction H as [|i mid Hi _ IH]; intros s.
  - exists []. simpl. by rewrite app_nil_r.
  - rewrite steps_cons.
    destruct (IH (step getTime c i s)) as (extra & Heq & Hf).
    rewrite Heq, step_chat.
    destruct i as [m|p rc resp]; simpl in Hi.
    + destruct (chat_entry m) as [e'|].
      * destruct (appendChat_cases (role e') (content e') (timestamp e')
                    (chatMessages s)) as [[_ ->]|[_ ->]].
        -- eauto.
        -- exists ({| role := role e'; content := content e';
                      timestamp := timestamp e' |} :: extra).
           rewrite <- app_assoc. split; [reflexivity|].
           simpl. unfold same_message in Hi |- *. simpl. by rewrite Hi.
      * eauto.
    + eauto.
Qed.

(** An entry within two seconds of the delivery makes it a duplicate. *)
Lemma isDuplicate_present (e1 : ChatMessage) (ts2 : string) (t1 t2 : Z)
  (l : list ChatMessage) :
  In e1 l ->
  getTime (timestamp e1) = Some t1 -> getTime ts2 = Some t2 ->
  (Z.abs (t1 - t2) < 2000)%Z ->
  isDuplicate getTime (role e1) (content e1) ts2 l = true.
Proof.
  intros Hin H1 H2 Hlt. unfold isDuplicate, some.
  apply existsb_exists. exists e1. split; [done|].
  rewrite Role_eqb_refl, String.eqb_refl. simpl.
  unfold within_2000. rewrite H1, H2. by apply Z.ltb_lt.
Qed.

Lemma Role_eqb_eq (a b : Role) : Role_eqb a b = true -> a = b.
Proof. by destruct a, b. Qed.

(** A delivery at two seconds or more from every entry of its role and
    content is no duplicate. *)
Lemma isDuplicate_far (r : Role) (ct ts : string) (t : Z)
  (prev : list ChatMessage) :
  getTime ts = Some t ->
  (forall m tm, In m prev -> role m = r -> content m = ct ->
                getTime (timestamp m) = Some tm -> (2000 <= Z.abs (tm - t))%Z) ->
  isDuplicate getTime r ct ts prev = false.
Proof.
  intros Ht Hfar. unfold isDuplicate, some.
  destruct (existsb _ prev) eqn:Hd; [|reflexivity].
  apply existsb_exists in Hd as (m & Hin & Hm).
  apply andb_true_iff in Hm as [Hm Hw].
  apply andb_true_iff in Hm as [Hr Hc].
  apply Role_eqb_eq in Hr. apply String.eqb_eq in Hc.
  unfold within_2000 in Hw. rewrite Ht in Hw.
  destruct (getTime (timestamp m)) as [tm|] eqn:Htm; [|discriminate].
  apply Z.ltb_lt in Hw. specialize (Hfar m tm Hin Hr Hc Htm). lia.
Qed.

(** C2 (as the code has it): two deliveries of one logical message (same
    role, same content, timestamps that parse and lie less than two seconds
    apart), whether each comes as CHAT_MESSAGE or as CHAT_RESPONSE, leave
    exactly one new entry for it when the first delivery is new to the
    transcript: when every entry of that role and content that the
    transcript holds with a timestamp that parses lies two seconds or more
    from the first delivery.  Then after both deliveries, with any other
    inputs handled in between, the transcript is the old one, the first
    delivery's entry, and entries of other messages: the entries with that
    role and content are the old ones and this single new one. *)
Theorem chat_pair_single_entry (m1 m2 : WebSocketMessage) (e1 e2 : ChatMessage)
  (t1 t2 : Z) (mid : list Input) (s : State) :
  chat_entry m1 = Some e1 -> chat_entry m2 = Some e2 ->
  role e1 = role e2 -> content e1 = content e2 ->
  getTime (timestamp e1) = Some t1 -> getTime (timestamp e2) = Some t2 ->
  (Z.abs (t1 - t2) < 2000)%Z ->
  (forall m tm, In m (chatMessages s) ->
                role m = role e1 -> content m = content e1 ->
                getTime (timestamp m) = Some tm ->
                (2000 <= Z.abs (tm - t1))%Z) ->
  Forall (other_than e1) mid ->
  let final := steps getTime c (Push m1 :: mid ++ [Push m2]) s in
  exists extra,
    chatMessages final = chatMessages s ++ e1 :: extra
    /\ List.filter (same_message e1) extra = []
    /\ List.filter (same_message e1) (chatMessages final)
       = List.filter (same_message e1) (chatMessages s) ++ [e1].
Proof.
  intros Hm1 Hm2 Hr Hc Ht1 Ht2 Hlt Hfar Hmid final. unfold final.
  assert (Hnew := isDuplicate_far (role e1) (content e1) (timestamp e1) t1
                    (chatMessages s) Ht1 Hfar).
  rewrite steps_cons, steps_snoc.
  set (s1 := step getTime c (Push m1) s).
  (* the first delivery is appended *)
  assert (H1 : chatMessages s1 = chatMessages s ++ [e1]).
  { unfold s1. rewrite step_chat, Hm1. unfold appendChat. rewrite Hnew.
    by destruct e1. }
  destruct (steps_other e1 mid s1 Hmid) as (extra & Hmid_eq & Hextra).
  (* the second delivery finds it *)
  rewrite step_chat, Hm2, <- Hr, <- Hc.
  destruct (appendChat_cases (role e1) (content e1) (timestamp e2)
              (chatMessages (steps getTime c mid s1))) as [[_ ->]|[Hd _]].
  - exists extra. rewrite Hmid_eq, H1, <- app_assoc. split; [reflexivity|].
    split; [exact Hextra|].
    rewrite !List.filter_app, Hextra. simpl.
    by rewrite same_message_refl, app_nil_r.
  - rewrite (isDuplicate_present e1 (timestamp e2) t1 t2) in Hd; try done.
    rewrite Hmid_eq, H1, !in_app_iff. left. right. by left.
Qed.

(** A transcript without the role and content of [e] has no duplicate of
    it. *)
Lemma fresh_not_duplicate (e : ChatMessage) (ts : string)
  (prev : list ChatMessage) :
  List.filter (same_message e) prev = [] ->
  isDuplicate getTime (role e) (content e) ts prev = false.
Proof.
  intros Hfresh. unfold isDuplicate, some.
  destruct (existsb _ prev) eqn:Hd; [|reflexivity].
  apply existsb_exists in Hd as (m & Hin & Hm).
  assert (Hin' : In m (List.filter (same_message e) prev)).
  { apply filter_In. split; [done|]. unfold same_message.
    apply andb_true_iff in Hm as [Hm _]. exact Hm. }
  rewrite Hfresh in Hin'. inversion Hin'.
Qed.

(** For any transcript, the pair handled back to back adds at most one
    entry. *)
Lemma chat_pair_adds_at_most_one (m1 m2 : WebSocketMessage)
  (e1 e2 : ChatMessage) (t1 t2 : Z) (s : State) :
  chat_entry m1 = Some e1 -> chat_entry m2 = Some e2 ->
  role e1 = role e2 -> content e1 = content e2 ->
  getTime (timestamp e1) = Some t1 -> getTime (timestamp e2) = Some t2 ->
  (Z.abs (t1 - t2) < 2000)%Z ->
  length (chatMessages (steps getTime c [Push m1; Push m2] s))
  <= S (length (chatMessages s)).
Proof.
  intros Hm1 Hm2 Hr Hc Ht1 Ht2 Hlt.
  rewrite steps_cons.
  change (steps getTime c [Push m2] (step getTime c (Push m1) s))
    with (step getTime c (Push m2) (step getTime c (Push m1) s)).
  rewrite !step_chat, Hm1, Hm2, <- Hr, <- Hc.
  destruct (appendChat_cases (role e1) (content e1) (timestamp e1)
              (chatMessages s)) as [[_ ->]|[_ ->]].
  - destruct (appendChat_cases (role e1) (content e1) (timestamp e2)
                (chatMessages s)) as [[_ ->]|[_ ->]].
    + lia.
    + rewrite length_app. simpl. lia.
  - unfold appendChat at 1.
    rewrite (isDuplicate_present e1 (timestamp e2) t1 t2).
    + rewrite length_app. simpl. lia.
    + rewrite in_app_iff. right. left. by destruct e1.
    + done.
    + done.
    + done.
Qed.

End ChatFacts.

(** ** The dashboard reducer on concrete inputs *)

Section DashboardRuns.

Import Envelope Dashboard.

(** C1: the FILE_GENERATED branch looks the file up by [filename], the poll
    merge by [path].  A snapshot entry and a pushed file with one path and
    two file names give two entries for the path, and so do two pushed
    files. *)
Theorem same_path_yields_two_entries :
  let listed := Sample.file "docs/requirements.md" "/ws/docs/requirements.md" "summary" false in
  let e1 := Sample.file "requirements.md" "/ws/docs/requirements.md" "draft" false in
  let e2 := Sample.file "REQUIREMENTS.md" "/ws/docs/requirements.md" "final" false in
  files (steps Sample.getTime Sample.at_mount
           [Poll (Some "proj-1") 0 (Resolved (Sample.snapshot [listed]));
            Push (FILE_GENERATED e1)] Sample.fresh)
  = [listed; e1]
  /\ files (steps Sample.getTime Sample.at_mount
              [Push (FILE_GENERATED e1); Push (FILE_GENERATED e2)] Sample.fresh)
     = [e1; e2]
  /\ path listed = path e1 /\ path e1 = path e2.
Proof. repeat split; reflexivity. Qed.

(** Two files with one name in two directories: the second push replaces
    the first file, whose path is then missing from the list. *)
Example same_filename_replaces_other_path :
  let a := Sample.file "README.md" "frontend/README.md" "web" false in
  let b := Sample.file "README.md" "backend/README.md" "api" false in
  files (steps Sample.getTime Sample.at_mount
           [Push (FILE_GENERATED a); Push (FILE_GENERATED b)] Sample.fresh)
  = [b].
Proof. reflexivity. Qed.

(** With one name per path the upsert does what the property asks. *)
Example same_file_pushed_twice :
  let e1 := Sample.file "requirements.md" "docs/requirements.md" "draft" false in
  let e2 := Sample.file "requirements.md" "docs/requirements.md" "final" true in
  files (steps Sample.getTime Sample.at_mount
           [Push (FILE_GENERATED e1);
            Poll (Some "proj-1") 0 (Resolved (Sample.snapshot [e1]));
            Push (FILE_GENERATED e2)] Sample.fresh)
  = [e2].
Proof. reflexivity. Qed.


Lemma poll_success_merges_by_path_witness :
  let f := Sample.file "requirements.md" "docs/requirements.md" "draft" false in
  let g := Sample.file "architecture.md" "docs/architecture.md" "layers" false in
  let s := setFiles (fun _ => [f]) Sample.fresh in
  let s' := fst (fetchStatus (Some "proj-1") 3 (Resolved (Sample.snapshot [f; g])) s) in
  "proj-1" <> ""
  /\ retryCount s' = 0
  /\ status_ s' = Some (Sample.snapshot [f; g])
  /\ exists added,
       files s' = files s ++ added
       /\ (forall x, In x added ->
             In x (default [] (generated_files (Sample.snapshot [f; g])))
             /\ ~ In (path x) (map path (files s)))
       /\ List.NoDup (map path added)
       /\ (forall x, In x (default [] (generated_files (Sample.snapshot [f; g]))) ->
             In (path x) (map path (files s'))).
Proof.
  split; [discriminate|].
  apply (poll_success_merges_by_path "proj-1" 3). discriminate.
Defined.

(** C2 (as stated) fails when the transcript already holds the message:
    the first delivery, one second after the entry, is dropped as its
    duplicate; the second, a second and a half later, is more than two
    seconds from the entry and is appended.  The message has two entries. *)
Lemma chat_pair_leaves_two_entries :
  let e0 := {| role := ai; content := "Requirements are ready.";
               timestamp := "2025-11-23T17:25:38.000Z" |} in
  let m1 := CHAT_MESSAGE ai "Requirements are ready." "2025-11-23T17:25:39.000Z" in
  let m2 := CHAT_RESPONSE "Requirements are ready." None None "2025-11-23T17:25:40.500Z" in
  let e2 := {| role := ai; content := "Requirements are ready.";
               timestamp := "2025-11-23T17:25:40.500Z" |} in
  let s := setChatMessages (fun _ => [e0]) Sample.fresh in
  let final := steps Sample.getTime Sample.at_mount [Push m1; Push m2] s in
  Sample.getTime "2025-11-23T17:25:39.000Z" = Some 1763918739000%Z
  /\ Sample.getTime "2025-11-23T17:25:40.500Z" = Some 1763918740500%Z
  /\ (Z.abs (1763918739000 - 1763918740500) < 2000)%Z
  /\ chatMessages final = [e0; e2]
  /\ List.filter (same_message e2) (chatMessages final) = [e0; e2].
Proof. repeat split; (reflexivity || lia). Qed.

Lemma chat_pair_single_entry_witness :
  let m1 := CHAT_MESSAGE ai "Requirements are ready." "2025-11-23T17:25:39.000Z" in
  let m2 := CHAT_RESPONSE "Requirements are ready." None None "2025-11-23T17:25:40.500Z" in
  let e1 := {| role := ai; content := "Requirements are ready.";
               timestamp := "2025-11-23T17:25:39.000Z" |} in
  let earlier := {| role := ai; content := "Requirements are ready.";
                    timestamp := "2025-11-23T17:25:30.000Z" |} in
  let asked := {| role := user; content := "Are the requirements ready?";
                  timestamp := "2025-11-23T17:25:39.000Z" |} in
  let s := setChatMessages (fun _ => [earlier; asked]) Sample.fresh in
  let final :=
    steps Sample.getTime Sample.at_mount
      (Push m1 :: [Push (CONNECTION_STATUS true "2025-11-23T17:25:39.000Z")]
         ++ [Push m2]) s in
  (Z.abs (1763918739000 - 1763918740500) < 2000)%Z
  /\ exists extra,
       chatMessages final = chatMessages s ++ e1 :: extra
       /\ List.filter (same_message e1) extra = []
       /\ List.filter (same_message e1) (chatMessages final)
          = List.filter (same_message e1) (chatMessages s) ++ [e1].
Proof.
  split; [lia|].
  apply (chat_pair_single_entry Sample.getTime Sample.at_mount _ _ _
           {| role := ai; content := "Requirements are ready.";
              timestamp := "2025-11-23T17:25:40.500Z" |}
           1763918739000 1763918740500).
  - reflexivity.
  - reflexivity.
  - reflexivity.
  - reflexivity.
  - reflexivity.
  - reflexivity.
  - lia.
  - intros m tm [<-|[<-|[]]] Hr Hc Ht.
    + vm_compute in Ht. injection Ht as <-. lia.
    + discriminate.
  - constructor; [exact I|constructor].
Defined.



End DashboardRuns.

Section TimelineRuns.

Import ProgressTimeline Reading.

Lemma completed_or_failed_never_pending_witness :
  let started :=
    [Sample.event "stage_started" "proj-1" (Some "requirements");
     Sample.event "stage_completed" "proj-1" (Some "requirements")] in
  let later :=
    [Sample.event "agent_thinking" "proj-1" (Some "requirements");
     Sample.event "stage_started" "proj-2" (Some "constructor");
     Sample.event "stage_started" "proj-1" (Some "architecture")] in
  handleEvents "proj-1" started initial = Normal Sample.requirements_done
  /\ status_of "requirements" Sample.requirements_done = Some completed
  /\ existsb (fatal "proj-1" Sample.requirements_done) later = false
  /\ exists m' st',
       handleEvents "proj-1" later Sample.requirements_done = Normal m'
       /\ status_of "requirements" m' = Some st'
       /\ st' <> pending.
Proof.
  split; [vm_compute; reflexivity|].
  split; [vm_compute; reflexivity|].
  split; [vm_compute; reflexivity|].
  apply (completed_or_failed_never_pending "proj-1" "requirements" _
           Sample.requirements_done).
  - left. vm_compute. reflexivity.
  - vm_compute. reflexivity.
Defined.

End TimelineRuns.

(** ** The transport layer *)

Section TransportFacts.

Import Transport Session.

Variable wsBaseUrl : string.

(** Unfold the monad operations of a handler, down to the subscriber loop. *)
Ltac run_handler :=
  cbv beta iota zeta delta
    [onopen onclose onmessage onerror _reconnect _connect connect disconnect
     _notifyConnectionStatus notify_all
     bind ret this emit lift throw try_catch then_reactions
     set_ws set_callbacks set_reconnectAttempts set_projectId];
  cbn [ws callbacks reconnectAttempts projectId fst snd].

Lemma forEach_call_quiet (cbs : list WebSocketCallback) (m : json)
  (s : WebSocketService) :
  Forall (fun cb => cb_throws cb m = false) cbs ->
  forEach_call cbs m s = (s, map (fun cb => Call (cb_id cb) m) cbs, Normal tt).
Proof.
  induction 1 as [|cb cbs Hcb _ IH]; [reflexivity|].
  simpl. unfold bind, emit. rewrite Hcb, IH. reflexivity.
Qed.

(** Calling the subscribers changes nothing in the service, arms no timer
    and creates no promise, whether or not one of them throws. *)
Lemma forEach_call_frame (cbs : list WebSocketCallback) (m : json)
  (s : WebSocketService) :
  exists calls r,
    forEach_call cbs m s = (s, calls, r)
    /\ timeouts calls = [] /\ omap reaction calls = [].
Proof.
  induction cbs as [|cb cbs (calls & r & IH & Ht & Hr)].
  - by exists [], (Normal tt).
  - simpl. unfold bind, emit. destruct (cb_throws cb m).
    + by exists [Call (cb_id cb) m], Throw.
    + rewrite IH. by exists (Call (cb_id cb) m :: calls), r.
Qed.

Lemma reaction_calls (cbs : list WebSocketCallback) (m : json) :
  omap reaction (map (fun cb => Call (cb_id cb) m) cbs) = [].
Proof. induction cbs as [|cb cbs IH]; [reflexivity|]. exact IH. Qed.

(** [onopen] resets the counter, whatever the subscribers do. *)
Lemma onopen_resets (now : string) (s : WebSocketService) :
  reconnectAttempts (fst (fst (onopen now s))) = 0
  /\ projectId (fst (fst (onopen now s))) = projectId s
  /\ callbacks (fst (fst (onopen now s))) = callbacks s.
Proof.
  run_handler.
  match goal with |- context [forEach_call ?a ?b ?c] =>
    destruct (forEach_call_frame a b c) as (calls & r & -> & _ & _) end.
  by destruct r.
Qed.

(** At the cap, [onclose] arms no timer and leaves the counter alone. *)
Lemma onclose_at_cap (now : string) (s : WebSocketService) :
  maxReconnectAttempts <= reconnectAttempts s ->
  timeouts (snd (fst (onclose now s))) = []
  /\ reconnectAttempts (fst (fst (onclose now s))) = reconnectAttempts s.
Proof.
  intros Hcap.
  run_handler.
  match goal with |- context [forEach_call ?a ?b ?c] =>
    destruct (forEach_call_frame a b c) as (calls & r & -> & Hcalls & _) end.
  destruct r as [[]|]; simpl; [|done].
  destruct (Nat.ltb_spec (reconnectAttempts s) maxReconnectAttempts); [lia|].
  simpl. unfold timeouts in *. rewrite List.filter_app, Hcalls. done.
Qed.

(** Below the cap, with subscribers that return, [onclose] counts one more
    attempt and arms one timer of three seconds. *)
Lemma onclose_below_cap (now : string) (s : WebSocketService) :
  reconnectAttempts s < maxReconnectAttempts ->
  Forall never_throws (callbacks s) ->
  exists effs,
    onclose now s
    = ({| ws := None; callbacks := callbacks s;
          reconnectAttempts := S (reconnectAttempts s);
          projectId := projectId s |}, effs, Normal tt)
    /\ timeouts effs = [SetTimeoutConnect 3000].
Proof.
  intros Hlt Hq.
  run_handler.
  rewrite forEach_call_quiet
    by (eapply Forall_impl; [exact Hq|]; intros cb Hcb; apply Hcb).
  cbn [ws callbacks reconnectAttempts projectId fst snd].
  destruct (Nat.ltb_spec (reconnectAttempts s) maxReconnectAttempts); [|lia].
  simpl. eexists. split; [reflexivity|].
  unfold timeouts. simpl. rewrite List.filter_app. simpl.
  assert (Hnone : forall cbs m,
    List.filter is_timeout (map (fun cb => Call (cb_id cb) m) cbs) = []).
  { induction cbs as [|cb cbs IH]; intros m; [reflexivity|]. simpl. apply IH. }
  by rewrite Hnone.
Qed.

(** The timer runs [_connect]: a new socket, no timer, the counter kept. *)
Lemma connect_timer (s : WebSocketService) (p : string) :
  projectId s = Some p -> p <> "" ->
  exists effs,
    _connect wsBaseUrl s
    = ({| ws := Some {| url := wsBaseUrl +:+ "/" +:+ p |};
          callbacks := callbacks s;
          reconnectAttempts := reconnectAttempts s;
          projectId := projectId s |}, effs, Normal tt)
    /\ timeouts effs = [].
Proof.
  intros Hp Hne. run_handler. rewrite Hp.
  destruct (String.eqb_spec p ""); [done|].
  simpl. rewrite Hp. eexists. split; reflexivity.
Qed.

Lemma run_app (es1 es2 : list SocketEvent) (s : WebSocketService) :
  run wsBaseUrl (es1 ++ es2) s
  = (fst (run wsBaseUrl es2 (fst (run wsBaseUrl es1 s))),
     snd (run wsBaseUrl es1 s) ++ snd (run wsBaseUrl es2 (fst (run wsBaseUrl es1 s)))).
Proof.
  revert s. induction es1 as [|e es1 IH]; intros s.
  - simpl. by destruct (run wsBaseUrl es2 s).
  - simpl. destruct (handle wsBaseUrl e s) as [[s1 e1] r].
    rewrite IH. destruct (run wsBaseUrl es1 s1) as [s2 e2]. simpl.
    by rewrite app_assoc.
Qed.

(** [n] failures in a row, each followed by the attempt its timer starts:
    while the counter stays within the cap, each arms exactly one timer. *)
Lemma run_failures (now : string) (n : nat) (s : WebSocketService) (p : string) :
  projectId s = Some p -> p <> "" ->
  Forall never_throws (callbacks s) ->
  reconnectAttempts s + n <= maxReconnectAttempts ->
  let r := run wsBaseUrl (concat (replicate n (failure_then_retry now))) s in
  reconnectAttempts (fst r) = reconnectAttempts s + n
  /\ projectId (fst r) = Some p
  /\ callbacks (fst r) = callbacks s
  /\ timeouts (snd r) = replicate n (SetTimeoutConnect 3000).
Proof.
  revert s. induction n as [|n IH]; intros s Hp Hne Hq Hle.
  - simpl. repeat split; (done || lia).
  - cbn [replicate concat failure_then_retry app run handle].
    destruct (onclose_below_cap now s) as (e1 & -> & Ht1); [lia|done|].
    match goal with |- context [_connect wsBaseUrl ?s1] =>
      destruct (connect_timer s1 p Hp Hne) as (e2 & -> & Ht2) end.
    simpl projectId. simpl callbacks. simpl reconnectAttempts.
    match goal with |- context [run wsBaseUrl _ ?s2] =>
      specialize (IH s2) end.
    simpl in IH. specialize (IH Hp Hne Hq ltac:(lia)).
    destruct (run wsBaseUrl _ _) as [s3 e3]. simpl in *.
    destruct IH as (Ha & Hpp & Hc & Ht).
    repeat split; try done; [lia|].
    unfold timeouts in *. rewrite !List.filter_app, Ht1, Ht2, Ht. reflexivity.
Qed.

Lemma run_closed_at_cap (now : string) (j : nat) (s : WebSocketService) :
  maxReconnectAttempts <= reconnectAttempts s ->
  timeouts (snd (run wsBaseUrl (replicate j (Closed now)) s)) = []
  /\ reconnectAttempts (fst (run wsBaseUrl (replicate j (Closed now)) s))
     = reconnectAttempts s.
Proof.
  revert s. induction j as [|j IH]; intros s Hcap; [done|].
  cbn [replicate run handle].
  destruct (onclose_at_cap now s Hcap) as (Ht & Ha).
  destruct (onclose now s) as [[s1 e1] r]. simpl in Ht, Ha.
  destruct (IH s1 ltac:(lia)) as (Ht' & Ha').
  destruct (run wsBaseUrl (replicate j (Closed now)) s1) as [s2 e2].
  simpl in *. split; [|lia].
  unfold timeouts in *. by rewrite List.filter_app, Ht, Ht'.
Qed.

(** Resolve the next subscriber loop in the goal, whatever its outcome. *)
Ltac loop_frame :=
  match goal with
  | |- context [forEach_call ?a ?b ?c] =>
      let calls := fresh "calls" in
      let r := fresh "r" in
      let Hc := fresh "Hcalls" in
      let Hr := fresh "Hreact" in
      destruct (forEach_call_frame a b c) as (calls & r & -> & Hc & Hr);
      destruct r as [[]|]; cbn [ws callbacks reconnectAttempts projectId fst snd]
  end.

Lemma timeouts_app (e1 e2 : list Effect) :
  timeouts (e1 ++ e2) = timeouts e1 ++ timeouts e2.
Proof. apply List.filter_app. Qed.

Lemma timeouts_reactions (effs : list Effect) :
  timeouts (omap reaction effs) = [].
Proof.
  induction effs as [|e effs IH]; [reflexivity|].
  destruct e; simpl; exact IH.
Qed.

Lemma timeouts_list_reactions (effs : list Effect) :
  timeouts (list_omap _ _ reaction effs) = [].
Proof. exact (timeouts_reactions effs). Qed.

(** [onmessage] leaves the service as it is and arms no timer. *)
Lemma onmessage_frame (event : MessageEvent) (now : string)
  (s : WebSocketService) :
  exists effs r, onmessage event now s = (s, effs, r) /\ timeouts effs = [].
Proof.
  run_handler. destruct (parsed event) as [[|b|n|str|items|fields]|]; simpl.
  6: destruct (strict_eq_string (assoc "type" fields) "workflow_event");
       [destruct (assoc "event" fields) as [e|];
         [destruct (truthy (Some e))|]|].
  all: repeat loop_frame; do 2 eexists; (split; [reflexivity|]);
    rewrite ?timeouts_app, ?timeouts_reactions, ?timeouts_list_reactions;
    unfold timeouts in *; simpl; rewrite ?List.filter_app; simpl;
    by rewrite ?Hcalls, ?Hcalls0.
Qed.

(** Every handler but [onopen] can only raise the counter, never past the
    cap, and arms one timer of 3000 ms for each unit it adds. *)
Lemma handle_budget (e : SocketEvent) (s : WebSocketService) :
  not_opened e ->
  let s' := fst (fst (handle wsBaseUrl e s)) in
  reconnectAttempts s <= reconnectAttempts s'
  /\ reconnectAttempts s' <= Nat.max maxReconnectAttempts (reconnectAttempts s)
  /\ timeouts (snd (fst (handle wsBaseUrl e s)))
     = replicate (reconnectAttempts s' - reconnectAttempts s)
         (SetTimeoutConnect 3000).
Proof.
  intros Hne. destruct e as [now|event now|now| |]; simpl in Hne; [done| | | |].
  - cbn [handle].
    destruct (onmessage_frame event now s) as (effs & r & -> & Ht).
    simpl. rewrite Ht, Nat.sub_diag. repeat split; lia.
  - cbn [handle]. run_handler. loop_frame.
    + destruct (Nat.ltb_spec (reconnectAttempts s) maxReconnectAttempts);
        simpl; rewrite timeouts_app, Hcalls; simpl.
      * replace (S (reconnectAttempts s) - reconnectAttempts s) with 1 by lia.
        repeat split; lia.
      * rewrite Nat.sub_diag. repeat split; lia.
    + simpl. rewrite Hcalls, Nat.sub_diag. repeat split; lia.
  - cbn [handle]. run_handler. destruct (ws s); simpl;
      rewrite Nat.sub_diag; repeat split; lia.
  - cbn [handle]. run_handler. destruct (projectId s) as [p|]; simpl.
    + destruct (String.eqb p ""); simpl; rewrite Nat.sub_diag;
        repeat split; lia.
    + rewrite Nat.sub_diag. repeat split; lia.
Qed.

(** Between two opens at most ten reconnects are scheduled, whatever the
    subscribers do and whatever else the socket reports. *)
Lemma run_budget (es : list SocketEvent) (s : WebSocketService) :
  Forall not_opened es ->
  let s' := fst (run wsBaseUrl es s) in
  reconnectAttempts s <= reconnectAttempts s'
  /\ reconnectAttempts s' <= Nat.max maxReconnectAttempts (reconnectAttempts s)
  /\ timeouts (snd (run wsBaseUrl es s))
     = replicate (reconnectAttempts s' - reconnectAttempts s)
         (SetTimeoutConnect 3000).
Proof.
  intros H. revert s. induction H as [|e es He _ IH]; intros s.
  - simpl. rewrite Nat.sub_diag. repeat split; lia.
  - cbn [run].
    destruct (handle_budget e s He) as (H1 & H2 & H3).
    destruct (handle wsBaseUrl e s) as [[s1 e1] r]. simpl in H1, H2, H3.
    destruct (IH s1) as (H4 & H5 & H6).
    destruct (run wsBaseUrl es s1) as [s2 e2]. simpl in *.
    split; [lia|]. split; [lia|].
    rewrite timeouts_app, H3, H6, <- replicate_add. f_equal. lia.
Qed.

(** C3: the reconnect attempts are the ones a timer starts, three seconds
    after a failure.  From a counter at zero, ten failures in a row arm ten
    timers of 3000 ms; when the tenth scheduled attempt fails too, and at
    any close after that, no timer is armed and the counter stays at ten.
    An open after [k] failures puts the counter back to zero, and ten
    attempts are available again.  Whatever the socket reports short of an
    open, no more than ten timers are ever armed. *)
Theorem reconnect_gives_up_after_ten (now : string) (s : WebSocketService)
  (p : string) (k : nat) :
  projectId s = Some p -> p <> "" ->
  Forall never_throws (callbacks s) ->
  reconnectAttempts s = 0 ->
  k <= 10 ->
  let ten := concat (replicate 10 (failure_then_retry now)) in
  let s10 := fst (run wsBaseUrl ten s) in
  let reopened :=
    fst (run wsBaseUrl
           (concat (replicate k (failure_then_retry now)) ++ [Opened now]) s) in
  timeouts (snd (run wsBaseUrl ten s)) = replicate 10 (SetTimeoutConnect 3000)
  /\ reconnectAttempts s10 = 10
  /\ (forall j,
        timeouts (snd (run wsBaseUrl (replicate j (Closed now)) s10)) = []
        /\ reconnectAttempts (fst (run wsBaseUrl (replicate j (Closed now)) s10))
           = 10)
  /\ reconnectAttempts reopened = 0
  /\ timeouts (snd (run wsBaseUrl ten reopened))
     = replicate 10 (SetTimeoutConnect 3000)
  /\ reconnectAttempts (fst (run wsBaseUrl ten reopened)) = 10
  /\ (forall es, Forall not_opened es ->
        length (timeouts (snd (run wsBaseUrl es s))) <= 10).
Proof.
  intros Hp Hne Hq H0 Hk ten s10 reopened.
  destruct (run_failures now 10 s p Hp Hne Hq) as (Ha & Hpp & Hc & Ht).
  { rewrite H0. unfold maxReconnectAttempts. lia. }
  fold ten in Ha, Hpp, Hc, Ht. fold s10 in Ha, Hpp, Hc.
  rewrite H0 in Ha. simpl in Ha.
  split; [exact Ht|]. split; [exact Ha|]. split.
  { intros j.
    destruct (run_closed_at_cap now j s10) as (Hj & Haj).
    - rewrite Ha. unfold maxReconnectAttempts. lia.
    - split; [exact Hj|]. by rewrite Haj. }
  destruct (run_failures now k s p Hp Hne Hq) as (Hka & Hkp & Hkc & _).
  { rewrite H0. unfold maxReconnectAttempts. lia. }
  assert (Hre : reconnectAttempts reopened = 0
                /\ projectId reopened = Some p
                /\ callbacks reopened = callbacks s).
  { unfold reopened. rewrite run_app. cbn [fst].
    set (sk := fst (run wsBaseUrl (concat (replicate k (failure_then_retry now))) s)) in *.
    cbn [run handle].
    destruct (onopen_resets now sk) as (Hr0 & Hrp & Hrc).
    destruct (onopen now sk) as [[so eo] ro]. simpl in *.
    rewrite Hr0, Hrp, Hrc. done. }
  destruct Hre as (Hr0 & Hrp & Hrc).
  split; [exact Hr0|].
  destruct (run_failures now 10 reopened p Hrp Hne) as (Ha' & _ & _ & Ht').
  { by rewrite Hrc. }
  { rewrite Hr0. unfold maxReconnectAttempts. lia. }
  fold ten in Ha', Ht'. rewrite Hr0 in Ha'.
  split; [exact Ht'|]. split; [exact Ha'|].
  intros es Hes. destruct (run_budget es s Hes) as (_ & Hmax & ->).
  rewrite length_replicate, H0 in *. unfold maxReconnectAttempts in Hmax. lia.
Qed.

Lemma forEach_call_throws (pre post : list WebSocketCallback)
  (bad : WebSocketCallback) (m : json) (s : WebSocketService) :
  Forall (fun cb => cb_throws cb m = false) pre -> cb_throws bad m = true ->
  forEach_call (pre ++ bad :: post) m s
  = (s, map (fun cb => Call (cb_id cb) m) pre ++ [Call (cb_id bad) m], Throw).
Proof.
  intros Hpre Hbad. induction Hpre as [|cb pre Hcb _ IH]; simpl.
  - unfold bind, emit. by rewrite Hbad.
  - unfold bind, emit. by rewrite Hcb, IH.
Qed.

(** A frame that is not JSON, or is [null], takes the catch block: the
    console error, then the subscriber loop on the LOG envelope, whose
    outcome is the outcome of the handler. *)
Lemma onmessage_unparsed (event : MessageEvent) (now : string)
  (s : WebSocketService) (calls : list Effect) (r : Completion unit) :
  parsed event = None \/ parsed event = Some JNull ->
  forEach_call (callbacks s) (fallbackMessage (frame event) now) s
  = (s, calls, r) ->
  omap reaction calls = [] ->
  onmessage event now s
  = (s, ConsoleError "Error parsing WebSocket message:" :: calls, r).
Proof.
  intros Hparse Hloop Hreact. run_handler.
  destruct Hparse as [-> | ->]; simpl; rewrite Hloop; simpl;
    change (list_omap _ _ reaction calls) with (omap reaction calls);
    by rewrite Hreact, app_nil_r.
Qed.

(** A frame that is JSON and not [null] goes to the subscribers as parsed,
    whatever its [type]; for a [workflow_event] with an event the handler
    is imported first, and the event handed to the router once the
    subscribers have been called. *)
Lemma onmessage_parsed (event : MessageEvent) (now : string)
  (s : WebSocketService) (data : json) :
  parsed event = Some data -> data <> JNull ->
  Forall (fun cb => cb_throws cb data = false) (callbacks s) ->
  onmessage event now s
  = (s,
     match forwarded_event event with
     | Some e =>
         ImportEventHandler e
           :: map (fun cb => Call (cb_id cb) data) (callbacks s)
           ++ [HandleEvent e]
     | None => map (fun cb => Call (cb_id cb) data) (callbacks s)
     end,
     Normal tt).
Proof.
  intros Hparse Hnull Hq. unfold forwarded_event. run_handler. rewrite Hparse.
  assert (Hreact := reaction_calls (callbacks s) data).
  destruct data as [|b|n|str|items|fields]; try done; simpl.
  5: destruct (strict_eq_string (assoc "type" fields) "workflow_event");
       [destruct (assoc "event" fields) as [e|];
         [destruct (truthy (Some e)) eqn:Htr; simpl in Htr; rewrite ?Htr|]|].
  all: rewrite (forEach_call_quiet _ _ s Hq); simpl;
    rewrite ?omap_app, ?Hreact; simpl;
    change (list_omap _ _ reaction
              (map (fun cb => Call (cb_id cb) ?m) (callbacks s)))
      with (omap reaction (map (fun cb => Call (cb_id cb) m) (callbacks s)));
    by rewrite ?Hreact, ?app_nil_r.
Qed.

(** C5 (as the code has it): a frame that [JSON.parse] rejects, and the
    frame [null], is made into a LOG envelope with level [info], agent
    [SYSTEM] and the frame text as message, and handed to the subscribers
    in the order they subscribed.  When none of them throws on it, every
    subscriber receives it once and the handler returns normally; when one
    throws, the subscribers before it have received it, the ones after it
    receive nothing, and the exception leaves the handler.  Any other
    frame, one of the envelope variants or not, goes to the subscribers as
    parsed and not as a LOG envelope, as long as none of them throws on
    it. *)
Theorem parse_failure_becomes_log (event : MessageEvent) (now : string)
  (s : WebSocketService) :
  let log := fallbackMessage (frame event) now in
  let error := ConsoleError "Error parsing WebSocket message:" in
  member log "type" = Normal (Some (JString "LOG"))
  /\ member log "level" = Normal (Some (JString "info"))
  /\ member log "agent" = Normal (Some (JString "SYSTEM"))
  /\ member log "message" = Normal (Some (JString (frame event)))
  /\ (parsed event = None \/ parsed event = Some JNull ->
        (Forall (fun cb => cb_throws cb log = false) (callbacks s) ->
         onmessage event now s
         = (s, error :: map (fun cb => Call (cb_id cb) log) (callbacks s),
            Normal tt))
        /\ (forall pre bad post,
              callbacks s = pre ++ bad :: post ->
              Forall (fun cb => cb_throws cb log = false) pre ->
              cb_throws bad log = true ->
              onmessage event now s
              = (s,
                 error :: map (fun cb => Call (cb_id cb) log) pre
                   ++ [Call (cb_id bad) log],
                 Throw)))
  /\ (forall data,
        parsed event = Some data -> data <> JNull ->
        Forall (fun cb => cb_throws cb data = false) (callbacks s) ->
        onmessage event now s
        = (s,
           match forwarded_event event with
           | Some e =>
               ImportEventHandler e
                 :: map (fun cb => Call (cb_id cb) data) (callbacks s)
                 ++ [HandleEvent e]
           | None => map (fun cb => Call (cb_id cb) data) (callbacks s)
           end,
           Normal tt)).
Proof.
  intros log error. repeat (split; [reflexivity|]). split.
  - intros Hparse. split.
    + intros Hq. apply onmessage_unparsed; [exact Hparse| |].
      * by apply forEach_call_quiet.
      * apply reaction_calls.
    + intros pre bad post Hcbs Hpre Hbad.
      apply onmessage_unparsed; [exact Hparse| |].
      * rewrite Hcbs. by apply forEach_call_throws.
      * rewrite omap_app, reaction_calls. reflexivity.
  - intros data. apply onmessage_parsed.
Qed.

End TransportFacts.

Section TransportRuns.

Import Transport.

(** C5 (as stated) fails twice over.  The frame [{}] is JSON but none of the
    envelope variants, and the subscriber receives it as it is, not as a LOG
    envelope; and when a subscriber throws on the LOG envelope of a frame
    that is not JSON, the exception leaves the handler. *)
Lemma unrecognized_frame_not_coerced :
  let event := {| frame := "{}"; parsed := Some (JObject []) |} in
  let now := "2025-11-23T17:25:39.000Z" in
  recognized (JObject []) = false
  /\ onmessage event now (Sample.connected_service [Sample.quiet 1])
     = (Sample.connected_service [Sample.quiet 1], [Call 1 (JObject [])], Normal tt)
  /\ JObject [] <> fallbackMessage "{}" now
  /\ snd (onmessage {| frame := "not json"; parsed := None |} now
            (Sample.connected_service [Sample.fragile 1]))
     = Throw.
Proof. repeat split; try reflexivity. discriminate. Qed.

Lemma parse_failure_becomes_log_witness :
  let event := {| frame := "build started"; parsed := None |} in
  let now := "2025-11-23T17:25:39.000Z" in
  let log := fallbackMessage "build started" now in
  let error := ConsoleError "Error parsing WebSocket message:" in
  onmessage event now (Sample.connected_service [Sample.quiet 1; Sample.quiet 2])
  = (Sample.connected_service [Sample.quiet 1; Sample.quiet 2],
     [error; Call 1 log; Call 2 log], Normal tt)
  /\ onmessage event now
       (Sample.connected_service [Sample.quiet 1; Sample.fragile 2; Sample.quiet 3])
     = (Sample.connected_service [Sample.quiet 1; Sample.fragile 2; Sample.quiet 3],
        [error; Call 1 log; Call 2 log], Throw).
Proof.
  split.
  - destruct (parse_failure_becomes_log
                {| frame := "build started"; parsed := None |}
                "2025-11-23T17:25:39.000Z"
                (Sample.connected_service [Sample.quiet 1; Sample.quiet 2]))
      as (_ & _ & _ & _ & H & _).
    destruct H as [H _]; [left; reflexivity|].
    apply H. repeat constructor.
  - destruct (parse_failure_becomes_log
                {| frame := "build started"; parsed := None |}
                "2025-11-23T17:25:39.000Z"
                (Sample.connected_service
                   [Sample.quiet 1; Sample.fragile 2; Sample.quiet 3]))
      as (_ & _ & _ & _ & H & _).
    destruct H as [_ H]; [left; reflexivity|].
    apply (H [Sample.quiet 1] (Sample.fragile 2) [Sample.quiet 3]).
    + reflexivity.
    + repeat constructor.
    + reflexivity.
Defined.

Lemma reconnect_gives_up_after_ten_witness :
  let now := "2025-11-23T17:25:39.000Z" in
  let url := "ws://localhost:8005/ws" in
  let s := Sample.connected_service [Sample.quiet 1] in
  let ten := concat (replicate 10 (failure_then_retry now)) in
  reconnectAttempts s = 0
  /\ timeouts (snd (run url ten s)) = replicate 10 (SetTimeoutConnect 3000)
  /\ reconnectAttempts (fst (run url ten s)) = 10
  /\ timeouts (snd (run url [Closed now] (fst (run url ten s)))) = [].
Proof.
  split; [reflexivity|].
  destruct (reconnect_gives_up_after_ten "ws://localhost:8005/ws"
              "2025-11-23T17:25:39.000Z"
              (Sample.connected_service [Sample.quiet 1]) "proj-1" 3)
    as (H1 & H2 & H3 & _).
  - reflexivity.
  - discriminate.
  - repeat constructor.
  - reflexivity.
  - lia.
  - split; [exact H1|]. split; [exact H2|]. exact (proj1 (H3 1)).
Defined.

End TransportRuns.

(** * Further properties of the code *)

(** ** The event router: registration, dispatch and queries *)

Section RouterFacts.

Import EventRouter Reading.

Lemma get_listeners_on (t t' : string) (cb : EventCallback) (h : EventHandler) :
  get_listeners t' (on t cb h)
  = if String.eqb t t' then get_listeners t h ++ [cb] else get_listeners t' h.
Proof.
  unfold get_listeners, on. simpl.
  destruct (String.eqb_spec t t') as [->|Hne].
  - by rewrite lookup_insert_eq.
  - by rewrite lookup_insert_ne.
Qed.

Lemma get_listeners_off (t t' : string) (cb : EventCallback) (h : EventHandler) :
  get_listeners t' (off t cb h)
  = if String.eqb t t' then splice_first cb (get_listeners t h)
    else get_listeners t' h.
Proof.
  unfold get_listeners, off.
  destruct (listeners h !! t) as [cbs|] eqn:Ht; simpl.
  - destruct (String.eqb_spec t t') as [->|Hne].
    + by rewrite lookup_insert_eq.
    + by rewrite lookup_insert_ne.
  - destruct (String.eqb_spec t t') as [<-|Hne]; [|done]. by rewrite Ht.
Qed.

Lemma called_listeners (h : EventHandler) (e : Event.WorkflowEvent) :
  called h e = get_listeners (Event.event_type e) h ++ get_listeners "*" h.
Proof.
  unfold called, handleEvent. simpl. rewrite map_map. simpl.
  rewrite map_id. reflexivity.
Qed.

Lemma times_app (cb : nat) (l1 l2 : list nat) :
  times cb (l1 ++ l2) = times cb l1 + times cb l2.
Proof. unfold times. by rewrite List.filter_app, length_app. Qed.

Lemma times_one (cb : nat) : times cb [cb] = 1.
Proof. unfold times. simpl. by rewrite Nat.eqb_refl. Qed.

Lemma times_cons (c x : nat) (l : list nat) :
  times c (x :: l) = (if Nat.eqb c x then 1 else 0) + times c l.
Proof. unfold times. simpl. by destruct (Nat.eqb c x). Qed.

Lemma splice_first_times (cb c : nat) (l : list nat) :
  times c (splice_first cb l)
  = if Nat.eqb c cb then pred (times c l) else times c l.
Proof.
  induction l as [|x l IH]; simpl.
  - by destruct (Nat.eqb c cb).
  - destruct (Nat.eqb_spec x cb) as [->|Hx].
    + rewrite times_cons. destruct (Nat.eqb_spec c cb); simpl; lia.
    + rewrite !times_cons, IH.
      repeat match goal with
             | |- context [Nat.eqb ?a ?b] => destruct (Nat.eqb_spec a b)
             end; subst; simpl; (congruence || lia).
Qed.

Lemma splice_first_others (cb : nat) (l : list nat) :
  List.filter (fun c => negb (Nat.eqb c cb)) (splice_first cb l)
  = List.filter (fun c => negb (Nat.eqb c cb)) l.
Proof.
  induction l as [|x l IH]; [reflexivity|]. simpl.
  destruct (Nat.eqb_spec x cb) as [->|Hx]; simpl.
  - reflexivity.
  - destruct (Nat.eqb_spec x cb); [done|]. simpl. by rewrite IH.
Qed.

Lemma splice_first_snoc (cb : nat) (l : list nat) :
  times cb l = 0 -> splice_first cb (l ++ [cb]) = l.
Proof.
  induction l as [|x l IH]; simpl; intros H.
  - by rewrite Nat.eqb_refl.
  - rewrite times_cons in H.
    destruct (Nat.eqb_spec x cb) as [->|Hx].
    + rewrite Nat.eqb_refl in H. lia.
    + f_equal. apply IH. lia.
Qed.

(** X1: a callback registered with [onAny] is called once more for every
    event, and twice more for an event whose type is the wildcard name
    itself, since that event reaches the wildcard list both as its own type
    and as wildcard. *)
Theorem onAny_called_for_every_event (cb : EventCallback) (h : EventHandler)
  (e : Event.WorkflowEvent) :
  times cb (called (onAny cb h) e)
  = times cb (called h e)
    + (if String.eqb (Event.event_type e) "*" then 2 else 1).
Proof.
  rewrite !called_listeners, !times_app. unfold onAny.
  rewrite !get_listeners_on, String.eqb_refl.
  rewrite (String.eqb_sym "*" (Event.event_type e)).
  destruct (String.eqb_spec (Event.event_type e) "*") as [->|Hne].
  - rewrite !times_app, times_one. lia.
  - rewrite times_app, times_one. lia.
Qed.

Lemma splice_first_earliest (cb : nat) (l1 l2 : list nat) :
  ~ In cb l1 -> splice_first cb (l1 ++ cb :: l2) = l1 ++ l2.
Proof.
  induction l1 as [|x l1 IH]; simpl; intros H.
  - by rewrite Nat.eqb_refl.
  - destruct (Nat.eqb_spec x cb) as [->|Hx]; [tauto|].
    f_equal. apply IH. tauto.
Qed.

Lemma splice_first_absent (cb : nat) (l : list nat) :
  ~ In cb l -> splice_first cb l = l.
Proof.
  induction l as [|x l IH]; simpl; intros H; [reflexivity|].
  destruct (Nat.eqb_spec x cb) as [->|Hx]; [tauto|].
  f_equal. apply IH. tauto.
Qed.

(** X2: [off] takes away one registration of the callback for that type,
    the earliest, and nothing else: the listeners before the first
    occurrence of the callback and those after it are kept as they are, a
    later registration of the same callback included; a callback that is
    not registered changes nothing; the other types keep their lists, and
    the history is kept. *)
Theorem off_removes_one_registration (t t' : string) (cb c : EventCallback)
  (h : EventHandler) :
  (forall l1 l2, get_listeners t h = l1 ++ cb :: l2 -> ~ In cb l1 ->
     get_listeners t (off t cb h) = l1 ++ l2)
  /\ (~ In cb (get_listeners t h) ->
        get_listeners t (off t cb h) = get_listeners t h)
  /\ times c (get_listeners t (off t cb h))
     = (if Nat.eqb c cb then pred (times c (get_listeners t h))
        else times c (get_listeners t h))
  /\ List.filter (fun c => negb (Nat.eqb c cb)) (get_listeners t (off t cb h))
     = List.filter (fun c => negb (Nat.eqb c cb)) (get_listeners t h)
  /\ get_listeners t' (off t cb h)
     = (if String.eqb t t' then get_listeners t (off t cb h)
        else get_listeners t' h)
  /\ eventHistory (off t cb h) = eventHistory h.
Proof.
  rewrite !get_listeners_off, String.eqb_refl.
  split; [intros l1 l2 -> H; by apply splice_first_earliest|].
  split; [apply splice_first_absent|].
  split; [apply splice_first_times|]. split; [apply splice_first_others|].
  split; [reflexivity|].
  unfold off. by destruct (listeners h !! t).
Qed.

(** X3: registering a callback that was not registered for the type and
    removing it again gives back the dispatch of before, for every event. *)
Theorem on_off_restores_dispatch (t : string) (cb : EventCallback)
  (h : EventHandler) (e : Event.WorkflowEvent) :
  times cb (get_listeners t h) = 0 ->
  called (off t cb (on t cb h)) e = called h e
  /\ eventHistory (off t cb (on t cb h)) = eventHistory h.
Proof.
  intros Hfresh.
  assert (Hl : forall t', get_listeners t' (off t cb (on t cb h))
                          = get_listeners t' h).
  { intros t'. rewrite get_listeners_off, !get_listeners_on, String.eqb_refl.
    destruct (String.eqb_spec t t') as [->|Hne]; [|reflexivity].
    by apply splice_first_snoc. }
  split.
  - by rewrite !called_listeners, !Hl.
  - unfold off, on. simpl. by rewrite lookup_insert_eq.
Qed.

Lemma last_snoc_filter (hist evs : list Event.WorkflowEvent) :
  match rev (List.filter Event.has_stage (hist ++ evs)) with
  | e :: _ => Event.stage e
  | [] => None
  end
  = match last (List.filter Event.has_stage evs) with
    | Some e => Event.stage e
    | None =>
        match rev (List.filter Event.has_stage hist) with
        | e :: _ => Event.stage e
        | [] => None
        end
    end.
Proof.
  rewrite List.filter_app.
  destruct (List.filter Event.has_stage evs) as [|x l] using rev_ind.
  - by rewrite app_nil_r.
  - rewrite app_assoc, rev_app_distr, last_snoc. reflexivity.
Qed.

(** X4: [getCurrentStage] is the stage of the most recent event that names
    one.  After more events it is the stage of the last of them that has a
    stage, and the old answer when none has; [clearHistory] forgets it. *)
Theorem current_stage_is_latest (evs : list Event.WorkflowEvent)
  (h : EventHandler) :
  getCurrentStage (handleEvents evs h)
  = match last (List.filter Event.has_stage evs) with
    | Some e => Event.stage e
    | None => getCurrentStage h
    end
  /\ getCurrentStage (clearHistory h) = None.
Proof.
  split; [|reflexivity].
  unfold getCurrentStage. rewrite handleEvents_history.
  apply last_snoc_filter.
Qed.

(** X5: a positive [limit] returns the last [limit] entries of the filtered
    history, all of it when it is shorter; a negative [limit] drops that
    many entries from the front instead. *)
Theorem getHistory_limit_tail (eventType : option string) (p : positive)
  (h : EventHandler) :
  let all := getHistory eventType None h in
  let tail := getHistory eventType (Some (Z.pos p)) h in
  tail = drop (length all - Pos.to_nat p) all
  /\ length tail = Nat.min (Pos.to_nat p) (length all)
  /\ take (length all - Pos.to_nat p) all ++ tail = all
  /\ getHistory eventType (Some (Z.neg p)) h = drop (Pos.to_nat p) all.
Proof.
  intros all tail.
  assert (Ht : tail = drop (length all - Pos.to_nat p) all).
  { unfold tail, all, getHistory. simpl.
    match goal with |- slice _ ?f = _ => generalize f end.
    intros f. unfold slice.
    destruct (Z.ltb_spec (- Z.pos p) 0); [|lia].
    f_equal. lia. }
  split; [exact Ht|]. split; [rewrite Ht, length_drop; lia|].
  split; [rewrite Ht; apply take_drop|].
  unfold all, getHistory. cbn [Z.eqb].
  change (- Z.neg p)%Z with (Z.pos p).
  match goal with |- slice _ ?f = _ => generalize f end.
  intros f. unfold slice.
  destruct (Z.ltb_spec (Z.pos p) 0); [lia|].
  destruct (Nat.le_gt_cases (Pos.to_nat p) (length f)) as [Hle|Hgt].
  - f_equal. lia.
  - rewrite (drop_ge f (Pos.to_nat p)) by lia. apply drop_ge. lia.
Qed.

End RouterFacts.

(** ** The timeline: what a stage depends on *)

Section TimelineFacts.

Import ProgressTimeline Reading.

(** X6: events never add, remove or rename a stage.  As long as no event
    makes the updater throw, the timeline stays on display with the stage
    names it had: every name maps to an entry of the same name before and
    after. *)
Theorem stage_names_are_fixed (projectId st : string)
  (evs : list Event.WorkflowEvent) (m : gmap string StageInfo) :
  existsb (fatal projectId m) evs = false ->
  exists m',
    handleEvents projectId evs m = Normal m'
    /\ name <$> m' !! st = name <$> m !! st
    /\ dom m' = dom m.
Proof.
  intros Hf. destruct (handleEvents_lookup _ _ _ Hf) as (m' & Heq & Hl).
  exists m'. split; [exact Heq|].
  assert (H : forall st', name <$> m' !! st' = name <$> m !! st').
  { intros st'. rewrite Hl.
    destruct (m !! st') as [info|]; simpl; [|reflexivity].
    f_equal. apply fold_update_fields. }
  split; [apply H|].
  apply set_eq. intros k. rewrite !elem_of_dom.
  specialize (H k).
  destruct (m' !! k), (m !! k); simpl in H;
    try discriminate; split; intros [? ?]; eauto; discriminate.
Qed.

(** X7: as long as no event makes the updater throw, the event log of a
    stage is its old log followed by the events taken for it, in arrival
    order: those of this project whose [stage] is its name.  Events of
    other stages or projects never reach it. *)
Theorem stage_log_is_its_events (projectId st : string)
  (evs : list Event.WorkflowEvent) (m : gmap string StageInfo) :
  existsb (fatal projectId m) evs = false ->
  exists m',
    handleEvents projectId evs m = Normal m'
    /\ events <$> m' !! st
       = (fun info => events info ++ List.filter (accepted projectId st) evs)
         <$> m !! st.
Proof.
  intros Hf. destruct (handleEvents_lookup _ _ _ Hf) as (m' & Heq & Hl).
  exists m'. split; [exact Heq|]. rewrite Hl.
  destruct (m !! st) as [info|]; simpl; [|reflexivity].
  f_equal. apply fold_update_fields.
Qed.

(** X8: as long as no event makes the updater throw, the status of a stage
    is the one assigned by the last event taken for it that is a
    [stage_started], [stage_completed] or [stage_failed], and the old
    status when there is none.  The last event wins whatever came before: a
    late [stage_started] makes a completed stage running. *)
Theorem stage_status_last_event_wins (projectId st : string)
  (evs : list Event.WorkflowEvent) (m : gmap string StageInfo) :
  existsb (fatal projectId m) evs = false ->
  exists m',
    handleEvents projectId evs m = Normal m'
    /\ status_of st m'
       = (fun info =>
            default (status info)
              (last (omap status_event
                       (List.filter (accepted projectId st) evs))))
         <$> m !! st.
Proof.
  intros Hf. destruct (handleEvents_lookup _ _ _ Hf) as (m' & Heq & Hl).
  exists m'. split; [exact Heq|]. unfold status_of. rewrite Hl.
  destruct (m !! st) as [info|]; simpl; [|reflexivity].
  f_equal. apply fold_update_fields.
Qed.

(** X9: events that name no stage of the map (no stage, the empty name, an
    unknown name, or another project) leave the whole map as it is, with
    one exception: an event of the timeline's project whose stage is a name
    every object inherits ([constructor], [toString], [__proto__], ...)
    makes the updater throw, and the timeline is lost whatever follows. *)
Theorem unknown_stage_events_change_nothing (projectId : string)
  (evs : list Event.WorkflowEvent) (m : gmap string StageInfo) :
  (forall e st, In e evs -> is_Some (m !! st) -> accepted projectId st e = false) ->
  (existsb (fatal projectId m) evs = false ->
     handleEvents projectId evs m = Normal m)
  /\ (existsb (fatal projectId m) evs = true ->
        handleEvents projectId evs m = Throw)
  /\ (forall e s rest,
        Event.project_id e = projectId -> Event.stage e = Some s ->
        In s ["constructor"; "hasOwnProperty"; "isPrototypeOf";
              "propertyIsEnumerable"; "toLocaleString"; "toString";
              "valueOf"; "__proto__"; "__defineGetter__";
              "__defineSetter__"; "__lookupGetter__"; "__lookupSetter__"] ->
        m !! s = None ->
        handleEvents projectId (e :: rest) m = Throw).
Proof.
  intros H. split; [|split].
  - intros Hf. destruct (handleEvents_lookup _ _ _ Hf) as (m' & Heq & Hl).
    rewrite Heq. f_equal. apply map_eq. intros st. rewrite Hl.
    destruct (m !! st) as [info|] eqn:Hst; simpl; [|reflexivity].
    assert (Hnone : List.filter (accepted projectId st) evs = []).
    { clear Hf Heq Hl. induction evs as [|e evs IH]; [reflexivity|]. simpl.
      rewrite (H e st); [|by left|by rewrite Hst].
      apply IH. intros e' st' Hin. apply H. by right. }
    by rewrite Hnone.
  - apply handleEvents_fatal.
  - intros e s rest Hp Hs Hin Hm. apply handleEvents_fatal. simpl.
    apply orb_true_iff. left. unfold fatal.
    assert (Hsome : some (String.eqb s) inherited = true).
    { unfold some. apply existsb_exists. exists s.
      split; [exact Hin|apply String.eqb_refl]. }
    rewrite Hp, String.eqb_refl, Hs, Hm, Hsome.
    destruct (String.eqb_spec s "") as [->|Hne]; [|reflexivity].
    exfalso. simpl in Hin. intuition discriminate.
Qed.

(** X10: expanding and collapsing a stage is an involution that touches no
    status: toggling a stage of the map twice gives the map back. *)
Theorem toggle_twice_is_identity (stageName : string)
  (m : gmap string StageInfo) :
  is_Some (m !! stageName) ->
  exists m',
    toggleStageExpansion stageName m = Normal m'
    /\ toggleStageExpansion stageName m' = Normal m
    /\ (forall st, status_of st m' = status_of st m)
    /\ expanded <$> m' !! stageName = negb <$> (expanded <$> m !! stageName).
Proof.
  intros [info Hinfo]. unfold toggleStageExpansion. rewrite Hinfo.
  eexists. split; [reflexivity|].
  rewrite lookup_insert_eq. simpl. rewrite negb_involutive.
  split.
  - f_equal. rewrite insert_insert_eq. apply insert_id.
    rewrite Hinfo. by destruct info.
  - split.
    + intros st. unfold status_of.
      destruct (decide (stageName = st)) as [<-|Hne].
      * by rewrite lookup_insert_eq, ?Hinfo.
      * by rewrite lookup_insert_ne.
    + reflexivity.
Qed.

End TimelineFacts.

(** ** The dashboard: polling *)

Section PollingFacts.

Import Envelope Dashboard.

Lemma backoff_values (k : nat) :
  backoff 0 = 1000%Z /\ backoff 1 = 2000%Z /\ backoff 2 = 4000%Z
  /\ backoff 3 = 8000%Z /\ backoff (4 + k) = 10000%Z.
Proof.
  repeat (split; [reflexivity|]).
  unfold backoff. rewrite Nat2Z.inj_add, Z.pow_add_r by lia.
  assert (1 <= 2 ^ Z.of_nat k)%Z by (apply Z.pow_le_mono_r with (b := 0%Z); lia).
  change (2 ^ Z.of_nat 4)%Z with 16%Z. lia.
Qed.

(** X11: a poll that fails changes no cell of the state, what is known
    stays on display, and arms the retry timer for a delay that starts at
    one second, doubles with the captured retry count, and is capped at ten
    seconds from the fourth retry on. *)
Theorem failed_poll_keeps_state (projectId : string) (retryCount_c k : nat)
  (s : State) :
  projectId <> "" ->
  fetchStatus (Some projectId) retryCount_c Rejected s
  = (s, Some (backoff retryCount_c))
  /\ (1000 <= backoff retryCount_c <= 10000)%Z
  /\ (backoff retryCount_c <= backoff (S retryCount_c))%Z
  /\ backoff 0 = 1000%Z /\ backoff 1 = 2000%Z /\ backoff 2 = 4000%Z
  /\ backoff 3 = 8000%Z /\ backoff (4 + k) = 10000%Z.
Proof.
  intros Hp. split.
  { unfold fetchStatus. by destruct (String.eqb_spec projectId ""). }
  assert (Hpow : forall n, (1 <= 2 ^ Z.of_nat n)%Z).
  { intros n. apply Z.pow_le_mono_r with (b := 0%Z); lia. }
  split.
  { unfold backoff. specialize (Hpow retryCount_c). lia. }
  split.
  { unfold backoff. rewrite Nat2Z.inj_succ, Z.pow_succ_r by lia.
    specialize (Hpow retryCount_c). lia. }
  apply backoff_values.
Qed.

(** A snapshot whose paths are all known adds nothing. *)
Lemma mergeFiles_known (generated prev : list FileGeneratedMessage) :
  (forall g, In g generated -> In (path g) (map path prev)) ->
  mergeFiles generated prev = prev.
Proof.
  induction generated as [|g gs IH]; intros H; [reflexivity|].
  rewrite mergeFiles_cons.
  assert (Hg : some (fun f => String.eqb (path f) (path g)) prev = true).
  { apply some_path_In. apply H. by left. }
  rewrite Hg. apply IH. intros g' Hin. apply H. by right.
Qed.

Lemma mergeFiles_idempotent (generated prev : list FileGeneratedMessage) :
  mergeFiles generated (mergeFiles generated prev) = mergeFiles generated prev.
Proof.
  apply mergeFiles_known.
  by destruct (mergeFiles_spec generated prev) as (_ & _ & _ & _ & H).
Qed.

(** X12: polling is idempotent.  The same snapshot polled again, as every
    three seconds while nothing changes, leaves the state of the first
    poll: no file is added twice. *)
Theorem repeated_poll_adds_nothing (projectId : option string)
  (rc rc' : nat) (data : ProjectStatus) (s : State) :
  fst (fetchStatus projectId rc' (Resolved data)
         (fst (fetchStatus projectId rc (Resolved data) s)))
  = fst (fetchStatus projectId rc (Resolved data) s).
Proof.
  unfold fetchStatus. destruct projectId as [p|]; [|reflexivity].
  destruct (String.eqb p ""); [reflexivity|].
  destruct (generated_files data) as [[|g gs]|]; simpl; try reflexivity.
  unfold setFiles, setRetryCount, setStatus. simpl. f_equal.
  apply (mergeFiles_idempotent (g :: gs)).
Qed.

(** X13: the poll merge keeps paths distinct: a file list without two
    entries of one path has none after a successful poll either, whatever
    the snapshot lists (repeated paths included). *)
Theorem poll_keeps_paths_distinct (projectId : option string) (rc : nat)
  (response : Response) (s : State) :
  List.NoDup (map path (files s)) ->
  List.NoDup (map path (files (fst (fetchStatus projectId rc response s)))).
Proof.
  intros Hnd. unfold fetchStatus. destruct projectId as [p|]; [|done].
  destruct (String.eqb p ""); [done|].
  destruct response as [data|]; [|done].
  destruct (generated_files data) as [[|g gs]|];
    cbn [fst files setFiles setRetryCount setStatus]; try done.
  destruct (mergeFiles_spec (g :: gs) (files s)) as (added & -> & Hfrom & Hnd' & _).
  rewrite map_app. apply List.NoDup_app; [done|done|].
  intros x Hx Hx'. apply in_map_iff in Hx' as (f & <- & Hf).
  by apply (proj2 (Hfrom f Hf)).
Qed.

End PollingFacts.

(** ** The dashboard: files pushed over the socket *)

Section FileFacts.

Import Envelope Dashboard Reading.

Variable getTime : string -> option Z.
Variable c : Captured.

Lemma upsertFile_nil (message : FileGeneratedMessage) :
  upsertFile message [] = [message].
Proof. reflexivity. Qed.

Lemma upsertFile_cons (message x : FileGeneratedMessage)
  (l : list FileGeneratedMessage) :
  upsertFile message (x :: l)
  = if String.eqb (filename x) (filename message) then message :: l
    else x :: upsertFile message l.
Proof.
  unfold upsertFile. simpl.
  destruct (String.eqb (filename x) (filename message)); [reflexivity|].
  by destruct (findIndex _ l).
Qed.

Lemma upsertFile_In (message : FileGeneratedMessage)
  (prev : list FileGeneratedMessage) :
  In message (upsertFile message prev).
Proof.
  induction prev as [|x l IH]; [by left|].
  rewrite upsertFile_cons. destruct (String.eqb _ _); [by left|by right].
Qed.

Lemma upsertFile_filenames (message : FileGeneratedMessage)
  (prev : list FileGeneratedMessage) :
  map filename (upsertFile message prev)
  = if some (fun f => String.eqb (filename f) (filename message)) prev
    then map filename prev
    else map filename prev ++ [filename message].
Proof.
  induction prev as [|x l IH]; [reflexivity|].
  rewrite upsertFile_cons. simpl.
  destruct (String.eqb_spec (filename x) (filename message)) as [Heq|Hne]; simpl.
  - by rewrite Heq.
  - rewrite IH. unfold some. by destruct (existsb _ l).
Qed.

Lemma upsertFile_idempotent (message : FileGeneratedMessage)
  (prev : list FileGeneratedMessage) :
  upsertFile message (upsertFile message prev) = upsertFile message prev.
Proof.
  induction prev as [|x l IH].
  - simpl. rewrite upsertFile_nil, upsertFile_cons. by rewrite String.eqb_refl.
  - rewrite upsertFile_cons.
    destruct (String.eqb (filename x) (filename message)) eqn:Hx.
    + rewrite upsertFile_cons. by rewrite String.eqb_refl.
    + rewrite upsertFile_cons, Hx. by rewrite IH.
Qed.

(** X14: a pushed file is in the list afterwards, pushing it again changes
    nothing, and file names stay distinct: a list without two entries of
    one file name has none after a FILE_GENERATED either. *)
Theorem push_keeps_filenames_distinct (file : FileGeneratedMessage) (s : State) :
  List.NoDup (map filename (files s)) ->
  let s' := subscriber getTime c (FILE_GENERATED file) s in
  List.NoDup (map filename (files s'))
  /\ In file (files s')
  /\ subscriber getTime c (FILE_GENERATED file) s' = s'.
Proof.
  intros Hnd s'.
  assert (Hfiles : files s' = upsertFile file (files s)).
  { unfold s'. simpl. by destruct (auto_focus file). }
  split; [|split].
  - rewrite Hfiles, upsertFile_filenames.
    destruct (some _ (files s)) eqn:Hs; [done|].
    apply List.NoDup_app; [done|repeat constructor; by intros []|].
    intros x Hx [<-|[]]. apply in_map_iff in Hx as (f & Hf & Hin).
    unfold some in Hs.
    assert (Ht : existsb (fun f => String.eqb (filename f) (filename file))
                   (files s) = true).
    { apply existsb_exists. exists f. split; [done|]. by apply String.eqb_eq. }
    congruence.
  - rewrite Hfiles. apply upsertFile_In.
  - unfold s'. simpl. destruct (auto_focus file); simpl;
      unfold setFiles, setSelectedFile; simpl; by rewrite upsertFile_idempotent.
Qed.

(** X15: once a file has been pushed a file is selected.  With [auto_focus]
    it is the pushed file; otherwise the selection is kept, and when there
    was none the newest entry of the list is taken. *)
Theorem push_selects_a_file (file : FileGeneratedMessage) (s : State) :
  let s' := deliver getTime c (FILE_GENERATED file) s in
  is_Some (selectedFile s')
  /\ files s' = upsertFile file (files s)
  /\ selectedFile s'
     = (if auto_focus file then Some file
        else match selectedFile s with
             | Some g => Some g
             | None => last (files s')
             end).
Proof.
  intros s'.
  assert (Hne : exists x, last (upsertFile file (files s)) = Some x).
  { destruct (last (upsertFile file (files s))) eqn:Hl; [eauto|].
    apply last_None in Hl. pose proof (upsertFile_In file (files s)) as Hin.
    rewrite Hl in Hin. inversion Hin. }
  destruct Hne as (x & Hx).
  assert (Hlen : Nat.ltb 0 (length (upsertFile file (files s))) = true).
  { apply Nat.ltb_lt. destruct (upsertFile file (files s)); [discriminate|].
    simpl. lia. }
  unfold s', deliver, subscriber, autoSelectEffect.
  destruct (auto_focus file); simpl; rewrite ?Hlen; simpl.
  - eauto.
  - destruct (selectedFile s) as [g|] eqn:Hsel; simpl.
    + eauto.
    + rewrite Hx. eauto.
Qed.

(** One input keeps every entry of the file list in its place, under its
    file name: the entry is the old one, or the pushed file of that name.
    What is added is added at the end. *)
Lemma step_files (i : Input) (s : State) :
  (exists more,
      map filename (files (step getTime c i s))
      = map filename (files s) ++ more)
  /\ (forall k f, files s !! k = Some f ->
        exists f',
          files (step getTime c i s) !! k = Some f'
          /\ filename f' = filename f
          /\ (f' = f \/ i = Push (FILE_GENERATED f'))).
Proof.
  assert (Hsame : forall l, l = files s ->
    (exists more, map filename l = map filename (files s) ++ more)
    /\ (forall k f, files s !! k = Some f ->
          exists f', l !! k = Some f' /\ filename f' = filename f
                     /\ (f' = f \/ i = Push (FILE_GENERATED f')))).
  { intros l ->. split; [exists []; by rewrite app_nil_r|]. eauto. }
  assert (Happ : forall l added, l = files s ++ added ->
    (exists more, map filename l = map filename (files s) ++ more)
    /\ (forall k f, files s !! k = Some f ->
          exists f', l !! k = Some f' /\ filename f' = filename f
                     /\ (f' = f \/ i = Push (FILE_GENERATED f')))).
  { intros l added ->. split; [rewrite map_app; eauto|].
    intros k f Hk. exists f. split; [by apply lookup_app_l_Some|auto]. }
  destruct i as [m|p rc resp]; simpl.
  - destruct m; simpl; try (by apply Hsame).
    + assert (Hf : files (if auto_focus file
                          then setSelectedFile (Some file)
                                 (setFiles (upsertFile file) s)
                          else setFiles (upsertFile file) s)
                   = upsertFile file (files s)).
      { by destruct (auto_focus file). }
      rewrite Hf. split.
      * rewrite upsertFile_filenames. destruct (some _ (files s)); [|eauto].
        exists []. by rewrite app_nil_r.
      * intros k f Hk.
        destruct (upsertFile_by_filename file (files s))
          as [[_ ->]|(j & old & Hj & Hold & ->)].
        -- exists f. split; [by apply lookup_app_l_Some|auto].
        -- destruct (decide (j = k)) as [->|Hne].
           ++ exists file. rewrite list_lookup_insert_eq
                by (by apply lookup_lt_Some in Hk).
              split; [reflexivity|]. split; [congruence|by right].
           ++ exists f. rewrite list_lookup_insert_ne by done. auto.
    + apply Hsame. by destruct (_ && _).
  - unfold fetchStatus. destruct p as [p|]; [|by apply Hsame].
    destruct (String.eqb p ""); [by apply Hsame|].
    destruct resp as [d|]; [|by apply Hsame].
    destruct (generated_files d) as [[|g gs]|];
      cbn [fst files setFiles setRetryCount setStatus]; try (by apply Hsame).
    destruct (mergeFiles_spec (g :: gs) (files s)) as (added & Heq & _).
    apply (Happ _ added). exact Heq.
Qed.

(** X16: nothing that reaches the reducer removes a chat entry or an entry
    of the file list.  After any pushed messages and polls the old
    transcript is a prefix of the new one; every entry of the file list is
    still at its place under its file name, and is the old entry or a
    pushed file of that name, which brings its own path and content; new
    entries are added at the end. *)
Theorem session_only_grows (inputs : list Input) (s : State) :
  let final := steps getTime c inputs s in
  (exists extra, chatMessages final = chatMessages s ++ extra)
  /\ (exists more,
        map filename (files final) = map filename (files s) ++ more)
  /\ (forall k f, files s !! k = Some f ->
        exists f',
          files final !! k = Some f'
          /\ filename f' = filename f
          /\ (f' = f \/ In (Push (FILE_GENERATED f')) inputs)).
Proof.
  revert s. induction inputs as [|i inputs IH]; intros s.
  - simpl. split; [exists []; by rewrite app_nil_r|].
    split; [exists []; by rewrite app_nil_r|]. eauto.
  - cbn zeta. rewrite steps_cons.
    destruct (IH (step getTime c i s)) as ((extra & Hc) & (more & Hn) & Hk).
    destruct (step_files i s) as ((more1 & Hn1) & Hk1).
    split; [|split].
    + rewrite Hc, step_chat.
      destruct i as [m|? ? ?]; [|eauto].
      destruct (chat_entry m) as [e|]; [|eauto].
      destruct (appendChat_cases getTime (role e) (content e) (timestamp e)
                  (chatMessages s)) as [[_ ->]|[_ ->]]; [eauto|].
      rewrite <- app_assoc. eauto.
    + rewrite Hn, Hn1, <- app_assoc. eauto.
    + intros k f Hf.
      destruct (Hk1 k f Hf) as (f1 & Hf1 & Hname1 & Hor1).
      destruct (Hk k f1 Hf1) as (f2 & Hf2 & Hname2 & Hor2).
      exists f2. split; [exact Hf2|]. split; [congruence|].
      destruct Hor2 as [-> | Hin]; [|right; by right].
      destruct Hor1 as [-> | ->]; [by left|right; by left].
Qed.

(** X17: the review gate is set by AWAITING_REVIEW and by nothing else, and
    no pushed message or poll clears it: after any inputs it is on when it
    was on or an AWAITING_REVIEW was among them.  Only [handleApprove]
    turns it off. *)
Theorem review_gate_stays_until_approved (inputs : list Input) (s : State)
  (projectId : option string) (nowIso : string) (nowMs : Z) (sent : bool)
  (laterIso : string) :
  awaitingReview (steps getTime c inputs s)
  = awaitingReview s || existsb is_awaiting_review inputs
  /\ awaitingReview
       (handleApprove getTime projectId nowIso nowMs sent laterIso
          (steps getTime c inputs s))
     = false.
Proof.
  split.
  - revert s. induction inputs as [|i inputs IH]; intros s.
    + simpl. by rewrite orb_false_r.
    + rewrite steps_cons, IH. simpl.
      assert (Hi : awaitingReview (step getTime c i s)
                   = awaitingReview s || is_awaiting_review i).
      { destruct i as [m|p rc resp]; simpl.
        - destruct m; simpl; rewrite ?orb_false_r, ?orb_true_r; try done.
          + by destruct (auto_focus file).
          + by destruct (_ && _).
        - rewrite orb_false_r. unfold fetchStatus.
          destruct p as [p|]; [|done].
          destruct (String.eqb p ""); [done|].
          destruct resp as [d|]; [|done].
          by destruct (generated_files d) as [[|g gs]|]. }
      rewrite Hi. by rewrite orb_assoc.
  - unfold handleApprove, handleSendMessage.
    destruct projectId as [p|]; [|reflexivity].
    destruct (String.eqb p ""); [reflexivity|].
    by destruct sent.
Qed.

(** X18: the connected flag is the one of the last CONNECTION_STATUS that
    was pushed, and the old flag when there was none; no other message and
    no poll touches it. *)
Theorem connected_follows_last_status (inputs : list Input) (s : State) :
  isConnected (steps getTime c inputs s)
  = default (isConnected s) (last (omap connection_of inputs)).
Proof.
  revert s. induction inputs as [|i inputs IH]; intros s; [reflexivity|].
  rewrite steps_cons, IH. cbn [omap list_omap].
  change (list_omap _ _ connection_of inputs) with (omap connection_of inputs).
  assert (Hi : isConnected (step getTime c i s)
               = default (isConnected s) (connection_of i)).
  { destruct i as [m|p rc resp]; simpl.
    - destruct m; simpl; try done.
      + by destruct (auto_focus file).
      + by destruct (_ && _).
    - unfold fetchStatus. destruct p as [p|]; [|done].
      destruct (String.eqb p ""); [done|].
      destruct resp as [d|]; [|done].
      by destruct (generated_files d) as [[|g gs]|]. }
  rewrite Hi. destruct (connection_of i) as [b|]; simpl; [|reflexivity].
  rewrite last_cons. by destruct (last (omap connection_of inputs)).
Qed.

End FileFacts.

(** ** The dashboard: chat deliveries and sending *)

Section SendingFacts.

Import Envelope Dashboard.

Variable getTime : string -> option Z.
Variable c : Captured.

Lemma within_2000_self (ts : string) (t : Z) :
  getTime ts = Some t -> within_2000 getTime ts ts = true.
Proof.
  intros H. unfold within_2000. rewrite H.
  apply Z.ltb_lt. rewrite Z.sub_diag. simpl. lia.
Qed.

(** X19: a chat delivery with a timestamp that parses is idempotent: the
    same CHAT_MESSAGE, or the same CHAT_RESPONSE, handled a second time
    leaves the state of the first handling. *)
Theorem chat_redelivery_is_idempotent (m : WebSocketMessage) (e : ChatMessage)
  (t : Z) (s : State) :
  chat_entry m = Some e -> getTime (timestamp e) = Some t ->
  subscriber getTime c m (subscriber getTime c m s) = subscriber getTime c m s.
Proof.
  intros He Ht.
  assert (Hdup : forall prev,
    appendChat getTime (role e) (content e) (timestamp e)
      (appendChat getTime (role e) (content e) (timestamp e) prev)
    = appendChat getTime (role e) (content e) (timestamp e) prev).
  { intros prev.
    destruct (appendChat_cases getTime (role e) (content e) (timestamp e) prev)
      as [[Hd ->]|[_ ->]].
    - unfold appendChat. by rewrite Hd.
    - unfold appendChat at 1.
      rewrite (isDuplicate_present getTime e (timestamp e) t t); try done.
      + rewrite in_app_iff. right. left. by destruct e.
      + rewrite Z.sub_diag. simpl. lia. }
  destruct m; simpl in He; try discriminate; injection He as <-;
    simpl in *; unfold setChatMessages, setIsChatLoading; simpl;
    f_equal; apply Hdup.
Qed.

(** X20: duplicate suppression needs timestamps that parse.  A delivery
    whose timestamp is not a date is appended whatever the transcript
    holds, so the same message delivered twice stays twice. *)
Theorem unparsed_timestamp_is_never_duplicate (r : Role) (ct ts : string)
  (s : State) :
  getTime ts = None ->
  let e := {| role := r; content := ct; timestamp := ts |} in
  chatMessages
    (steps getTime c [Push (CHAT_MESSAGE r ct ts); Push (CHAT_MESSAGE r ct ts)] s)
  = chatMessages s ++ [e; e].
Proof.
  intros Hts e.
  assert (Hnever : forall prev, isDuplicate getTime r ct ts prev = false).
  { intros prev. unfold isDuplicate, some.
    induction prev as [|x l IH]; [reflexivity|]. simpl. rewrite IH.
    unfold within_2000. rewrite Hts.
    destruct (getTime (timestamp x)); by rewrite andb_false_r. }
  unfold steps. simpl. unfold appendChat. rewrite !Hnever.
  by rewrite <- app_assoc.
Qed.

(** X21: [handleSendMessage] never leaves the loading flag on and never
    drops an entry.  It adds the user's entry, unless the transcript holds
    a user entry with that content whose timestamp parses and is less than
    five seconds old; then, when the request failed, the error entry of the
    AI.  Afterwards the transcript holds a user entry with the content
    sent. *)
Theorem send_message_outcome (projectId message nowIso : string) (nowMs : Z)
  (sent : bool) (laterIso : string) (s : State) :
  projectId <> "" ->
  let s' := handleSendMessage getTime (Some projectId) message nowIso nowMs
              sent laterIso s in
  let own := {| role := user; content := message; timestamp := nowIso |} in
  let failure :=
    {| role := ai;
       content := "Sorry, I encountered an error processing your message. Please check your connection.";
       timestamp := laterIso |} in
  let tail := if sent then [] else [failure] in
  isChatLoading s' = false
  /\ ((exists m t, In m (chatMessages s)
                   /\ role m = user /\ content m = message
                   /\ getTime (timestamp m) = Some t
                   /\ (nowMs - 5000 < t)%Z) ->
        chatMessages s' = chatMessages s ++ tail)
  /\ ((forall m t, In m (chatMessages s) ->
                   role m = user -> content m = message ->
                   getTime (timestamp m) = Some t ->
                   (t <= nowMs - 5000)%Z) ->
        chatMessages s' = chatMessages s ++ own :: tail)
  /\ (exists m, In m (chatMessages s')
                /\ role m = user /\ content m = message).
Proof.
  intros Hp s' own failure tail.
  assert (Hs' : isChatLoading s' = false
                /\ chatMessages s'
                   = appendOwn getTime message nowIso nowMs (chatMessages s)
                     ++ tail).
  { unfold s', tail, handleSendMessage.
    destruct (String.eqb_spec projectId ""); [done|].
    destruct sent; simpl; [by rewrite app_nil_r|done]. }
  destruct Hs' as (Hload & Hchat).
  set (recent := fun m : ChatMessage =>
         String.eqb (content m) message && Role_eqb (role m) user
         && match getTime (timestamp m) with
            | Some t => Z.ltb (nowMs - 5000) t
            | None => false
            end).
  assert (Hown : appendOwn getTime message nowIso nowMs (chatMessages s)
                 = if some recent (chatMessages s) then chatMessages s
                   else chatMessages s ++ [own]) by reflexivity.
  assert (Hrecent : forall m, recent m = true <->
            role m = user /\ content m = message
            /\ exists t, getTime (timestamp m) = Some t /\ (nowMs - 5000 < t)%Z).
  { intros m. unfold recent. rewrite !andb_true_iff, String.eqb_eq. split.
    - intros [[Hc Hr] Ht]. apply Role_eqb_eq in Hr.
      destruct (getTime (timestamp m)) as [t|]; [|discriminate].
      apply Z.ltb_lt in Ht. eauto.
    - intros (Hr & Hc & t & Ht & Hlt). rewrite Hr, Ht.
      repeat split; [done|]. by apply Z.ltb_lt. }
  split; [exact Hload|]. split; [|split].
  - intros (m & t & Hin & Hr & Hc & Ht & Hlt).
    assert (Hsome : some recent (chatMessages s) = true).
    { unfold some. apply existsb_exists. exists m. split; [exact Hin|].
      apply Hrecent. eauto. }
    by rewrite Hchat, Hown, Hsome.
  - intros Hold.
    assert (Hsome : some recent (chatMessages s) = false).
    { unfold some. destruct (existsb recent (chatMessages s)) eqn:He; [|done].
      apply existsb_exists in He as (m & Hin & Hm).
      apply Hrecent in Hm as (Hr & Hc & t & Ht & Hlt).
      specialize (Hold m t Hin Hr Hc Ht). lia. }
    by rewrite Hchat, Hown, Hsome, <- app_assoc.
  - rewrite Hchat, Hown. destruct (some recent (chatMessages s)) eqn:Hsome.
    + unfold some in Hsome. apply existsb_exists in Hsome as (m & Hin & Hm).
      apply Hrecent in Hm as (Hr & Hc & _).
      exists m. rewrite in_app_iff. eauto.
    + exists own. rewrite !in_app_iff. split; [left; right; by left|done].
Qed.

(** X22: a double submit is absorbed.  When a text that is not yet in the
    transcript as a user entry is sent, and sent again less than five
    seconds later, the transcript gets one user entry for it, not two. *)
Theorem double_submit_adds_one_entry (projectId message nowIso nowIso' : string)
  (t1 nowMs nowMs' : Z) (laterIso laterIso' : string) (s : State) :
  projectId <> "" ->
  getTime nowIso = Some t1 -> (nowMs' - 5000 < t1)%Z ->
  (forall m, In m (chatMessages s) -> role m = user -> content m <> message) ->
  let s1 := handleSendMessage getTime (Some projectId) message nowIso nowMs
              true laterIso s in
  let s2 := handleSendMessage getTime (Some projectId) message nowIso' nowMs'
              true laterIso' s1 in
  chatMessages s2
  = chatMessages s ++ [{| role := user; content := message; timestamp := nowIso |}].
Proof.
  intros Hp Ht Hlt Hfresh s1 s2.
  assert (H1 : chatMessages s1
               = chatMessages s
                 ++ [{| role := user; content := message; timestamp := nowIso |}]).
  { unfold s1, handleSendMessage.
    destruct (String.eqb_spec projectId ""); [done|]. simpl.
    unfold appendOwn.
    destruct (some _ (chatMessages s)) eqn:Hs; [|reflexivity].
    unfold some in Hs. apply existsb_exists in Hs as (m & Hm & Hcond).
    apply andb_true_iff in Hcond as [Hcr _].
    apply andb_true_iff in Hcr as [Hc Hr].
    apply String.eqb_eq in Hc.
    exfalso. apply (Hfresh m Hm); [by destruct (role m)|done]. }
  unfold s2, handleSendMessage.
  destruct (String.eqb_spec projectId ""); [done|].
  cbn [chatMessages setIsChatLoading setChatMessages].
  rewrite H1. unfold appendOwn.
  assert (Hs : some
      (fun m => String.eqb (content m) message && Role_eqb (role m) user
                && match getTime (timestamp m) with
                   | Some t => Z.ltb (nowMs' - 5000) t
                   | None => false
                   end)
      (chatMessages s
         ++ [{| role := user; content := message; timestamp := nowIso |}])
      = true).
  { unfold some. apply existsb_exists.
    exists {| role := user; content := message; timestamp := nowIso |}.
    rewrite in_app_iff. split; [right; by left|]. simpl.
    rewrite String.eqb_refl, Ht. simpl. by apply Z.ltb_lt. }
  by rewrite Hs.
Qed.

End SendingFacts.

(** ** The dashboard: the session cache *)

Section CacheFacts.

Import Dashboard Cache.

Lemma chat_key_inj (p q : string) : chat_key p = chat_key q -> p = q.
Proof. cbv [chat_key String.append]. congruence. Qed.

Lemma status_key_inj (p q : string) : status_key p = status_key q -> p = q.
Proof. cbv [status_key String.append]. congruence. Qed.

Lemma chat_key_not_status (p q : string) : chat_key p <> status_key q.
Proof. cbv [chat_key status_key String.append]. congruence. Qed.

(** What the two effects leave under the keys of a project. *)
Lemma persist_lookup_chat (projectId : option string) (s : State)
  (store : gmap string Stored) (q : string) :
  persist projectId s store !! chat_key q
  = match projectId with
    | Some p =>
        if String.eqb p "" then store !! chat_key q
        else if String.eqb p q
             then match chatMessages s with
                  | [] => store !! chat_key q
                  | _ :: _ => Some (ChatJson (chatMessages s))
                  end
             else store !! chat_key q
    | None => store !! chat_key q
    end.
Proof.
  unfold persist, persistStatus, persistChat.
  destruct projectId as [p|]; [|reflexivity].
  destruct (String.eqb p ""); [reflexivity|].
  assert (Hst : forall (v : Stored) (m : gmap string Stored),
    <[status_key p := v]> m !! chat_key q = m !! chat_key q).
  { intros v m. apply lookup_insert_ne. intros H. symmetry in H.
    by apply chat_key_not_status in H. }
  destruct (status_ s); rewrite ?Hst;
    destruct (String.eqb_spec p q) as [->|Hne];
    destruct (chatMessages s) as [|x l]; try reflexivity;
    try (by rewrite lookup_insert_eq);
    (rewrite lookup_insert_ne; [reflexivity|]);
    intros H; by apply chat_key_inj in H.
Qed.

Lemma persist_lookup_status (projectId : option string) (s : State)
  (store : gmap string Stored) (q : string) :
  persist projectId s store !! status_key q
  = match projectId with
    | Some p =>
        if String.eqb p "" then store !! status_key q
        else if String.eqb p q
             then match status_ s with
                  | None => store !! status_key q
                  | Some v => Some (StatusJson v)
                  end
             else store !! status_key q
    | None => store !! status_key q
    end.
Proof.
  unfold persist, persistStatus, persistChat.
  destruct projectId as [p|]; [|reflexivity].
  destruct (String.eqb p ""); [reflexivity|].
  assert (Hch : forall (v : Stored) (m : gmap string Stored),
    <[chat_key p := v]> m !! status_key q = m !! status_key q).
  { intros v m. apply lookup_insert_ne. by apply chat_key_not_status. }
  destruct (String.eqb_spec p q) as [->|Hne];
    destruct (status_ s); destruct (chatMessages s) as [|x l];
    rewrite ?lookup_insert_eq, ?Hch; try reflexivity;
    (rewrite lookup_insert_ne; [by rewrite ?Hch|]);
    intros H; by apply status_key_inj in H.
Qed.

(** X23: the cache gives back what was stored for the project.  After the
    two persist effects ran for a project, loading that project yields its
    transcript (the stored one when the transcript is empty, since an empty
    transcript is not written) and its status (the stored one when there is
    none); what any other project loads is unchanged: the keys of two
    projects, and the chat and status keys, never coincide. *)
Theorem cache_restores_per_project (p q : string) (s : State)
  (store : gmap string Stored) :
  p <> "" -> q <> p ->
  loadChat (Some p) (persist (Some p) s store)
  = match chatMessages s with
    | [] => loadChat (Some p) store
    | _ :: _ => Some (chatMessages s)
    end
  /\ loadStatus (Some p) (persist (Some p) s store)
     = match status_ s with
       | None => loadStatus (Some p) store
       | Some v => Some (Some v)
       end
  /\ loadChat (Some q) (persist (Some p) s store) = loadChat (Some q) store
  /\ loadStatus (Some q) (persist (Some p) s store) = loadStatus (Some q) store.
Proof.
  intros Hp Hq. unfold loadChat, loadStatus.
  rewrite !persist_lookup_chat, !persist_lookup_status.
  destruct (String.eqb_spec p ""); [done|]. rewrite String.eqb_refl.
  destruct (String.eqb_spec p q); [congruence|].
  split; [by destruct (chatMessages s)|]. split; [by destruct (status_ s)|].
  split; reflexivity.
Qed.

(** X24: a store that only the two persist effects wrote never holds a
    status under a chat key or a transcript under a status key: both
    initializers find a value of the shape they expect, for every
    project. *)
Theorem written_store_loads (projectId : option string)
  (store : gmap string Stored) :
  written store ->
  is_Some (loadChat projectId store) /\ is_Some (loadStatus projectId store).
Proof.
  intros Hw.
  assert (Hshape : forall q,
    (forall v, store !! chat_key q <> Some (StatusJson v))
    /\ (forall l, store !! status_key q <> Some (ChatJson l))).
  { induction Hw as [|pid s store Hw IH]; intros q.
    - split; intros ?; by rewrite lookup_empty.
    - rewrite persist_lookup_chat, persist_lookup_status.
      destruct (IH q) as (Hc & Hs).
      destruct pid as [p|]; [|done].
      destruct (String.eqb p ""); [done|].
      destruct (String.eqb p q); [|done].
      split.
      + destruct (chatMessages s); [done|]. intros v. discriminate.
      + destruct (status_ s); [|done]. intros l. discriminate. }
  unfold loadChat, loadStatus. destruct projectId as [p|]; [|eauto].
  destruct (String.eqb p ""); [eauto|].
  destruct (Hshape p) as (Hc & Hs).
  split.
  - destruct (store !! chat_key p) as [[l|v]|]; eauto. by destruct (Hc v).
  - destruct (store !! status_key p) as [[l|v]|]; eauto. by destruct (Hs l).
Qed.

End CacheFacts.

(** ** The transport service over whole sessions *)

Section SessionFacts.

Import Transport Session.

Variable wsBaseUrl : string.

(** Unfold a method of the service down to its subscriber loops. *)
Ltac open_handler :=
  cbv beta iota zeta delta
    [onopen onclose onmessage onerror _reconnect _connect connect disconnect
     subscribe unsubscribe sendMessage
     _notifyConnectionStatus notify_all
     bind ret this emit lift throw try_catch then_reactions
     set_ws set_callbacks set_reconnectAttempts set_projectId];
  cbn [ws callbacks reconnectAttempts projectId fst snd].

(** Put the reactions of a list of effects back in one piece. *)
Ltac fold_reactions :=
  repeat match goal with
         | |- context [list_omap _ _ reaction ?l] =>
             change (list_omap _ _ reaction l) with (omap reaction l)
         end.

(** The subscriber loop makes calls only, to subscribers of its list. *)
Lemma forEach_call_shape (cbs : list WebSocketCallback) (m : json)
  (s : WebSocketService) :
  exists calls r,
    forEach_call cbs m s = (s, calls, r)
    /\ Forall (fun e => is_call e = true) calls
    /\ Forall (calls_within (map cb_id cbs)) calls.
Proof.
  induction cbs as [|cb cbs (calls & r & IH & Hc & Hw)].
  - exists [], (Normal tt). by repeat split.
  - simpl. unfold bind, emit. destruct (cb_throws cb m).
    + exists [Call (cb_id cb) m], Throw. split; [reflexivity|].
      split; repeat constructor.
    + rewrite IH. exists (Call (cb_id cb) m :: calls), r.
      split; [reflexivity|]. split; constructor; try done.
      * by left.
      * eapply Forall_impl; [exact Hw|]. intros [] ?; simpl in *; auto.
Qed.

Lemma calls_no_reaction (l : list Effect) :
  Forall (fun e => is_call e = true) l -> omap reaction l = [].
Proof.
  induction 1 as [|e l He _ IH]; [reflexivity|].
  destruct e; try discriminate. exact IH.
Qed.

Lemma filter_reactions (P : Effect -> bool) (l : list Effect) :
  (forall ev, P (HandleEvent ev) = false) ->
  List.filter P (omap reaction l) = [].
Proof.
  intros HP. induction l as [|e l IH]; [reflexivity|].
  destruct e; simpl; try exact IH. by rewrite HP.
Qed.

(** What the reactions do: they hand events to the router. *)
Lemma reactions_forward (P : Effect -> Prop) (l : list Effect) :
  (forall ev, P (HandleEvent ev)) -> Forall P (omap reaction l).
Proof.
  intros HP. induction l as [|e l IH]; [constructor|].
  destruct e; simpl; try exact IH. constructor; [apply HP|exact IH].
Qed.

Lemma calls_no_traffic (l : list Effect) :
  Forall (fun e => is_call e = true) l -> Forall no_traffic l.
Proof. intros H. eapply Forall_impl; [exact H|]. by intros []. Qed.

Lemma calls_filtered (P : Effect -> bool) (l : list Effect) :
  (forall id m, P (Call id m) = false) ->
  Forall (fun e => is_call e = true) l -> List.filter P l = [].
Proof.
  intros HP. induction 1 as [|e l He _ IH]; [reflexivity|].
  simpl. destruct e; try discriminate. by rewrite HP.
Qed.

Lemma within_not_called (id : nat) (ids : list nat) (l : list Effect) :
  ~ In id ids -> Forall (calls_within ids) l ->
  List.filter (is_call_to id) l = [].
Proof.
  intros Hid. induction 1 as [|e l He _ IH]; [reflexivity|].
  simpl. destruct e; simpl in *; try exact IH.
  destruct (Nat.eqb_spec cb id) as [->|]; [done|exact IH].
Qed.

(** Resolve the next subscriber loop, keeping what it may have done. *)
Ltac loop_shape :=
  match goal with
  | |- context [forEach_call ?a ?b ?c] =>
      let calls := fresh "calls" in
      let r := fresh "r" in
      let Hc := fresh "Hcalls" in
      let Hw := fresh "Hwithin" in
      destruct (forEach_call_shape a b c) as (calls & r & -> & Hc & Hw);
      destruct r as [[]|]; cbn [ws callbacks reconnectAttempts projectId fst snd]
  end.

Ltac shape_done :=
  simpl;
  repeat (rewrite Forall_app || rewrite Forall_cons || rewrite Forall_nil);
  simpl; repeat split; auto using calls_no_traffic.

(** [onmessage] changes nothing in the service; it calls subscribers, hands
    an event to the router, and writes to the console. *)
Lemma onmessage_shape (event : MessageEvent) (now : string)
  (s : WebSocketService) :
  exists effs r,
    onmessage event now s = (s, effs, r)
    /\ Forall (calls_within (map cb_id (callbacks s))) effs
    /\ Forall no_traffic effs.
Proof.
  unfold onmessage, then_reactions.
  match goal with
  | |- context [try_catch ?b ?h s] =>
      assert (Hsync : exists sync r,
                try_catch b h s = (s, sync, r)
                /\ Forall (calls_within (map cb_id (callbacks s))) sync
                /\ Forall no_traffic sync)
  end.
  { open_handler. destruct (parsed event) as [[|b|n|str|items|fields]|]; simpl.
    6: destruct (strict_eq_string (assoc "type" fields) "workflow_event");
         [destruct (assoc "event" fields) as [e|];
           [destruct (truthy (Some e))|]|].
    all: repeat loop_shape; do 2 eexists; (split; [reflexivity|]); shape_done. }
  destruct Hsync as (sync & r & -> & Hw & Hn).
  do 2 eexists. split; [reflexivity|]. rewrite !Forall_app.
  repeat split; try done; by apply reactions_forward.
Qed.

(** Every action calls only subscribers that are registered when it
    starts, and changes the subscriber list only by subscribing and
    unsubscribing. *)
Lemma perform_calls (a : Action) (s : WebSocketService) :
  Forall (calls_within (map cb_id (callbacks s)))
    (snd (fst (perform wsBaseUrl a s)))
  /\ callbacks (fst (fst (perform wsBaseUrl a s)))
     = match a with
       | Subscribe cb => callbacks s ++ [cb]
       | Unsubscribe cb =>
           List.filter (fun x => negb (Nat.eqb (cb_id x) (cb_id cb))) (callbacks s)
       | _ => callbacks s
       end.
Proof.
  destruct a as [[now|event now|now| |]|p| |cb|cb|open message];
    cbn [perform handle].
  - open_handler. loop_shape; shape_done.
  - destruct (onmessage_shape event now s) as (effs & r & -> & Hw & _).
    split; [exact Hw|reflexivity].
  - open_handler. loop_shape; [|shape_done].
    destruct (Nat.ltb (reconnectAttempts s) maxReconnectAttempts);
      simpl; shape_done.
  - open_handler. destruct (ws s); simpl; shape_done.
  - open_handler. destruct (projectId s) as [p|]; simpl; [|shape_done].
    destruct (String.eqb p ""); simpl; shape_done.
  - open_handler. destruct (String.eqb p ""); simpl; shape_done.
  - open_handler. destruct (ws s); simpl; shape_done.
  - open_handler. shape_done.
  - open_handler. shape_done.
  - unfold sendMessage. open_handler.
    destruct (ws s); [destruct open|]; simpl; shape_done.
Qed.

(** While the service holds no project id and no socket, no action but
    [connect] opens a socket or sends a frame, and it stays that way. *)
Lemma perform_offline (a : Action) (s : WebSocketService) :
  is_connect a = false -> projectId s = None -> ws s = None ->
  projectId (fst (fst (perform wsBaseUrl a s))) = None
  /\ ws (fst (fst (perform wsBaseUrl a s))) = None
  /\ Forall no_traffic (snd (fst (perform wsBaseUrl a s))).
Proof.
  intros Ha Hp Hw.
  destruct a as [[now|event now|now| |]|p| |cb|cb|open message];
    try discriminate; cbn [perform handle].
  - open_handler. loop_shape; shape_done.
  - destruct (onmessage_shape event now s) as (effs & r & -> & _ & Hn).
    repeat split; [exact Hp|exact Hw|exact Hn].
  - open_handler. loop_shape; [|shape_done].
    destruct (Nat.ltb (reconnectAttempts s) maxReconnectAttempts);
      simpl; shape_done.
  - open_handler. rewrite Hw. simpl. shape_done.
  - open_handler. rewrite Hp. simpl. shape_done.
  - open_handler. rewrite Hw. simpl. shape_done.
  - open_handler. shape_done.
  - open_handler. shape_done.
  - unfold sendMessage. open_handler. rewrite Hw. simpl. shape_done.
Qed.

Lemma play_cons (a : Action) (acts : list Action) (s : WebSocketService) :
  play wsBaseUrl (a :: acts) s
  = (fst (play wsBaseUrl acts (fst (fst (perform wsBaseUrl a s)))),
     snd (fst (perform wsBaseUrl a s))
       ++ snd (play wsBaseUrl acts (fst (fst (perform wsBaseUrl a s))))).
Proof.
  simpl. destruct (perform wsBaseUrl a s) as [[s1 e1] r]. simpl.
  by destruct (play wsBaseUrl acts s1).
Qed.

(** X25: unsubscribing is final.  After the handle returned by [subscribe]
    has been called, no event or method call makes the service call that
    subscriber again, until it is subscribed anew; every registration of it
    is gone at once. *)
Theorem unsubscribed_is_never_called (callback : WebSocketCallback)
  (acts : list Action) (s : WebSocketService) :
  Forall (fun a => subscribes (cb_id callback) a = false) acts ->
  let s0 := fst (fst (unsubscribe callback s)) in
  List.filter (is_call_to (cb_id callback)) (snd (play wsBaseUrl acts s0)) = []
  /\ ~ In (cb_id callback) (map cb_id (callbacks s0)).
Proof.
  intros Hacts s0.
  assert (H0 : ~ In (cb_id callback) (map cb_id (callbacks s0))).
  { unfold s0. open_handler. rewrite in_map_iff. intros (x & Hx & Hin).
    apply filter_In in Hin as [_ Hin]. rewrite Hx, Nat.eqb_refl in Hin.
    discriminate. }
  split; [|exact H0].
  clearbody s0. revert s0 H0.
  induction Hacts as [|a acts Ha _ IH]; intros s0 H0; [reflexivity|].
  rewrite play_cons. cbn [snd]. rewrite List.filter_app.
  destruct (perform_calls a s0) as (Hw & Hcb).
  rewrite (within_not_called _ _ _ H0 Hw). simpl. apply IH.
  rewrite Hcb. destruct a as [e|p| |cb|cb|open message]; try exact H0.
  - rewrite map_app, in_app_iff. intros [Hin|[Hin|[]]]; [by apply H0|].
    simpl in Ha. apply Nat.eqb_neq in Ha. by apply Ha.
  - rewrite in_map_iff. intros (x & Hx & Hin).
    apply filter_In in Hin as [Hin _]. apply H0.
    apply in_map_iff. eauto.
Qed.

Lemma play_offline (acts : list Action) (s0 : WebSocketService) :
  Forall (fun a => is_connect a = false) acts ->
  projectId s0 = None -> ws s0 = None ->
  projectId (fst (play wsBaseUrl acts s0)) = None
  /\ Forall no_traffic (snd (play wsBaseUrl acts s0)).
Proof.
  intros Hacts. revert s0.
  induction Hacts as [|a acts Ha _ IH]; intros s0 Hp Hw.
  - simpl. by split.
  - rewrite play_cons. cbn [fst snd].
    destruct (perform_offline a s0 Ha Hp Hw) as (Hp' & Hw' & Hn).
    destruct (IH _ Hp' Hw') as (Hp'' & Hn'').
    split; [exact Hp''|]. apply Forall_app. by split.
Qed.

(** X26: [disconnect] ends the reconnecting.  After it, and until [connect]
    is called again, no socket is opened and no frame is sent, whatever the
    old socket still reports and whichever timers still fire; the project
    id stays cleared; and a second [disconnect] does nothing at all. *)
Theorem disconnect_stops_reconnecting (acts : list Action)
  (s : WebSocketService) :
  Forall (fun a => is_connect a = false) acts ->
  let s0 := fst (fst (disconnect s)) in
  let r := play wsBaseUrl acts s0 in
  List.filter is_new_socket (snd r) = []
  /\ List.filter is_send (snd r) = []
  /\ projectId (fst r) = None
  /\ disconnect s0 = (s0, [], Normal tt).
Proof.
  intros Hacts s0 r.
  assert (H0 : projectId s0 = None /\ ws s0 = None).
  { unfold s0. open_handler. destruct (ws s) eqn:Hws; simpl; by rewrite ?Hws. }
  assert (Hidem : disconnect s0 = (s0, [], Normal tt)).
  { destruct H0 as (Hp & Hw). open_handler. rewrite Hw. simpl.
    destruct s0 as [w cbs n pid]. simpl in *. by subst. }
  destruct (play_offline acts s0 Hacts (proj1 H0) (proj2 H0)) as (Hp & Hn).
  fold r in Hp, Hn.
  assert (Hfilter : forall P : Effect -> bool,
    (forall e, no_traffic e -> P e = false) -> List.filter P (snd r) = []).
  { intros P HP. induction Hn as [|e l He _ IH]; [reflexivity|].
    simpl. by rewrite (HP e He). }
  repeat split; try done.
  - apply Hfilter. by intros [].
  - apply Hfilter. by intros [].
Qed.

Lemma filter_calls_map (cbs : list WebSocketCallback) (m : json) :
  List.filter is_call (map (fun cb => Call (cb_id cb) m) cbs)
  = map (fun cb => Call (cb_id cb) m) cbs.
Proof. induction cbs as [|cb cbs IH]; [reflexivity|]. simpl. by rewrite IH. Qed.

(** X27: when a subscriber throws on a parsed frame, the frame is treated
    as if it had not parsed: the subscribers before the faulty one have
    received the frame, the ones after it have not, and then every
    subscriber, the first ones again, receives the LOG envelope made of the
    frame text. *)
Theorem throwing_subscriber_turns_frame_into_log (event : MessageEvent)
  (now : string) (s : WebSocketService) (data : json)
  (pre post : list WebSocketCallback) (bad : WebSocketCallback) :
  parsed event = Some data -> data <> JNull ->
  callbacks s = pre ++ bad :: post ->
  Forall (fun cb => cb_throws cb data = false) pre ->
  cb_throws bad data = true ->
  Forall (fun cb => cb_throws cb (fallbackMessage (frame event) now) = false)
    (callbacks s) ->
  let log := fallbackMessage (frame event) now in
  fst (fst (onmessage event now s)) = s
  /\ snd (onmessage event now s) = Normal tt
  /\ List.filter is_call (snd (fst (onmessage event now s)))
     = map (fun cb => Call (cb_id cb) data) pre
       ++ [Call (cb_id bad) data]
       ++ map (fun cb => Call (cb_id cb) log) (callbacks s).
Proof.
  intros Hparse Hnull Hcbs Hpre Hbad Hlog log.
  assert (Hbody := forEach_call_throws pre post bad data s Hpre Hbad).
  rewrite <- Hcbs in Hbody.
  assert (Hcatch := forEach_call_quiet (callbacks s)
                      (fallbackMessage (frame event) now) s Hlog).
  open_handler. rewrite Hparse.
  destruct data as [|b|n|str|items|fields]; try done; simpl.
  5: destruct (strict_eq_string (assoc "type" fields) "workflow_event");
       [destruct (assoc "event" fields) as [e|];
         [destruct (truthy (Some e))|]|].
  all: rewrite Hbody; simpl; rewrite Hcatch; simpl; fold_reactions;
    rewrite ?List.filter_app; simpl; fold_reactions;
    rewrite ?(filter_reactions is_call) by done;
    rewrite ?List.filter_app; simpl;
    rewrite !filter_calls_map, ?app_nil_r, <- ?app_assoc; by repeat split.
Qed.

(** X28: a frame reaches the event router at most once: exactly once when
    it is a [workflow_event] object with a truthy [event], whether or not a
    subscriber throws, and never otherwise. *)
Theorem workflow_event_forwarded_once (event : MessageEvent) (now : string)
  (s : WebSocketService) :
  List.filter is_forward (snd (fst (onmessage event now s)))
  = match forwarded_event event with
    | Some e => [HandleEvent e]
    | None => []
    end.
Proof.
  assert (Hloop : forall calls, Forall (fun e => is_call e = true) calls ->
                                List.filter is_forward calls = []).
  { intros calls. by apply calls_filtered. }
  unfold forwarded_event. open_handler.
  destruct (parsed event) as [[|b|n|str|items|fields]|]; simpl.
  6: destruct (strict_eq_string (assoc "type" fields) "workflow_event");
       [destruct (assoc "event" fields) as [e|];
         [destruct (truthy (Some e)) eqn:Htr; simpl in Htr; rewrite ?Htr|]|].
  all: repeat loop_shape; simpl; fold_reactions;
    rewrite ?omap_app; simpl; fold_reactions;
    rewrite ?(calls_no_reaction calls), ?(calls_no_reaction calls0) by done;
    rewrite ?List.filter_app; simpl; rewrite ?List.filter_app; simpl;
    by rewrite ?Hloop by done.
Qed.

End SessionFacts.

(** ** The dashboard page: what guards against another project *)

Section PageFacts.

Import Transport.

Variable wsBaseUrl : string.





End PageFacts.

(** ** The further properties on concrete inputs *)

Section FurtherRuns.

Import Envelope Dashboard Reading.

Lemma getHistory_limit_zero_witness :
  let thinking := Sample.event "agent_thinking" "proj-1" (Some "requirements") in
  let started := Sample.event "stage_started" "proj-1" (Some "requirements") in
  EventRouter.getHistory (Some "agent_thinking") (Some 0%Z)
    (EventRouter.handleEvents [thinking; started; thinking]
       EventRouter.eventHandler)
  = [thinking; thinking].
Proof.
  destruct (getHistory_limit_zero (Some "agent_thinking")
              EventRouter.eventHandler
              [Sample.event "agent_thinking" "proj-1" (Some "requirements");
               Sample.event "stage_started" "proj-1" (Some "requirements");
               Sample.event "agent_thinking" "proj-1" (Some "requirements")]
              1%positive)
    as (H & _).
  exact H.
Defined.

Lemma history_retains_every_event_witness :
  let thinking := Sample.event "agent_thinking" "proj-1" (Some "requirements") in
  let started := Sample.event "stage_started" "proj-1" (Some "requirements") in
  let ops := [EventRouter.CallOn "stage_started" 7;
              EventRouter.CallHandleEvent started;
              EventRouter.CallOff "stage_started" 7;
              EventRouter.CallHandleEvent thinking] in
  EventRouter.getHistory (Some "agent_thinking") None
    (EventRouter.handleEvents [thinking; started; thinking]
       EventRouter.eventHandler)
  = [thinking; thinking]
  /\ EventRouter.getHistory None None
       (EventRouter.calls ops EventRouter.eventHandler)
     = [started; thinking].
Proof.
  destruct (history_retains_every_event
              [Sample.event "agent_thinking" "proj-1" (Some "requirements");
               Sample.event "stage_started" "proj-1" (Some "requirements");
               Sample.event "agent_thinking" "proj-1" (Some "requirements")]
              [EventRouter.CallOn "stage_started" 7;
               EventRouter.CallHandleEvent
                 (Sample.event "stage_started" "proj-1" (Some "requirements"));
               EventRouter.CallOff "stage_started" 7;
               EventRouter.CallHandleEvent
                 (Sample.event "agent_thinking" "proj-1" (Some "requirements"))]
              EventRouter.eventHandler "agent_thinking" None 1%positive)
    as (_ & H2 & _ & H4 & _).
  split.
  - apply H2. discriminate.
  - apply H4. reflexivity.
Defined.

Lemma on_off_restores_dispatch_witness :
  let e := Sample.event "stage_started" "proj-1" (Some "requirements") in
  times 7 (EventRouter.get_listeners "stage_started" EventRouter.eventHandler) = 0
  /\ called (EventRouter.off "stage_started" 7
               (EventRouter.on "stage_started" 7 EventRouter.eventHandler)) e
     = called EventRouter.eventHandler e
  /\ EventRouter.eventHistory
       (EventRouter.off "stage_started" 7
          (EventRouter.on "stage_started" 7 EventRouter.eventHandler))
     = EventRouter.eventHistory EventRouter.eventHandler.
Proof.
  split; [reflexivity|].
  apply (on_off_restores_dispatch "stage_started" 7 EventRouter.eventHandler).
  reflexivity.
Defined.

Lemma off_removes_one_registration_witness :
  let h := EventRouter.on "stage_started" 7
             (EventRouter.on "stage_started" 8
                (EventRouter.on "stage_started" 7 EventRouter.eventHandler)) in
  EventRouter.get_listeners "stage_started" h = [7; 8; 7]
  /\ EventRouter.get_listeners "stage_started"
       (EventRouter.off "stage_started" 7 h)
     = [8; 7].
Proof.
  split; [reflexivity|].
  destruct (off_removes_one_registration "stage_started" "stage_started" 7 7
              (EventRouter.on "stage_started" 7
                 (EventRouter.on "stage_started" 8
                    (EventRouter.on "stage_started" 7 EventRouter.eventHandler))))
    as (H & _).
  apply (H [] [8; 7]); [reflexivity|]. intros [].
Defined.

Lemma stage_names_are_fixed_witness :
  let evs := [Sample.event "stage_started" "proj-1" (Some "requirements");
              Sample.event "stage_started" "proj-1" (Some "testing");
              Sample.event "stage_failed" "proj-2" (Some "toString")] in
  existsb (fatal "proj-1" ProgressTimeline.initial) evs = false
  /\ exists m',
       ProgressTimeline.handleEvents "proj-1" evs ProgressTimeline.initial
       = Normal m'
       /\ ProgressTimeline.name <$> m' !! "requirements"
          = ProgressTimeline.name <$> ProgressTimeline.initial !! "requirements"
       /\ dom m' = dom ProgressTimeline.initial.
Proof.
  split; [vm_compute; reflexivity|].
  apply (stage_names_are_fixed "proj-1" "requirements").
  vm_compute. reflexivity.
Defined.

Lemma stage_log_is_its_events_witness :
  let evs := [Sample.event "stage_started" "proj-1" (Some "requirements");
              Sample.event "agent_thinking" "proj-1" (Some "architecture");
              Sample.event "agent_thinking" "proj-2" (Some "requirements");
              Sample.event "stage_completed" "proj-1" (Some "requirements")] in
  existsb (fatal "proj-1" ProgressTimeline.initial) evs = false
  /\ exists m',
       ProgressTimeline.handleEvents "proj-1" evs ProgressTimeline.initial
       = Normal m'
       /\ ProgressTimeline.events <$> m' !! "requirements"
          = (fun info =>
               ProgressTimeline.events info
                 ++ List.filter (accepted "proj-1" "requirements") evs)
            <$> ProgressTimeline.initial !! "requirements".
Proof.
  split; [vm_compute; reflexivity|].
  apply (stage_log_is_its_events "proj-1" "requirements").
  vm_compute. reflexivity.
Defined.

Lemma stage_status_last_event_wins_witness :
  let evs := [Sample.event "stage_completed" "proj-1" (Some "requirements");
              Sample.event "agent_thinking" "proj-1" (Some "requirements");
              Sample.event "stage_started" "proj-1" (Some "requirements")] in
  existsb (fatal "proj-1" ProgressTimeline.initial) evs = false
  /\ exists m',
       ProgressTimeline.handleEvents "proj-1" evs ProgressTimeline.initial
       = Normal m'
       /\ ProgressTimeline.status_of "requirements" m'
          = (fun info =>
               default (ProgressTimeline.status info)
                 (last (omap status_event
                          (List.filter (accepted "proj-1" "requirements") evs))))
            <$> ProgressTimeline.initial !! "requirements".
Proof.
  split; [vm_compute; reflexivity|].
  apply (stage_status_last_event_wins "proj-1" "requirements").
  vm_compute. reflexivity.
Defined.

Lemma unknown_stage_events_change_nothing_witness :
  let evs := [Sample.event "stage_started" "proj-1" (Some "testing");
              Sample.event "stage_completed" "proj-2" (Some "qa");
              Sample.event "workflow_started" "proj-1" None] in
  ProgressTimeline.handleEvents "proj-1" evs ProgressTimeline.initial
  = Normal ProgressTimeline.initial
  /\ ProgressTimeline.handleEvents "proj-1"
       (Sample.event "stage_started" "proj-1" (Some "constructor") :: evs)
       ProgressTimeline.initial
     = Throw.
Proof.
  destruct (unknown_stage_events_change_nothing "proj-1"
              [Sample.event "stage_started" "proj-1" (Some "testing");
               Sample.event "stage_completed" "proj-2" (Some "qa");
               Sample.event "workflow_started" "proj-1" None]
              ProgressTimeline.initial) as (H1 & _ & H3).
  - intros e st Hin Hst.
    destruct Hin as [<-|[<-|[<-|[]]]]; try reflexivity.
    destruct (String.eqb_spec "testing" st) as [<-|Hne].
    + vm_compute in Hst. destruct Hst as [x Hx]. discriminate.
    + unfold accepted. cbn [Sample.event Event.project_id Event.stage].
      apply String.eqb_neq in Hne. rewrite Hne. reflexivity.
  - split.
    + apply H1. vm_compute. reflexivity.
    + apply (H3 _ "constructor"); try reflexivity. by left.
Defined.

Lemma toggle_twice_is_identity_witness :
  is_Some (ProgressTimeline.initial !! "qa")
  /\ exists m',
       ProgressTimeline.toggleStageExpansion "qa" ProgressTimeline.initial
       = Normal m'
       /\ ProgressTimeline.toggleStageExpansion "qa" m'
          = Normal ProgressTimeline.initial
       /\ (forall st, ProgressTimeline.status_of st m'
                      = ProgressTimeline.status_of st ProgressTimeline.initial)
       /\ ProgressTimeline.expanded <$> m' !! "qa"
          = negb <$> (ProgressTimeline.expanded
                        <$> ProgressTimeline.initial !! "qa").
Proof.
  assert (H : is_Some (ProgressTimeline.initial !! "qa"))
    by (vm_compute; eauto).
  split; [exact H|].
  exact (toggle_twice_is_identity "qa" ProgressTimeline.initial H).
Defined.

Lemma failed_poll_keeps_state_witness :
  "proj-1" <> ""
  /\ fetchStatus (Some "proj-1") 2 Rejected Sample.fresh
     = (Sample.fresh, Some 4000%Z).
Proof.
  split; [discriminate|].
  destruct (failed_poll_keeps_state "proj-1" 2 0 Sample.fresh) as (H & _).
  - discriminate.
  - exact H.
Defined.

Lemma poll_keeps_paths_distinct_witness :
  let f := Sample.file "requirements.md" "docs/requirements.md" "draft" false in
  let g := Sample.file "architecture.md" "docs/architecture.md" "layers" false in
  let s := setFiles (fun _ => [f]) Sample.fresh in
  List.NoDup (map path (files s))
  /\ List.NoDup
       (map path
          (files (fst (fetchStatus (Some "proj-1") 0
                         (Resolved (Sample.snapshot [g; f; g])) s)))).
Proof.
  assert (H : List.NoDup
                (map path
                   (files (setFiles
                             (fun _ => [Sample.file "requirements.md"
                                          "docs/requirements.md" "draft" false])
                             Sample.fresh)))).
  { simpl. constructor; [by intros []|constructor]. }
  split; [exact H|].
  exact (poll_keeps_paths_distinct (Some "proj-1") 0 _ _ H).
Defined.

Lemma push_keeps_filenames_distinct_witness :
  let f := Sample.file "requirements.md" "docs/requirements.md" "draft" false in
  let f' := Sample.file "requirements.md" "docs/requirements.md" "final" true in
  let s := setFiles (fun _ => [f]) Sample.fresh in
  let s' := subscriber Sample.getTime Sample.at_mount (FILE_GENERATED f') s in
  List.NoDup (map filename (files s))
  /\ List.NoDup (map filename (files s'))
  /\ In f' (files s')
  /\ subscriber Sample.getTime Sample.at_mount (FILE_GENERATED f') s' = s'.
Proof.
  assert (H : List.NoDup
                (map filename
                   (files (setFiles
                             (fun _ => [Sample.file "requirements.md"
                                          "docs/requirements.md" "draft" false])
                             Sample.fresh)))).
  { simpl. constructor; [by intros []|constructor]. }
  split; [exact H|].
  exact (push_keeps_filenames_distinct Sample.getTime Sample.at_mount _ _ H).
Defined.

Lemma chat_redelivery_is_idempotent_witness :
  let m := CHAT_RESPONSE "Requirements are ready." None None
             "2025-11-23T17:25:39.000Z" in
  Sample.getTime "2025-11-23T17:25:39.000Z" = Some 1763918739000%Z
  /\ subscriber Sample.getTime Sample.at_mount m
       (subscriber Sample.getTime Sample.at_mount m Sample.fresh)
     = subscriber Sample.getTime Sample.at_mount m Sample.fresh.
Proof.
  split; [reflexivity|].
  apply (chat_redelivery_is_idempotent Sample.getTime Sample.at_mount _
           {| role := ai; content := "Requirements are ready.";
              timestamp := "2025-11-23T17:25:39.000Z" |}
           1763918739000); reflexivity.
Defined.

Lemma unparsed_timestamp_is_never_duplicate_witness :
  let e := {| role := ai; content := "Done."; timestamp := "just now" |} in
  Sample.getTime "just now" = None
  /\ chatMessages
       (steps Sample.getTime Sample.at_mount
          [Push (CHAT_MESSAGE ai "Done." "just now");
           Push (CHAT_MESSAGE ai "Done." "just now")] Sample.fresh)
     = chatMessages Sample.fresh ++ [e; e].
Proof.
  split; [reflexivity|].
  apply (unparsed_timestamp_is_never_duplicate Sample.getTime Sample.at_mount).
  reflexivity.
Defined.

Lemma send_message_outcome_witness :
  let old := {| role := user; content := "approve";
                timestamp := "2025-11-23T17:25:30.000Z" |} in
  let s := setChatMessages (fun _ => [old]) Sample.fresh in
  let s' := handleSendMessage Sample.getTime (Some "proj-1") "approve"
              "2025-11-23T17:25:39.000Z" 1763918739000 false
              "2025-11-23T17:25:40.500Z" s in
  "proj-1" <> ""
  /\ isChatLoading s' = false
  /\ chatMessages s'
     = [old;
        {| role := user; content := "approve";
           timestamp := "2025-11-23T17:25:39.000Z" |};
        {| role := ai;
           content := "Sorry, I encountered an error processing your message. Please check your connection.";
           timestamp := "2025-11-23T17:25:40.500Z" |}].
Proof.
  split; [discriminate|].
  destruct (send_message_outcome Sample.getTime "proj-1" "approve"
              "2025-11-23T17:25:39.000Z" 1763918739000 false
              "2025-11-23T17:25:40.500Z"
              (setChatMessages
                 (fun _ => [{| role := user; content := "approve";
                               timestamp := "2025-11-23T17:25:30.000Z" |}])
                 Sample.fresh)) as (H1 & _ & H3 & _).
  - discriminate.
  - split; [exact H1|]. apply H3.
    intros m t [<-|[]] _ _ Ht. vm_compute in Ht. injection Ht as <-. lia.
Defined.

Lemma double_submit_adds_one_entry_witness :
  let s1 := handleSendMessage Sample.getTime (Some "proj-1") "approve"
              "2025-11-23T17:25:39.000Z" 1763918739000 true
              "2025-11-23T17:25:39.000Z" Sample.fresh in
  let s2 := handleSendMessage Sample.getTime (Some "proj-1") "approve"
              "2025-11-23T17:25:40.500Z" 1763918740500 true
              "2025-11-23T17:25:40.500Z" s1 in
  (1763918740500 - 5000 < 1763918739000)%Z
  /\ chatMessages s2
     = chatMessages Sample.fresh
       ++ [{| role := user; content := "approve";
              timestamp := "2025-11-23T17:25:39.000Z" |}].
Proof.
  split; [lia|].
  apply (double_submit_adds_one_entry Sample.getTime "proj-1" "approve"
           "2025-11-23T17:25:39.000Z" "2025-11-23T17:25:40.500Z"
           1763918739000 1763918739000 1763918740500).
  - discriminate.
  - reflexivity.
  - lia.
  - intros m [].
Defined.

Lemma cache_restores_per_project_witness :
  let s := setChatMessages
             (fun _ => [{| role := user; content := "Build a calculator";
                           timestamp := "2025-11-23T17:25:39.000Z" |}])
             Sample.fresh in
  let store := Cache.persist (Some "proj-1") s ∅ in
  "proj-1" <> "" /\ "proj-2" <> "proj-1"
  /\ Cache.loadChat (Some "proj-1") store = Some (chatMessages s)
  /\ Cache.loadChat (Some "proj-2") store = Cache.loadChat (Some "proj-2") ∅.
Proof.
  split; [discriminate|]. split; [discriminate|].
  destruct (cache_restores_per_project "proj-1" "proj-2"
              (setChatMessages
                 (fun _ => [{| role := user; content := "Build a calculator";
                               timestamp := "2025-11-23T17:25:39.000Z" |}])
                 Sample.fresh) ∅) as (H1 & _ & H3 & _).
  - discriminate.
  - discriminate.
  - split; [exact H1|exact H3].
Defined.

Lemma written_store_loads_witness :
  let s := setChatMessages
             (fun _ => [{| role := user; content := "Build a calculator";
                           timestamp := "2025-11-23T17:25:39.000Z" |}])
             Sample.fresh in
  let store := Cache.persist (Some "proj-1") s ∅ in
  Cache.written store
  /\ is_Some (Cache.loadChat (Some "proj-1") store)
  /\ is_Some (Cache.loadStatus (Some "proj-1") store).
Proof.
  assert (H : Cache.written
                (Cache.persist (Some "proj-1")
                   (setChatMessages
                      (fun _ => [{| role := user; content := "Build a calculator";
                                    timestamp := "2025-11-23T17:25:39.000Z" |}])
                      Sample.fresh) ∅)).
  { apply Cache.written_persist. apply Cache.written_empty. }
  split; [exact H|].
  exact (written_store_loads (Some "proj-1") _ H).
Defined.

End FurtherRuns.

Section SessionRuns.

Import Transport Session.

Lemma unsubscribed_is_never_called_witness :
  let now := "2025-11-23T17:25:39.000Z" in
  let s := Sample.connected_service [Sample.quiet 1; Sample.quiet 2] in
  let s0 := fst (fst (unsubscribe (Sample.quiet 1) s)) in
  let acts := [Browser (Opened now);
               Browser (Message {| frame := "{}"; parsed := Some (JObject []) |} now);
               Subscribe (Sample.quiet 3);
               Browser (Closed now)] in
  List.filter (is_call_to 1) (snd (play "ws://localhost:8005/ws" acts s0)) = []
  /\ ~ In 1 (map cb_id (callbacks s0)).
Proof.
  apply (unsubscribed_is_never_called "ws://localhost:8005/ws" (Sample.quiet 1)).
  repeat constructor.
Defined.

Lemma disconnect_stops_reconnecting_witness :
  let now := "2025-11-23T17:25:39.000Z" in
  let s := Sample.connected_service [Sample.quiet 1] in
  let s0 := fst (fst (disconnect s)) in
  let acts := [Browser (Closed now); Browser TimerFired;
               Send true (JString "approve"); Disconnect] in
  let r := play "ws://localhost:8005/ws" acts s0 in
  List.filter is_new_socket (snd r) = []
  /\ List.filter is_send (snd r) = []
  /\ projectId (fst r) = None
  /\ disconnect s0 = (s0, [], Normal tt).
Proof.
  apply (disconnect_stops_reconnecting "ws://localhost:8005/ws").
  repeat constructor.
Defined.

Lemma throwing_subscriber_turns_frame_into_log_witness :
  let now := "2025-11-23T17:25:39.000Z" in
  let event := {| frame := "{}"; parsed := Some (JObject []) |} in
  let s := Sample.connected_service
             [Sample.quiet 1; Sample.picky 2; Sample.quiet 3] in
  let log := fallbackMessage "{}" now in
  cb_throws (Sample.picky 2) (JObject []) = true
  /\ fst (fst (onmessage event now s)) = s
  /\ snd (onmessage event now s) = Normal tt
  /\ List.filter is_call (snd (fst (onmessage event now s)))
     = [Call 1 (JObject []); Call 2 (JObject []);
        Call 1 log; Call 2 log; Call 3 log].
Proof.
  split; [reflexivity|].
  apply (throwing_subscriber_turns_frame_into_log
           {| frame := "{}"; parsed := Some (JObject []) |}
           "2025-11-23T17:25:39.000Z"
           (Sample.connected_service
              [Sample.quiet 1; Sample.picky 2; Sample.quiet 3])
           (JObject []) [Sample.quiet 1] [Sample.quiet 3] (Sample.picky 2)).
  - reflexivity.
  - discriminate.
  - reflexivity.
  - repeat constructor.
  - reflexivity.
  - repeat constructor.
Defined.


(** The cleanup does not reach the socket it closed.  Its close event
    arrives once the effect has run for the next project, and is handled by
    the shared service: the subscriber of the next project is told that it
    is disconnected, and a second socket is opened for that project. *)
Example stale_close_reaches_next_project :
  let url := "ws://localhost:8005/ws" in
  let now := "2025-11-23T17:25:39.000Z" in
  let first :=
    fst (Page.effect url (Some "proj-1") (Sample.quiet 1)
           {| Page.live := None; Page.service := webSocketService |}) in
  let next :=
    fst (Page.effect url (Some "proj-2") (Sample.quiet 2)
           (fst (Page.cleanup first))) in
  snd (Page.occurrences url
         [Page.Browser (Closed now); Page.Browser TimerFired] next)
  = map Page.Service
      [ConsoleLog "WebSocket Disconnected";
       Call 2 (ConnectionStatusMessage false now);
       ConsoleLog "Attempting to reconnect...";
       SetTimeoutConnect 3000;
       ConsoleLog "Connecting to WebSocket: ws://localhost:8005/ws/proj-2";
       NewWebSocket "ws://localhost:8005/ws/proj-2"].
Proof. reflexivity. Qed.

End SessionRuns.
